(* ===== verification/_CoqProject ===== *)
-Q . S2P
Prelude.v
Config.v
Dates.v
ObjectId.v
PyValues.v
Schemas.v
Models.v
Store.v
Mongo.v
Handlers.v
Api.v
Response.v
Routing.v
Concurrency.v
Logging.v
