(* ===== verification/Prelude.v ===== *)
(** * A verification development of the passenger API (src/)

    ** The program

    src/ is a FastAPI service that stores passenger profiles in MongoDB:
    - [src/database.py] opens an [AsyncIOMotorClient] and exposes the
      collection [passenger_collection];
    - [src/schemas.py] declares the pydantic request schema
      [PassengerCreate] (5 required and 12 optional fields) and the
      response schema [PassengerResponse] (the same plus [id]);
    - [src/models.py] declares a [Passenger] model with the same fields,
      which main.py imports and never uses;
    - [src/main.py] holds the five routes [root], [create_passenger],
      [get_passenger], [update_passenger] and [delete_passenger], and the
      helpers [passenger_helper] and [convert_dates_to_string].
    A request is validated by FastAPI against [PassengerCreate], then the
    handler awaits one to three driver calls on the collection, reshapes
    the stored document with [passenger_helper], and turns every exception
    into [HTTPException(500, str(e))].  FastAPI validates the dict that
    create, get and update return against [PassengerResponse] before
    answering it.

    ** The files

    - Prelude.v (this file): the program monad [prog] in which handlers are
      written (free monad over awaited operations, [try_except] for
      [try/except], [run] against a state-passing implementation, and
      [awaits_within], a bound on the awaits before a program finishes),
      fixed-width digit
      strings ([pad_digits], [parse_digits]) with their round trips, ASCII
      [str.lower()], the tactics and the hint databases [pax] and [pax_rw].
    - Config.v, Module [Config]: database.py's configuration: the
      environment as a map, [load_dotenv] (no override), [MONGO_DETAILS]
      ([os.getenv("MONGO_URL")]), the client's default host, and the names
      [passenger_db] and [passenger_collection] that the driver's error
      messages quote.
    - Dates.v, Module [Date]: [datetime.date], its valid range,
      [isoformat] and [fromisoformat], which are inverse
      ([fromisoformat_spec]).
    - ObjectId.v, Module [Oid]: [bson.ObjectId] as a number below [2^96],
      [str] ([oid_str]) and the constructor on strings
      ([parse_object_id]); an accepted string is the id in either case
      ([parse_object_id_canonical]).
    - PyValues.v, Module [Py]: document values, the exceptions the handlers
      can raise and their [str()], [d[k]], [d.get(k)], [if d:].
    - Schemas.v, Module [Schema]: [PassengerCreate] as a record with
      pydantic's [__fields_set__], its dict views ([.dict()],
      [.dict(exclude_unset=True)], [jsonable_encoder]) and pydantic v1
      validation of a JSON body ([validate_PassengerCreate]).  The same
      validation written as pydantic's loop over a table of annotated
      fields ([validate_fields] over [PassengerCreate_fields]) is proved
      equal to it; [PassengerResponse_fields] is the table of
      [PassengerResponse].  The date parser and the email checker come
      from libraries: they are the parameters of the class [PydanticLib],
      and [PydanticLaws] states what the typing proofs assume of them.
    - Models.v, Module [Models]: [Passenger] of models.py as its field
      table, validated by the same loop, and [Config.orm_mode] with the
      [from_orm] it enables.
    - Store.v, Module [Store]: the four driver calls ([op]), the abstract
      store (a map from ObjectId to document with each call's behaviour,
      [abs_exec]), the interface [DocStore]/[DocStoreLaws] the handlers are
      proved against, the reference store [absstore], and [reads_only],
      the programs that await only [find_one].
    - Mongo.v, Module [Mongo]: the collection of database.py as a list of
      documents plus the driver's id counter, with the four calls;
      [Mongo_laws] discharges [DocStoreLaws], [exec_abstracts] relates it
      step by step to the reference store.
    - Handlers.v, Module [Main]: the code of main.py, one definition per
      function; [passenger_helper] and the handlers' behaviour on every
      path (Section [Service]: found, missing, invalid id, collision,
      update with and without modification), for any [DocStoreLaws] store.
    - Api.v, Module [Api]: FastAPI around the handlers ([serve] one
      request, [serve_all] a sequence), the store invariant [db_wf] as an
      instance of [keeps], which holds for every invariant on documents that
      the handlers' writes preserve, and the theorems a client relies on,
      with witnesses run on the collection model.
    - Response.v, Module [Resp]: the [response_model=PassengerResponse]
      validation of returned dicts ([serialize_response]) and FastAPI with
      it ([serve_http]); the typed-document invariant [db_typed].
    - Routing.v, Module [Route]: [app = FastAPI()] and the five route
      decorators of main.py as path templates ([route_root] ...
      [route_delete], in [app_routes]), Starlette's router on a method and
      a path ([route_app]: first full match, 405 on a path matched with
      another method, 307 redirect on a trailing slash, 404), FastAPI
      binding [{id}] and the body ([dispatch_request]), and
      [handle_http], serving an HTTP request through [serve_http].
    - Concurrency.v, Module [Conc]: concurrent requests (spec section 5).
      [step] makes the next awaited call of a running handler, and
      [interleave] runs two handlers under a schedule of such steps.  The races
      are proved by stage invariants: the set of states each handler can
      be in, preserved by every step of either (Section [Race]).
    - Logging.v, Module [Logs]: the handlers with their [logging] calls
      ([logged_get_passenger] and the others, over driver calls and log
      calls), [basicConfig(level=INFO)] as the enabled levels,
      [run_logged] producing the emitted records, [serve_logged] FastAPI
      with them, and [erase], which drops the log calls and gives back the
      handlers of Handlers.v.

    ** The theorems

    The claims C1 to C31 are the doc comments of their theorems.
    - Behaviour of each route on every path, stated on [serve] (Api.v):
      create answers the stored record (C4), and a read of the id it
      answers returns that record (C5); update merges the body's fields
      over the stored ones (C2); delete removes (C6); a body without a
      required field answers 422, so updates cannot be partial (C7); an
      id that is not an ObjectId answers 500 with bson's [InvalidId]
      message (C8).
    - The error paths that differ from the spec: a missing record answers
      500 with detail "404: Passenger not found", not 404 (C1, C6); an
      update that modifies nothing, such as a repeated one, does the same
      (C3).  The example scenario of the spec answers 200, 200, 422, 200,
      500 ([spec_scenario_responses], Api.v), and every update stores an
      extra ["id"] field (C13).
    - The helpers (Handlers.v): [passenger_helper] answers the normalised
      record or raises [KeyError] (C9); dates are stored as the one ISO
      string that reads back as the date (C10).
    - Routing (Routing.v): a request whose id is one path segment, sent
      with its method, path and body, reaches its endpoint with that id,
      and whatever reaches an endpoint is such a request, its path
      possibly followed by a newline, which Python's [$] also accepts
      (C12); sent over HTTP, it is answered as [serve] answers it, on a
      store of typed documents (C22).
    - Concurrency (Concurrency.v): two updates of one passenger that both
      read before either writes both answer 200, and the first one's
      changes are lost (C11); a delete between the read and the write of
      an update makes the update answer 500 (C28); a read racing an
      update, on any schedule that lets both finish, answers the record
      from before or after it, and the update answers as alone (C29).
    - System properties of [serve] on a well-formed store: no request
      answers 404, only 200, 422 or 500 (C14); a 200 record has exactly
      the response-shape fields (C15); a read changes nothing, proved
      from the shape of [get_passenger], which only awaits [find_one]
      (C16); a request changes no document but the one it names (C17).
    - The update payload holds exactly the fields present in the body,
      and a field sent as [null] clears the stored value (C18).
    - The response model (Response.v): every stored document stays typed
      (C19); on such stores the validation against [PassengerResponse]
      changes no answer of any session, so the theorems on [serve] hold
      of [serve_http] (C20); a document written by another client with a
      required field set to [null] makes a read answer 500 (C21).
    - Creation: the email is answered with its domain lowercased (C23);
      when the driver's next id is taken, the creation answers 500 with
      the DuplicateKeyError message naming
      [passenger_db.passenger_collection] and stores nothing (C27).
    - Updates read back: after an update answers a record, a read answers
      the same record (C24).  Requests on distinct ids commute (C25).
    - Specification: [spec_serve] (Api.v) states every route directly on
      the map of stored documents; the handlers implement it, and a
      session without creations is determined by the stored documents
      alone (C26).
    - Logging (Logging.v): erasing the log calls of each logged handler
      gives the handler of Handlers.v ([erase_get] and the others), so
      every theorem above holds of the code with its logging; a read of a
      missing passenger logs INFO, WARNING and then an ERROR quoting
      "404: Passenger not found" (C30); a request answers 500 exactly
      when it logs an ERROR record, its last, whose text ends with the
      detail of the answer (C31).

    ** Bounds and fuel

    ObjectIds are numbers below [2^96] (12 bytes), and the driver's counter
    is taken modulo [2^96]; dates have years 1 to 9999 as in [datetime].
    No definition needs fuel: every handler is a finite [prog] tree, and
    [run], the digit functions and the list functions recurse structurally.
    Each handler awaits at most three driver calls ([update_passenger]:
    find, update, find again), proved as [awaits_within] bounds in
    Handlers.v; C29 uses the bounds of the read (one) and the update
    (three) to know that both have finished.

    ** Not modelled

    What remains of src/ is imports, comments and blank lines; the
    following behaviours of the libraries the code calls are left out:
    - the text Python prints for a document in a log line (a dict's repr
      follows its insertion order, which the document model does not
      keep: such a record holds the document itself), and the log
      handler's output format and timestamps;
    - opening the client's network connection (I/O);
    - HTTP below the decoded request: percent-decoding of the path,
      headers (the redirect's [Location] is its path), [HEAD] and
      [OPTIONS], and the byte-level JSON encoding of bodies (a body is the
      dict it encodes, and the plain-text body of an uncaught error is
      written as its detail);
    - pydantic's date parser and email checker, which are the parameters
      of [PydanticLib] with the laws [PydanticLaws], not one library
      version's code;
    - the text of the driver's error messages beyond their documented
      shape (the server's write error quoted in a [DuplicateKeyError] is
      the one MongoDB 4.4 and later return), and the extra formats
      [date.fromisoformat] accepts from Python 3.11, which the service
      never calls;
    - the ids the driver generates: a fresh ObjectId is the process's
      counter, timestamp and random bytes; the collection model draws ids
      from a counter modulo [2^96] ([store_next_id]), and the theorems
      that depend on the id assume only whether it is taken;
    - a 24-character id with ASCII whitespace between hex pairs, which
      bson's [bytes.fromhex] turns into an ObjectId of fewer than 12
      bytes whose encoding the driver leaves undefined: [parse_object_id]
      refuses it as [InvalidId] (ObjectId.v);
    - JSON floats are carried as the text [str()] gives them
      ([JFloat]), since Python's float printing is not modelled. *)

From stdpp Require Export base gmap strings list.
From Stdlib Require Export NArith ZArith Ascii String Lia.

Declare Scope pax_scope.
Delimit Scope pax_scope with pax.
Open Scope pax_scope.

Create HintDb pax.
Create Rewrite HintDb pax_rw.

(** ** A program monad with exceptions and awaited operations

    An [async def] handler of the source is a sequence of [await]s on
    operations of an external component (the document store), interleaved
    with pure Python code that may raise.  [prog] is the free monad of such
    code: [Pure] returns, [Throw] raises, [Await o k] suspends on the
    operation [o] and resumes with [k] applied to its outcome (an exception
    raised by the operation, or its result).  Every suspension point of the
    source is one [Await] node, so a scheduler can interleave them. *)

Section Prog.
Context {Op : Type} {Res : Op -> Type} {Exn : Type}.

Inductive prog (A : Type) : Type :=
| Pure (a : A)
| Throw (e : Exn)
| Await (o : Op) (k : Exn + Res o -> prog A).

Arguments Pure {A} a.
Arguments Throw {A} e.
Arguments Await {A} o k.

Fixpoint prog_bind {A B} (f : A -> prog B) (p : prog A) : prog B :=
  match p with
  | Pure a => f a
  | Throw e => Throw e
  | Await o k => Await o (fun r => prog_bind f (k r))
  end.

(** [try: p except Exception as e: h e] *)
Fixpoint try_except {A} (p : prog A) (h : Exn -> prog A) : prog A :=
  match p with
  | Pure a => Pure a
  | Throw e => h e
  | Await o k => Await o (fun r => try_except (k r) h)
  end.

(** [await o]: an exception of the operation is re-raised at the await. *)
Definition await (o : Op) : prog (Res o) :=
  Await o (fun r => match r with inl e => Throw e | inr v => Pure v end).

(** Running a program against a state-passing implementation of the
    operations: each [Await] is one atomic step of the implementation. *)
Fixpoint run {S A} (exec : forall o : Op, S -> (Exn + Res o) * S)
    (p : prog A) (s : S) : (Exn + A) * S :=
  match p with
  | Pure a => (inr a, s)
  | Throw e => (inl e, s)
  | Await o k => let '(r, s') := exec o s in run exec (k r) s'
  end.
End Prog.

Arguments prog : clear implicits.
Arguments Pure {Op Res Exn A} a.
Arguments Throw {Op Res Exn A} e.
Arguments Await {Op Res Exn A} o k.

#[export] Instance prog_ret {Op Res Exn} : MRet (prog Op Res Exn) := fun _ a => Pure a.
#[export] Instance prog_mbind {Op Res Exn} : MBind (prog Op Res Exn) :=
  fun _ _ f p => prog_bind f p.
#[export] Instance prog_throw {Op Res Exn} : MThrow Exn (prog Op Res Exn) :=
  fun _ e => Throw e.

Notation "'try:' p 'except' e '=>' h" := (try_except p (fun e => h))
  (at level 10, p at level 100, e binder, h at level 200) : pax_scope.

(** [awaits_within n p]: whatever the awaited operations return, [p]
    finishes (returns or raises) after at most [n] of them. *)
Inductive awaits_within {Op Res Exn A} : nat -> prog Op Res Exn A -> Prop :=
| within_pure n a : awaits_within n (Pure a)
| within_throw n e : awaits_within n (Throw e)
| within_await n o k : (forall r, awaits_within n (k r)) -> awaits_within (S n) (Await o k).

#[export] Hint Constructors awaits_within : pax.

(** ** Fixed-width digit strings

    Python prints an ObjectId as 24 lowercase hex digits and a date as
    [%04d-%02d-%02d]: both are fixed-width renderings of a number in a
    base.  [pad_digits] is that rendering (most significant digit first,
    wrapping modulo [base ^ w] as a fixed-width field does), [parse_digits]
    reads it back. *)

Section Digits.
Context (base : N) (digit_char : N -> ascii) (char_digit : ascii -> option N).

Fixpoint pad_digits (w : nat) (v : N) : string :=
  match w with
  | O => EmptyString
  | S w' => pad_digits w' (v / base) ++ String (digit_char (v mod base)) EmptyString
  end.

Fixpoint parse_digits_from (acc : N) (s : string) : option N :=
  match s with
  | EmptyString => Some acc
  | String c s' =>
      match char_digit c with
      | Some d => parse_digits_from (acc * base + d) s'
      | None => None
      end
  end.

Definition parse_digits (s : string) : option N := parse_digits_from 0 s.
End Digits.

(** [split_at n s] is the pair [(s[:n], s[n:])] of Python slicing. *)
Fixpoint split_at (n : nat) (s : string) : string * string :=
  match n, s with
  | O, _ => (EmptyString, s)
  | S _, EmptyString => (EmptyString, EmptyString)
  | S n', String c s' => let '(a, b) := split_at n' s' in (String c a, b)
  end.

(** [str.lower()] on ASCII text: [A]-[Z] to [a]-[z]. *)
Definition ascii_lower (c : ascii) : ascii :=
  let n := N_of_ascii c in
  if ((65 <=? n) && (n <=? 90))%N then ascii_of_N (n + 32) else c.

Fixpoint string_map (f : ascii -> ascii) (s : string) : string :=
  match s with
  | EmptyString => EmptyString
  | String c s' => String (f c) (string_map f s')
  end.

Definition string_lower (s : string) : string := string_map ascii_lower s.

(** The successful outcome of [r] transformed by [f], an error kept. *)
Definition map_inr {E A B} (f : A -> B) (r : E + A) : E + B :=
  match r with inl e => inl e | inr a => inr (f a) end.

(** ** Tactics shared by the development *)

Ltac invc H := inversion H; subst; clear H.

(** Expose the [prog_bind]s behind stdpp's [x ← p; q] notation. *)
Ltac unfold_prog := unfold mbind, prog_mbind.

(** Case on every [match] in the goal, recording the scrutinee. *)
Ltac case_goal_match :=
  match goal with
  | |- context [match ?x with _ => _ end] =>
      let E := fresh "E" in destruct x eqn:E
  end.

(** ** Generic lemmas *)

Section RunLemmas.
Context {Op : Type} {Res : Op -> Type} {Exn : Type} {S : Type}.
Context (exec : forall o : Op, S -> (Exn + Res o) * S).

Lemma run_bind {A B} (p : prog Op Res Exn A) (f : A -> prog Op Res Exn B) s :
  run exec (prog_bind f p) s =
  match run exec p s with
  | (inl e, s') => (inl e, s')
  | (inr a, s') => run exec (f a) s'
  end.
Proof.
  revert s; induction p as [a|e|o k IH]; intros s; simpl; try done.
  destruct (exec o s) as [r s']; apply IH.
Qed.

Lemma run_try_except {A} (p : prog Op Res Exn A) h s :
  run exec (try_except p h) s =
  match run exec p s with
  | (inl e, s') => run exec (h e) s'
  | (inr a, s') => (inr a, s')
  end.
Proof.
  revert s; induction p as [a|e|o k IH]; intros s; simpl; try done.
  destruct (exec o s) as [r s']; apply IH.
Qed.

Lemma run_await o s : run exec (await o) s = exec o s.
Proof. simpl. destruct (exec o s) as [[e|v] s']; done. Qed.
End RunLemmas.

#[export] Hint Rewrite @run_bind @run_try_except @run_await : pax_rw.

Section Within.
Context {Op : Type} {Res : Op -> Type} {Exn : Type}.

Lemma within_mono {A} n m (p : prog Op Res Exn A) :
  awaits_within n p -> (n <= m)%nat -> awaits_within m p.
Proof.
  intros Hp. revert m. induction Hp as [| |n o k Hk IH]; intros m Hm; [constructor..|].
  destruct m as [|m]; [lia|]. constructor. intros r. apply IH. lia.
Qed.

Lemma within_bind {A B} n m (f : A -> prog Op Res Exn B) p :
  awaits_within n p -> (forall a, awaits_within m (f a)) -> awaits_within (n + m) (prog_bind f p).
Proof.
  intros Hp Hf. induction Hp as [n a|n e|n o k Hk IH]; simpl.
  - eapply within_mono; [apply Hf | lia].
  - constructor.
  - constructor. apply IH.
Qed.

(** The three shapes a handler is built from: a pure step that may
    raise, an awaited call, and a [try/except] whose handler does not
    await. *)
Lemma within_bind_pure {A B} n (f : A -> prog Op Res Exn B) p :
  awaits_within 0 p -> (forall a, awaits_within n (f a)) -> awaits_within n (prog_bind f p).
Proof. intros Hp Hf. apply (within_bind 0 n f p Hp Hf). Qed.

Lemma within_bind_await {B} n o (f : Res o -> prog Op Res Exn B) :
  (forall a, awaits_within n (f a)) -> awaits_within (S n) (prog_bind f (await o)).
Proof. intros Hf. constructor. intros [e|v]; simpl; [constructor | apply Hf]. Qed.

Lemma within_try {A} n (p : prog Op Res Exn A) h :
  awaits_within n p -> (forall e, awaits_within 0 (h e)) -> awaits_within n (try_except p h).
Proof.
  intros Hp Hh. induction Hp as [n a|n e|n o k Hk IH]; simpl.
  - constructor.
  - eapply within_mono; [apply Hh | lia].
  - constructor. apply IH.
Qed.

(** A finished program is the only kind within zero awaits. *)
Lemma within_zero {A} (p : prog Op Res Exn A) :
  awaits_within 0 p -> (exists a, p = Pure a) \/ (exists e, p = Throw e).
Proof. inversion 1; eauto. Qed.
End Within.

Lemma string_length_app (s1 s2 : string) :
  String.length (s1 ++ s2) = (String.length s1 + String.length s2)%nat.
Proof. induction s1 as [|c s1 IH]; simpl; [done | by rewrite IH]. Qed.

Lemma string_cons_app c (s1 s2 : string) :
  (String c s1 ++ s2)%string = String c (s1 ++ s2).
Proof. done. Qed.

Lemma string_nil_app (s : string) : (EmptyString ++ s)%string = s.
Proof. done. Qed.

Lemma string_app_assoc (a b c : string) : ((a ++ b) ++ c)%string = (a ++ b ++ c)%string.
Proof.
  induction a as [|x a IH]; [reflexivity|].
  rewrite !string_cons_app. by rewrite IH.
Qed.

#[export] Hint Rewrite string_length_app : pax_rw.

Section DigitsLemmas.
Context (base : N) (digit_char : N -> ascii) (char_digit : ascii -> option N).
Context (Hbase : (1 < base)%N).
Context (Hchar : forall d, (d < base)%N -> char_digit (digit_char d) = Some d).

Lemma pad_digits_length w v : String.length (pad_digits base digit_char w v) = w.
Proof.
  revert v; induction w as [|w IH]; intros v; simpl; [done|].
  rewrite string_length_app, IH. simpl. lia.
Qed.

Lemma parse_digits_from_app acc s1 s2 :
  parse_digits_from base char_digit acc (s1 ++ s2) =
  match parse_digits_from base char_digit acc s1 with
  | Some a => parse_digits_from base char_digit a s2
  | None => None
  end.
Proof.
  revert acc; induction s1 as [|c s1 IH]; intros acc; simpl; [done|].
  destruct (char_digit c); [apply IH|done].
Qed.

Lemma mod_pow_succ v w :
  ((v / base) mod base ^ N.of_nat w * base + v mod base =
   v mod base ^ N.of_nat (S w))%N.
Proof.
  rewrite Nat2N.inj_succ, N.pow_succ_r', N.Div0.mod_mul_r. lia.
Qed.

Lemma parse_pad_digits acc w v :
  parse_digits_from base char_digit acc (pad_digits base digit_char w v) =
  Some (acc * base ^ N.of_nat w + v mod base ^ N.of_nat w)%N.
Proof.
  revert acc v; induction w as [|w IH]; intros acc v.
  - simpl. rewrite N.mod_1_r. f_equal. lia.
  - simpl pad_digits. rewrite parse_digits_from_app, IH. simpl.
    rewrite Hchar by (apply N.mod_lt; lia).
    f_equal. rewrite <- mod_pow_succ, Nat2N.inj_succ, N.pow_succ_r'. lia.
Qed.

(** Reading back a rendering gives the number, when it fits the width. *)
Lemma parse_digits_pad w v :
  (v < base ^ N.of_nat w)%N -> parse_digits base char_digit (pad_digits base digit_char w v) = Some v.
Proof.
  intros Hv. unfold parse_digits. rewrite parse_pad_digits, N.mod_small by done. done.
Qed.
End DigitsLemmas.

#[export] Hint Rewrite pad_digits_length : pax_rw.

(** A property decided by a boolean test holds below a bound when it holds
    at each of the finitely many numbers below it: used to check digit
    tables by computation. *)
Lemma N_below_by_enum (f : N -> bool) (n : nat) :
  forallb f (map N.of_nat (seq 0 n)) = true ->
  forall d, (d < N.of_nat n)%N -> f d = true.
Proof.
  intros Hall d Hd. rewrite forallb_forall in Hall. apply Hall.
  apply in_map_iff. exists (N.to_nat d). split; [lia|].
  apply in_seq. lia.
Qed.

Lemma N_below_by_decide (P : N -> Prop) `{forall d, Decision (P d)} (n : nat) :
  forallb (fun d => bool_decide (P d)) (map N.of_nat (seq 0 n)) = true ->
  forall d, (d < N.of_nat n)%N -> P d.
Proof.
  intros Hall d Hd.
  pose proof (N_below_by_enum (fun d => bool_decide (P d)) n Hall d Hd) as Hb.
  by apply bool_decide_eq_true in Hb.
Qed.

Lemma split_at_app (a b : string) :
  split_at (String.length a) (a ++ b) = (a, b).
Proof. induction a as [|c a IH]; simpl; [done | by rewrite IH]. Qed.

Lemma split_at_app_length n (a b : string) :
  String.length a = n -> split_at n (a ++ b) = (a, b).
Proof. intros <-. apply split_at_app. Qed.

#[export] Hint Rewrite split_at_app : pax_rw.


Lemma map_pair_keys {A B} (g : A -> B) (l : list A) :
  (map (fun x => (x, g x)) l).*1 = l.
Proof. induction l as [|x l IH]; simpl; [done | by f_equal]. Qed.

Lemma forallb_false_exists {A} (f : A -> bool) (l : list A) :
  forallb f l = false -> exists x, x ∈ l /\ f x = false.
Proof.
  induction l as [|x l IH]; simpl; [done|].
  destruct (f x) eqn:Ex; simpl; [|intros _; exists x; split; [left|done]].
  intros (y & Hy & Hfy)%IH. exists y. split; [by right|done].
Qed.

Lemma string_snoc_cases (s : string) :
  s = EmptyString \/ exists s' c, s = (s' ++ String c EmptyString)%string.
Proof.
  induction s as [|c s [->|(s' & c' & ->)]]; [by left|right..].
  - by exists EmptyString, c.
  - by exists (String c s'), c'.
Qed.

(** Induction on a string from its last character. *)
Lemma string_rev_ind (P : string -> Prop) :
  P EmptyString -> (forall s c, P s -> P (s ++ String c EmptyString)%string) ->
  forall s, P s.
Proof.
  intros H0 HS s. remember (String.length s) as n eqn:Hn. revert s Hn.
  induction n as [|n IH]; intros s Hn;
    destruct (string_snoc_cases s) as [->|(s' & c & ->)]; try done.
  - rewrite string_length_app in Hn. simpl in Hn. lia.
  - apply HS, IH. rewrite string_length_app in Hn. simpl in Hn. lia.
Qed.

Lemma string_map_app f (s1 s2 : string) :
  string_map f (s1 ++ s2) = (string_map f s1 ++ string_map f s2)%string.
Proof. induction s1 as [|c s1 IH]; simpl; [done | by rewrite IH]. Qed.

Lemma string_map_id (s : string) : string_map (fun c => c) s = s.
Proof. induction s as [|c s IH]; simpl; [done | by rewrite IH]. Qed.

Lemma ascii_lower_idem c : ascii_lower (ascii_lower c) = ascii_lower c.
Proof. destruct c as [[] [] [] [] [] [] [] []]; reflexivity. Qed.

Lemma string_lower_idem s : string_lower (string_lower s) = string_lower s.
Proof.
  induction s as [|c s IH]; [done|]. unfold string_lower in *. simpl.
  by rewrite ascii_lower_idem, IH.
Qed.

Lemma map_inr_inl {E A B} (g : A -> B) (e : E) : map_inr g (inl e) = inl e.
Proof. done. Qed.

Lemma map_inr_inr {E A B} (g : A -> B) (a : A) : map_inr (E := E) g (inr a) = inr (g a).
Proof. done. Qed.

Lemma map_inr_eq_inr {E A B} (g : A -> B) (r : E + A) b :
  map_inr g r = inr b -> exists a, r = inr a /\ b = g a.
Proof. destruct r; simpl; [done|]. intros [= <-]. eauto. Qed.

#[export] Hint Rewrite @map_inr_inl @map_inr_inr : pax_rw.

Lemma fmap_graph_keys {A B C} (g : A -> C) (l : list (A * B)) :
  ((fun x => (x.1, g x.1)) <$> l).*1 = l.*1.
Proof. induction l as [|x l IH]; simpl; [done | by f_equal]. Qed.

(** A map built from the graph of [g] over the keys of [l] is every map
    that holds [g k] at exactly those keys. *)
Lemma list_to_map_graph `{Countable K} {A V} (l : list (K * A)) (g : K -> V) (m : gmap K V) :
  NoDup l.*1 -> (forall k, m !! k = if bool_decide (k ∈ l.*1) then Some (g k) else None) ->
  list_to_map ((fun x => (x.1, g x.1)) <$> l) = m.
Proof.
  intros Hnd Hm. apply map_eq. intros k. rewrite Hm. case_bool_decide as Hk.
  - apply elem_of_list_to_map_1; [by rewrite (fmap_graph_keys g l)|].
    apply list_elem_of_fmap in Hk as [[k' a] [-> Hin]].
    apply list_elem_of_fmap. by exists (k', a).
  - apply not_elem_of_list_to_map_1. by rewrite (fmap_graph_keys g l).
Qed.

Lemma split_at_spec n (s a b : string) : split_at n s = (a, b) -> s = (a ++ b)%string.
Proof.
  revert n a b; induction s as [|c s IH]; intros [|n] a b; simpl; try by intros [= <- <-].
  destruct (split_at n s) as [a' b'] eqn:E. intros [= <- <-]. simpl. by rewrite (IH n a' b').
Qed.

(** Digit strings read back: a string the reader accepts is the rendering
    of the number it reads, up to the canonical form [canon] of each
    digit, and that number fits the width. *)
Section DigitsCanon.
Context (base : N) (digit_char : N -> ascii) (char_digit : ascii -> option N).
Context (canon : ascii -> ascii).
Context (Hbase : (1 < base)%N).
Context (Hinv : forall c d, char_digit c = Some d -> digit_char d = canon c /\ (d < base)%N).

Lemma parse_digits_from_bound acc s v :
  parse_digits_from base char_digit acc s = Some v ->
  (v < (acc + 1) * base ^ N.of_nat (String.length s))%N.
Proof.
  revert acc; induction s as [|c s IH]; intros acc; simpl.
  - intros [= <-]. lia.
  - destruct (char_digit c) as [d|] eqn:Ec; [|done]. intros Hv%IH.
    destruct (Hinv c d Ec) as [_ Hd]. rewrite Nat2N.inj_succ, N.pow_succ_r'.
    assert (H1 : (acc * base + d + 1 <= (acc + 1) * base)%N) by lia.
    pose proof (N.mul_le_mono_r _ _ (base ^ N.of_nat (String.length s)) H1). lia.
Qed.

Lemma pad_parse_digits s acc v :
  parse_digits_from base char_digit acc s = Some v ->
  pad_digits base digit_char (String.length s) v = string_map canon s.
Proof.
  revert acc v. induction s as [|s c IH] using string_rev_ind; intros acc v; [done|].
  rewrite parse_digits_from_app. simpl.
  destruct (parse_digits_from base char_digit acc s) as [a|] eqn:Ea; [|done].
  destruct (char_digit c) as [d|] eqn:Ec; [|done]. intros [= <-].
  destruct (Hinv c d Ec) as [Hc Hd].
  rewrite string_length_app, Nat.add_1_r, string_map_app. simpl.
  rewrite N.div_add_l, N.div_small, N.add_0_r by lia.
  assert (Hm : ((a * base + d) mod base = d)%N).
  { rewrite N.add_comm, N.Div0.mod_add. by apply N.mod_small. }
  by rewrite Hm, (IH acc a Ea), Hc.
Qed.
End DigitsCanon.
