(* ===== verification/Config.v ===== *)
(** * The database configuration (src/database.py)

    database.py runs once, when main.py imports it: [load_dotenv()] adds
    the variables of a [.env] file to the process environment without
    overriding those already set, [os.getenv("MONGO_URL")] reads the
    connection string ([None] when unset), [AsyncIOMotorClient] connects
    to it (pymongo's default [localhost:27017] for [None]), and the
    handlers use the collection [passenger_collection] of the database
    [passenger_db].  The environment is a map from variable names to
    values.  The names of the database and the collection appear in the
    driver's error messages (PyValues.v, [str_exn]). *)

From S2P Require Import Prelude.

Module Config.

Abbreviation environ := (gmap string string).

(** [load_dotenv()] (python-dotenv, [override=False]): a variable of the
    [.env] file is added only when the environment does not set it. *)
Definition load_dotenv (dotenv : environ) (env : environ) : environ := env ∪ dotenv.

(** [MONGO_DETAILS = os.getenv("MONGO_URL")] *)
Definition MONGO_DETAILS (env : environ) : option string := env !! "MONGO_URL".

(** The server [AsyncIOMotorClient(MONGO_DETAILS)] connects to. *)
Definition client_host (host : option string) : string :=
  match host with Some uri => uri | None => "mongodb://localhost:27017" end.

(** [client.passenger_db] *)
Definition database_name : string := "passenger_db".

(** [database.get_collection("passenger_collection")] *)
Definition collection_name : string := "passenger_collection".

(** The namespace [<database>.<collection>] the driver reports. *)
Definition collection_namespace : string := database_name ++ "." ++ collection_name.

(** The connection string comes from the process environment when it
    sets [MONGO_URL], from the [.env] file otherwise. *)
Lemma MONGO_DETAILS_load_dotenv dotenv env :
  MONGO_DETAILS (load_dotenv dotenv env) =
  match env !! "MONGO_URL" with Some u => Some u | None => dotenv !! "MONGO_URL" end.
Proof.
  unfold MONGO_DETAILS, load_dotenv. rewrite lookup_union.
  by destruct (env !! "MONGO_URL"), (dotenv !! "MONGO_URL").
Qed.

End Config.
