(* ===== verification/Dates.v ===== *)
(** * Calendar dates: Python's [datetime.date]

    The schemas declare [date_of_birth] and [date_of_expiration] as
    [Optional[date]].  pydantic turns the request's string into a
    [datetime.date]; [jsonable_encoder] (create) and
    [convert_dates_to_string] (update) store it as [date.isoformat()];
    the response model reads the stored string back as a date.  This file
    models the part of [datetime] those steps use (library code, modelled
    from its documented behaviour): the date value, its validity range,
    [isoformat] ([%04d-%02d-%02d]) and [fromisoformat]. *)

From S2P Require Import Prelude.

Module Date.

Record date := mkdate { year : N; month : N; day : N }.

#[export] Instance date_eq_dec : EqDecision date.
Proof. solve_decision. Defined.

Definition MINYEAR : N := 1.
Definition MAXYEAR : N := 9999.

Definition is_leap (y : N) : bool :=
  ((y mod 4 =? 0) && (negb (y mod 100 =? 0) || (y mod 400 =? 0)))%N.

Definition days_in_month (y m : N) : N :=
  match m with
  | 1 | 3 | 5 | 7 | 8 | 10 | 12 => 31
  | 4 | 6 | 9 | 11 => 30
  | 2 => if is_leap y then 29 else 28
  | _ => 0
  end%N.

(** The range [date(y, m, d)] accepts. *)
Definition valid_date (d : date) : bool :=
  ((MINYEAR <=? year d) && (year d <=? MAXYEAR) &&
   (1 <=? month d) && (month d <=? 12) &&
   (1 <=? day d) && (day d <=? days_in_month (year d) (month d)))%N.

Definition dec_char (d : N) : ascii := ascii_of_N (48 + d).

Definition char_dec (c : ascii) : option N :=
  let n := N_of_ascii c in
  if ((48 <=? n) && (n <=? 57))%N then Some (n - 48)%N else None.

Definition pad_dec (w : nat) (v : N) : string := pad_digits 10 dec_char w v.
Definition parse_dec (s : string) : option N := parse_digits 10 char_dec s.
Arguments pad_dec : simpl never.
Arguments parse_dec : simpl never.

(** [date.isoformat()] *)
Definition isoformat (d : date) : string :=
  pad_dec 4 (year d) ++ "-" ++ pad_dec 2 (month d) ++ "-" ++ pad_dec 2 (day d).

(** [date.fromisoformat(s)]: exactly [YYYY-MM-DD], then the range check
    of the constructor. *)
Definition fromisoformat (s : string) : option date :=
  let '(ys, r1) := split_at 4 s in
  match r1 with
  | String "-" r2 =>
      let '(ms, r3) := split_at 2 r2 in
      match r3 with
      | String "-" ds =>
          if (String.length ys =? 4) && (String.length ms =? 2) &&
             (String.length ds =? 2) then
            match parse_dec ys, parse_dec ms, parse_dec ds with
            | Some y, Some m, Some dd =>
                let d := mkdate y m dd in
                if valid_date d then Some d else None
            | _, _, _ => None
            end
          else None
      | _ => None
      end
  | _ => None
  end.

Lemma char_dec_dec_char d : (d < 10)%N -> char_dec (dec_char d) = Some d.
Proof.
  revert d. apply (N_below_by_decide (fun d => char_dec (dec_char d) = Some d) 10).
  reflexivity.
Qed.

Lemma parse_pad_dec w v : (v < 10 ^ N.of_nat w)%N -> parse_dec (pad_dec w v) = Some v.
Proof. apply parse_digits_pad; [lia | apply char_dec_dec_char]. Qed.

Lemma pad_dec_length w v : String.length (pad_dec w v) = w.
Proof. apply pad_digits_length; lia. Qed.

Lemma valid_date_bounds d :
  valid_date d = true ->
  (1 <= year d <= 9999 /\ 1 <= month d <= 12 /\ 1 <= day d <= 31)%N.
Proof.
  unfold valid_date, days_in_month, MINYEAR, MAXYEAR.
  intros H. repeat rewrite andb_true_iff in H. rewrite !N.leb_le in H.
  destruct H as [[[[[H1 H2] H3] H4] H5] H6].
  repeat split; try lia.
  repeat (case_match; try lia).
Qed.

Example isoformat_example : isoformat (mkdate 987 6 5) = "0987-06-05".
Proof. reflexivity. Qed.

Example fromisoformat_rejects_feb30 : fromisoformat "2024-02-30" = None.
Proof. reflexivity. Qed.

(** [date.fromisoformat(d.isoformat()) == d] for every date. *)
Theorem fromisoformat_isoformat d :
  valid_date d = true -> fromisoformat (isoformat d) = Some d.
Proof.
  intros Hv. pose proof (valid_date_bounds d Hv) as Hb.
  unfold fromisoformat, isoformat.
  rewrite split_at_app_length by apply pad_dec_length. rewrite string_cons_app, string_nil_app.
  lazy beta match zeta.
  rewrite split_at_app_length by apply pad_dec_length. rewrite string_cons_app, string_nil_app.
  lazy beta match zeta.
  rewrite !pad_dec_length, !parse_pad_dec by (simpl; lia). simpl.
  destruct d; simpl in *. by rewrite Hv.
Qed.

Lemma char_dec_inv c d : char_dec c = Some d -> dec_char d = c /\ (d < 10)%N.
Proof.
  unfold char_dec, dec_char.
  destruct ((48 <=? N_of_ascii c) && (N_of_ascii c <=? 57))%N eqn:Hr; [|done].
  intros [= <-]. apply andb_true_iff in Hr as [H1 H2]. apply N.leb_le in H1, H2.
  split; [|lia]. replace (48 + (N_of_ascii c - 48))%N with (N_of_ascii c) by lia.
  apply ascii_N_embedding.
Qed.

Lemma pad_parse_dec n s v : String.length s = n -> parse_dec s = Some v -> pad_dec n v = s.
Proof.
  intros <- Hp. unfold pad_dec. rewrite <- (string_map_id s) at 2.
  apply (pad_parse_digits 10 dec_char char_dec (fun c => c) ltac:(lia) char_dec_inv s 0 v Hp).
Qed.

(** [fromisoformat] accepts only the strings [isoformat] prints. *)
Lemma fromisoformat_inv s d :
  fromisoformat s = Some d -> valid_date d = true /\ isoformat d = s.
Proof.
  unfold fromisoformat. intros H.
  repeat (case_match; try discriminate). injection H as <-. subst.
  repeat match goal with Hb : (_ && _) = true |- _ => apply andb_true_iff in Hb as [? ?] end.
  repeat match goal with Hb : (_ =? _)%nat = true |- _ => apply Nat.eqb_eq in Hb end.
  split; [done|]. unfold isoformat. cbn [year month day].
  repeat match goal with
         | Hp : parse_dec ?x = Some ?v, Hl : String.length ?x = ?n |- _ =>
             rewrite (pad_parse_dec n x v Hl Hp); clear Hp
         end.
  repeat match goal with Hs : split_at _ _ = (_, _) |- _ => apply split_at_spec in Hs end.
  subst. reflexivity.
Qed.

Lemma isoformat_length d : String.length (isoformat d) = 10%nat.
Proof. unfold isoformat. by autorewrite with pax_rw. Qed.

(** Two valid dates with the same ISO string are the same date. *)
Lemma isoformat_inj d1 d2 :
  valid_date d1 = true -> valid_date d2 = true ->
  isoformat d1 = isoformat d2 -> d1 = d2.
Proof.
  intros H1 H2 Heq.
  apply fromisoformat_isoformat in H1, H2. congruence.
Qed.

(** [date.fromisoformat] and [date.isoformat] are inverse: a string is
    accepted exactly when it is the ISO rendering of a valid date, and
    then it denotes that date. *)
Theorem fromisoformat_spec s d :
  fromisoformat s = Some d <-> valid_date d = true /\ isoformat d = s.
Proof.
  split; [apply fromisoformat_inv|]. intros [Hv <-]. by apply fromisoformat_isoformat.
Qed.

End Date.

#[export] Hint Rewrite Date.pad_dec_length : pax_rw.
