(* ===== verification/ObjectId.v ===== *)
(** * BSON ObjectIds: [bson.ObjectId]

    Every handler of src/main.py that takes a path id calls [ObjectId(id)]
    on it (main.py lines 75, 94, 111, 114, 130), and [passenger_helper]
    renders the stored id with [str(passenger["_id"])] (main.py line 22).
    An ObjectId is 12 bytes: here the number it denotes, below [2 ^ 96].
    [oid_str] is [str(ObjectId)] (24 lowercase hex digits);
    [parse_object_id] is the constructor on a string: exactly 24 hex
    digits of either case, any other string raising [InvalidId].  This is
    library code, modelled from its documented behaviour, with one
    departure: bson builds the id with [bytes.fromhex], which skips ASCII
    whitespace between digit pairs, so a 24-character string with spaces
    gives an ObjectId of fewer than 12 bytes, whose BSON encoding the
    driver leaves undefined; [parse_object_id] refuses such a string. *)

From S2P Require Import Prelude.

Module Oid.

Abbreviation oid := N.

(** 12 bytes *)
Definition OID_BOUND : N := 2 ^ 96.

Definition hex_char (d : N) : ascii :=
  if (d <? 10)%N then ascii_of_N (48 + d) else ascii_of_N (87 + d).

(** [bytes.fromhex] accepts both cases. *)
Definition char_hex (c : ascii) : option N :=
  let n := N_of_ascii c in
  if ((48 <=? n) && (n <=? 57))%N then Some (n - 48)%N
  else if ((97 <=? n) && (n <=? 102))%N then Some (n - 87)%N
  else if ((65 <=? n) && (n <=? 70))%N then Some (n - 55)%N
  else None.

(** [str(ObjectId)] *)
Definition oid_str (o : oid) : string := pad_digits 16 hex_char 24 o.

(** [ObjectId(s)] for a string [s]; [None] is the [InvalidId] exception. *)
Definition parse_object_id (s : string) : option oid :=
  if String.length s =? 24 then parse_digits 16 char_hex s else None.

Lemma char_hex_hex_char d : (d < 16)%N -> char_hex (hex_char d) = Some d.
Proof.
  revert d. apply (N_below_by_decide (fun d => char_hex (hex_char d) = Some d) 16).
  reflexivity.
Qed.

Lemma oid_str_length o : String.length (oid_str o) = 24%nat.
Proof. apply pad_digits_length; lia. Qed.

(** [ObjectId(str(o)) == o] for every 12-byte id. *)
Lemma parse_object_id_oid_str o :
  (o < OID_BOUND)%N -> parse_object_id (oid_str o) = Some o.
Proof.
  intros Ho. unfold parse_object_id. rewrite oid_str_length. simpl.
  apply parse_digits_pad; [lia | apply char_hex_hex_char | done].
Qed.

Lemma oid_str_inj o1 o2 :
  (o1 < OID_BOUND)%N -> (o2 < OID_BOUND)%N -> oid_str o1 = oid_str o2 -> o1 = o2.
Proof.
  intros H1 H2 Heq.
  apply parse_object_id_oid_str in H1, H2. congruence.
Qed.

Lemma char_hex_inv c d : char_hex c = Some d -> hex_char d = ascii_lower c /\ (d < 16)%N.
Proof.
  assert (Hall : forall n, (n < N.of_nat 256)%N ->
    (fun n => match char_hex (ascii_of_N n) with
              | Some d => bool_decide (hex_char d = ascii_lower (ascii_of_N n)) && (d <? 16)%N
              | None => true
              end) n = true) by (apply N_below_by_enum; vm_compute; reflexivity).
  intros Hc. specialize (Hall (N_of_ascii c) (N_ascii_bounded c)). simpl in Hall.
  rewrite ascii_N_embedding, Hc in Hall. apply andb_true_iff in Hall as [H1 H2].
  apply bool_decide_eq_true in H1. apply N.ltb_lt in H2. done.
Qed.

Example oid_str_example : oid_str 255 = "0000000000000000000000ff".
Proof. reflexivity. Qed.

Example parse_object_id_upper :
  parse_object_id "0000000000000000000000FF" = Some 255%N.
Proof. reflexivity. Qed.

Example parse_object_id_short : parse_object_id "ff" = None.
Proof. reflexivity. Qed.

Example parse_object_id_nonhex :
  parse_object_id "00000000000000000000000g" = None.
Proof. reflexivity. Qed.

(** [ObjectId(s)] accepts a string only if it denotes a 12-byte id whose
    [str] is the string in lowercase. *)
Theorem parse_object_id_canonical s o :
  parse_object_id s = Some o -> (o < OID_BOUND)%N /\ oid_str o = string_lower s.
Proof.
  unfold parse_object_id. destruct (String.length s =? 24)%nat eqn:Hl; [|done].
  apply Nat.eqb_eq in Hl. intros Hp. split.
  - pose proof (parse_digits_from_bound 16 hex_char char_hex ascii_lower ltac:(lia) char_hex_inv 0 s o Hp).
    rewrite Hl in H. unfold OID_BOUND. simpl in *. lia.
  - unfold oid_str, string_lower. rewrite <- Hl.
    exact (pad_parse_digits 16 hex_char char_hex ascii_lower ltac:(lia) char_hex_inv s 0 o Hp).
Qed.

End Oid.
