(* ===== verification/PyValues.v ===== *)
(** * Python values, dictionaries and exceptions of the handlers

    The handlers of src/main.py manipulate Python dictionaries whose values
    are [None], strings, [datetime.date]s (before conversion) and the
    document's [ObjectId] (under ["_id"]).  [pyval] is that value type and
    [pydict] a dictionary keyed by field name (stdpp's [gmap]: key order is
    not observable through the API, see the header of Prelude.v).  [exn]
    lists the exceptions the handlers raise or receive, and [str_exn] is
    [str(e)], which the handlers put in the 500 response; the driver's
    DuplicateKeyError message quotes the namespace of database.py
    ([Config.collection_namespace]). *)

From Stdlib Require Import DecimalString.
From S2P Require Import Prelude Config Dates ObjectId.
Import Config Date Oid.

Module Py.

Inductive pyval : Type :=
| PyNone
| PyStr (s : string)
| PyDate (d : date)
| PyObjectId (o : oid).

#[export] Instance pyval_eq_dec : EqDecision pyval.
Proof. solve_decision. Defined.

Abbreviation pydict := (gmap string pyval).

(** [str(n)] of a non-negative Python int *)
Definition dec_str (n : N) : string := NilEmpty.string_of_uint (N.to_uint n).

(** [str(v)] *)
Definition py_str (v : pyval) : string :=
  match v with
  | PyNone => "None"
  | PyStr s => s
  | PyDate d => isoformat d
  | PyObjectId o => oid_str o
  end.

(** Optional values of the pydantic models, as Python values *)
Definition of_opt_str (o : option string) : pyval :=
  match o with Some s => PyStr s | None => PyNone end.
Definition of_opt_date (o : option date) : pyval :=
  match o with Some d => PyDate d | None => PyNone end.

Inductive exn : Type :=
(** [fastapi.HTTPException(status_code, detail)] *)
| HTTPException (status_code : N) (detail : string)
(** [bson.errors.InvalidId], raised by [ObjectId(s)] *)
| InvalidId (s : string)
(** [KeyError], raised by [d[k]] on a missing key *)
| KeyError (k : string)
(** [bson.errors.InvalidDocument]: a [datetime.date] cannot be encoded *)
| InvalidDocument (d : date)
(** [pymongo.errors.DuplicateKeyError] on the [_id] index *)
| DuplicateKeyError (o : oid)
(** [pymongo.errors.WriteError]: an update that would change [_id] *)
| ImmutableIdError (o : oid).

#[export] Instance exn_eq_dec : EqDecision exn.
Proof. solve_decision. Defined.

(** ** [repr] of a string

    Python's [repr(s)] of a string whose characters are Latin-1 (the
    characters a [string] holds): quoted with single quotes unless [s]
    has a single quote and no double quote; the backslash and the quote
    are escaped, tab, newline and return as [\t], [\n], [\r], and the
    characters [str.isprintable] rejects (controls, [\xa0], [\xad]) as
    [\xNN]. *)

Definition backslash : ascii := ascii_of_nat 92.
Definition single_quote : ascii := ascii_of_nat 39.
Definition double_quote : ascii := ascii_of_nat 34.

(** [str.isprintable] on a Latin-1 character. *)
Definition printable (n : nat) : bool :=
  (Nat.leb 32 n && Nat.ltb n 127) || (Nat.leb 161 n && negb (Nat.eqb n 173)).

Definition hex_digit (n : nat) : ascii :=
  ascii_of_nat (if Nat.ltb n 10 then 48 + n else 87 + n).

Definition repr_char (q c : ascii) : string :=
  let n := nat_of_ascii c in
  if Ascii.eqb c backslash || Ascii.eqb c q then String backslash (String c "")
  else if Nat.eqb n 9 then String backslash "t"
  else if Nat.eqb n 10 then String backslash "n"
  else if Nat.eqb n 13 then String backslash "r"
  else if printable n then String c ""
  else String backslash (String "x" (String (hex_digit (n / 16)) (String (hex_digit (n mod 16)) ""))).

Fixpoint repr_body (q : ascii) (s : string) : string :=
  match s with
  | EmptyString => ""
  | String c s' => repr_char q c ++ repr_body q s'
  end.

Fixpoint has_char (c : ascii) (s : string) : bool :=
  match s with
  | EmptyString => false
  | String c' s' => Ascii.eqb c c' || has_char c s'
  end.

Definition py_repr (s : string) : string :=
  let q := if has_char single_quote s && negb (has_char double_quote s)
           then double_quote else single_quote in
  String q (repr_body q s ++ String q "").

(** The server's [errmsg] for a second document with the id [o]. *)
Definition duplicate_key_errmsg (o : oid) : string :=
  "E11000 duplicate key error collection: " ++ collection_namespace ++
  " index: _id_ dup key: { _id: ObjectId('" ++ oid_str o ++ "') }".

(** [str(e)].  For [HTTPException] this is starlette's
    [f"{status_code}: {detail}"]; the driver's messages are rendered
    after their documented form: pymongo 4's [OperationFailure] appends
    [", full error: "] and the repr of the server's write error. *)
Definition str_exn (e : exn) : string :=
  match e with
  | HTTPException code detail => dec_str code ++ ": " ++ detail
  | InvalidId s =>
      py_repr s ++ " is not a valid ObjectId, it must be a 12-byte input or a 24-character hex string"
  | KeyError k => py_repr k
  | InvalidDocument d =>
      "cannot encode object: datetime.date(" ++ dec_str (year d) ++ ", " ++
      dec_str (month d) ++ ", " ++ dec_str (day d) ++
      "), of type: <class 'datetime.date'>"
  | DuplicateKeyError o =>
      duplicate_key_errmsg o ++ ", full error: {'index': 0, 'code': 11000, 'errmsg': " ++
      py_repr (duplicate_key_errmsg o) ++ ", 'keyPattern': {'_id': 1}, 'keyValue': {'_id': " ++
      "ObjectId('" ++ oid_str o ++ "')}}"
  | ImmutableIdError o =>
      "Performing an update on the path '_id' would modify the immutable field '_id'"
  end.

(** [d[k]] *)
Definition dict_index (d : pydict) (k : string) : exn + pyval :=
  match d !! k with Some v => inr v | None => inl (KeyError k) end.

(** [d.get(k)] *)
Definition dict_get (d : pydict) (k : string) : pyval :=
  match d !! k with Some v => v | None => PyNone end.

(** [if d:] on a dictionary: false exactly for the empty one *)
Definition dict_truthy (d : pydict) : bool := bool_decide (d <> ∅).

(** The first value BSON cannot encode: pymongo raises [InvalidDocument]
    on a [datetime.date] (only [datetime.datetime] is a BSON date). *)
Definition first_date (d : pydict) : option date :=
  head (omap (fun kv => match kv.2 with PyDate dt => Some dt | _ => None end)
             (map_to_list d)).

(** The ObjectId a document is stored under. *)
Definition doc_id (d : pydict) : option oid :=
  match d !! "_id" with Some (PyObjectId o) => Some o | _ => None end.

Example str_exn_404 :
  str_exn (HTTPException 404 "Passenger not found") = "404: Passenger not found".
Proof. reflexivity. Qed.

(** [first_date] finds nothing exactly when no value is a date. *)
Lemma first_date_None d :
  first_date d = None <-> forall k dt, d !! k <> Some (PyDate dt).
Proof.
  unfold first_date. split.
  - intros H k dt Hk. apply elem_of_map_to_list in Hk.
    destruct (omap _ (map_to_list d)) as [|x l] eqn:E; [|done].
    assert (dt ∈ ([] : list date)) as []%not_elem_of_nil.
    rewrite <- E. apply list_elem_of_omap. exists (k, PyDate dt). done.
  - intros H. destruct (omap _ (map_to_list d)) as [|x l] eqn:E; [done|].
    assert (x ∈ omap (fun kv : string * pyval => match kv.2 with PyDate dt => Some dt | _ => None end) (map_to_list d)) as Hx
      by (rewrite E; left).
    apply list_elem_of_omap in Hx as [[k v] [Hin Hv]].
    apply elem_of_map_to_list in Hin. destruct v; simplify_eq/=. by destruct (H k x).
Qed.

(** The duplicate-key message quotes the namespace of database.py. *)
Lemma str_duplicate_key_namespace o :
  exists pre post, str_exn (DuplicateKeyError o) = (pre ++ collection_namespace ++ post)%string.
Proof.
  exists "E11000 duplicate key error collection: "%string. eexists.
  unfold str_exn, duplicate_key_errmsg. by rewrite !string_app_assoc.
Qed.

End Py.
