(* ===== verification/Schemas.v ===== *)
(** * The request schema: [PassengerCreate] (src/schemas.py)

    [PassengerCreate] is a pydantic (v1) model with five required fields
    ([title], [given_name], [surname], [email], [mobile]) and twelve
    [Optional] ones, two of them dates.  This file holds
    - the model as a record, with pydantic's [__fields_set__] (the fields
      the request body supplied, [None] included);
    - [model_dict] ([.dict()]), [dict_exclude_unset]
      ([.dict(exclude_unset=True)], main.py line 102) and
      [jsonable_encoder] (main.py line 47);
    - [validate_PassengerCreate]: how FastAPI builds the model from a JSON
      body before the handler runs (status 422 when it fails);
    - the same validation as pydantic's loop over the annotated fields
      ([validate_fields] over [PassengerCreate_fields]), proved equal to
      it ([validate_fields_PassengerCreate]), and the table of
      [PassengerResponse], which the response model validates;
    - [field_typed], what a validated field holds once encoded, and the
      lemmas that validated fields are typed and typed values validate
      back.
    The validators that belong to libraries (parsing a date, checking an
    email address) are the parameters of the class [PydanticLib];
    [PydanticLaws] states what the typing lemmas assume of them, and
    [sample_laws] shows the sample library meets it. *)

From Stdlib Require Import DecimalString.
From S2P Require Import Prelude Dates ObjectId PyValues.
Import Date Oid Py.

Module Schema.

Record PassengerCreate : Type := {
  title : string;
  given_name : string;
  surname : string;
  passport_number : option string;
  date_of_birth : option date;
  date_of_expiration : option date;
  email : string;
  mobile : string;
  emergency_contact : option string;
  organization_name : option string;
  designation : option string;
  frequent_flyer_number : option string;
  recent_route : option string;
  favourite_carrier : option string;
  meal_preference : option string;
  accessibility : option string;
  baggage_preference : option string;
  (** pydantic's [__fields_set__] *)
  fields_set : gset string
}.

(** The declared fields, in declaration order. *)
Definition model_fields : list string :=
  ["title"; "given_name"; "surname"; "passport_number"; "date_of_birth";
   "date_of_expiration"; "email"; "mobile"; "emergency_contact";
   "organization_name"; "designation"; "frequent_flyer_number";
   "recent_route"; "favourite_carrier"; "meal_preference";
   "accessibility"; "baggage_preference"].

(** The fields declared without [Optional]. *)
Definition required_fields : list string :=
  ["title"; "given_name"; "surname"; "email"; "mobile"].

Definition date_fields : list string := ["date_of_birth"; "date_of_expiration"].

(** The fields of the model with their values, in declaration order. *)
Definition model_entries (p : PassengerCreate) : list (string * pyval) :=
  [
    ("title", PyStr (title p));
    ("given_name", PyStr (given_name p));
    ("surname", PyStr (surname p));
    ("passport_number", of_opt_str (passport_number p));
    ("date_of_birth", of_opt_date (date_of_birth p));
    ("date_of_expiration", of_opt_date (date_of_expiration p));
    ("email", PyStr (email p));
    ("mobile", PyStr (mobile p));
    ("emergency_contact", of_opt_str (emergency_contact p));
    ("organization_name", of_opt_str (organization_name p));
    ("designation", of_opt_str (designation p));
    ("frequent_flyer_number", of_opt_str (frequent_flyer_number p));
    ("recent_route", of_opt_str (recent_route p));
    ("favourite_carrier", of_opt_str (favourite_carrier p));
    ("meal_preference", of_opt_str (meal_preference p));
    ("accessibility", of_opt_str (accessibility p));
    ("baggage_preference", of_opt_str (baggage_preference p))].

(** [p.dict()]: every field, dates as [datetime.date] objects. *)
Definition model_dict (p : PassengerCreate) : pydict := list_to_map (model_entries p).

(** [getattr(p, f)] for a declared field [f] *)
Definition model_value (p : PassengerCreate) (f : string) : pyval :=
  match model_dict p !! f with Some v => v | None => PyNone end.

(** [p.dict(exclude_unset=True)] *)
Definition dict_exclude_unset (p : PassengerCreate) : pydict :=
  filter (fun kv => kv.1 ∈ fields_set p) (model_dict p).

(** [jsonable_encoder] on a value of the dict: a date becomes its ISO
    string, strings and [None] are kept. *)
Definition encode_value (v : pyval) : pyval :=
  match v with PyDate d => PyStr (isoformat d) | _ => v end.

(** [jsonable_encoder(p)] (fastapi.encoders) on the model *)
Definition jsonable_encoder (p : PassengerCreate) : pydict :=
  encode_value <$> model_dict p.

Arguments model_dict : simpl never.
Arguments model_value : simpl never.
Arguments jsonable_encoder : simpl never.
Arguments dict_exclude_unset : simpl never.

(** ** Building the model from the request body *)

(** A value handed to a field validator: a JSON value of the request
    body, or a value of the dict a handler returns, which FastAPI
    validates against the route's [response_model].  Arrays, objects and
    the other Python objects are one case, since no field accepts them;
    [JDate] is a [datetime.date] object. *)
Inductive json : Type :=
| JNull
| JBool (b : bool)
| JInt (z : Z)
| JFloat (r : string)  (** a number with a fraction or an exponent, by
                           the text [str()] gives of the float it decodes to *)
| JStr (s : string)
| JDate (d : date)
| JCompound.

Abbreviation json_object := (gmap string json).

(** The validators that come from libraries: [datetime.date] parsing of
    pydantic's [parse_date], and the [email_validator] check of
    [EmailStr], which returns the address part of the input. *)
Class PydanticLib : Type := {
  validate_date : json -> option date;
  email_address : string -> option string
}.

Inductive verror : Type :=
| FieldRequired (f : string)
| NoneNotAllowed (f : string)
| StrTypeError (f : string)
| DateTypeError (f : string)
| EmailError (f : string).

#[export] Instance verror_eq_dec : EqDecision verror.
Proof. solve_decision. Defined.

(** [str(int)] *)
Definition z_str (z : Z) : string :=
  match z with
  | Zneg p => "-" ++ dec_str (Npos p)
  | _ => dec_str (Z.to_N z)
  end.

(** pydantic v1 [str_validator]: strings, and ints (bools included) and
    floats through [str()]. *)
Definition str_validator (v : json) : option string :=
  match v with
  | JStr s => Some s
  | JInt z => Some (z_str z)
  | JFloat r => Some r
  | JBool b => Some (if b then "True" else "False")
  | JNull | JDate _ | JCompound => None
  end.

(** The address with the part after its first [@] lowercased. *)
Fixpoint lower_domain (s : string) : string :=
  match s with
  | EmptyString => EmptyString
  | String c s' => if Ascii.eqb c "@" then String c (string_lower s')
                   else String c (lower_domain s')
  end.

(** The type annotation of a declared field. *)
Inductive ftype : Type :=
| FStr       (** [str] *)
| FOptStr    (** [Optional[str]] *)
| FOptDate   (** [Optional[date]] *)
| FEmail.    (** [EmailStr] *)

#[export] Instance ftype_eq_dec : EqDecision ftype.
Proof. solve_decision. Defined.

(** The fields of [PassengerCreate] with their annotations, in declaration
    order (pydantic validates in this order). *)
Definition PassengerCreate_fields : list (string * ftype) :=
  [("title", FStr); ("given_name", FStr); ("surname", FStr);
   ("passport_number", FOptStr); ("date_of_birth", FOptDate);
   ("date_of_expiration", FOptDate); ("email", FEmail); ("mobile", FStr);
   ("emergency_contact", FOptStr); ("organization_name", FOptStr);
   ("designation", FOptStr); ("frequent_flyer_number", FOptStr);
   ("recent_route", FOptStr); ("favourite_carrier", FOptStr);
   ("meal_preference", FOptStr); ("accessibility", FOptStr);
   ("baggage_preference", FOptStr)].

(** [class PassengerResponse(PassengerCreate): id: str]: the inherited
    fields first, then [id]. *)
Definition PassengerResponse_fields : list (string * ftype) :=
  PassengerCreate_fields ++ [("id", FStr)].

(** A Python value of a returned dict, as a field validator receives it. *)
Definition json_of_pyval (v : pyval) : json :=
  match v with
  | PyNone => JNull
  | PyStr s => JStr s
  | PyDate d => JDate d
  | _ => JCompound
  end.

Definition errs_of {A} (r : list verror + A) : list verror :=
  match r with inl es => es | inr _ => [] end.

Section Validation.
Context `{PydanticLib}.

(** [EmailStr]: a string, accepted by the email library, its domain
    lowercased. *)
Definition email_validator (v : json) : option string :=
  s ← str_validator v; a ← email_address s; Some (lower_domain a).

Definition req_field {A} (body : json_object) (f : string)
    (val : json -> option A) (err : string -> verror) : verror + A :=
  match body !! f with
  | None => inl (FieldRequired f)
  | Some JNull => inl (NoneNotAllowed f)
  | Some v => match val v with Some x => inr x | None => inl (err f) end
  end.

Definition opt_field {A} (body : json_object) (f : string)
    (val : json -> option A) (err : string -> verror) : verror + option A :=
  match body !! f with
  | None | Some JNull => inr None
  | Some v => match val v with Some x => inr (Some x) | None => inl (err f) end
  end.

Definition err_of {A} (r : verror + A) : list verror :=
  match r with inl e => [e] | inr _ => [] end.

(** pydantic v1 [PassengerCreate.parse_obj(body)]: every field validated, all
    errors reported together; unknown keys are ignored. *)
Definition validate_PassengerCreate (body : json_object) : list verror + PassengerCreate :=
  let rs f := req_field body f str_validator StrTypeError in
  let os f := opt_field body f str_validator StrTypeError in
  let od f := opt_field body f validate_date DateTypeError in
  match rs "title", rs "given_name", rs "surname", os "passport_number",
        od "date_of_birth", od "date_of_expiration",
        req_field body "email" email_validator EmailError, rs "mobile",
        os "emergency_contact", os "organization_name", os "designation",
        os "frequent_flyer_number", os "recent_route", os "favourite_carrier",
        os "meal_preference", os "accessibility", os "baggage_preference" with
  | inr t, inr gn, inr sn, inr pn, inr dob, inr doe, inr em, inr mo,
    inr ec, inr org, inr des, inr ffn, inr rr, inr fc, inr mp, inr acc, inr bp =>
      inr {| title := t; given_name := gn; surname := sn; passport_number := pn;
             date_of_birth := dob; date_of_expiration := doe; email := em;
             mobile := mo; emergency_contact := ec; organization_name := org;
             designation := des; frequent_flyer_number := ffn; recent_route := rr;
             favourite_carrier := fc; meal_preference := mp; accessibility := acc;
             baggage_preference := bp;
             fields_set := list_to_set (filter (fun f => is_Some (body !! f)) model_fields) |}
  | t, gn, sn, pn, dob, doe, em, mo, ec, org, des, ffn, rr, fc, mp, acc, bp =>
      inl (err_of t ++ err_of gn ++ err_of sn ++ err_of pn ++ err_of dob ++
           err_of doe ++ err_of em ++ err_of mo ++ err_of ec ++ err_of org ++
           err_of des ++ err_of ffn ++ err_of rr ++ err_of fc ++ err_of mp ++
           err_of acc ++ err_of bp)
  end.
(** One field of a model validated as its annotation says, as the value
    the model holds. *)
Definition check_field (b : json_object) (f : string) (t : ftype) : verror + pyval :=
  match t with
  | FStr => map_inr PyStr (req_field b f str_validator StrTypeError)
  | FOptStr => map_inr of_opt_str (opt_field b f str_validator StrTypeError)
  | FOptDate => map_inr of_opt_date (opt_field b f validate_date DateTypeError)
  | FEmail => map_inr PyStr (req_field b f email_validator EmailError)
  end.

(** A field's outcome added in front of the outcome of the later fields:
    errors accumulate, values are kept only if no field failed. *)
Definition cons_field (f : string) (r : verror + pyval)
    (rs : list verror + list (string * pyval)) : list verror + list (string * pyval) :=
  match r, rs with
  | inr v, inr vs => inr ((f, v) :: vs)
  | r, rs => inl (err_of r ++ errs_of rs)
  end.

(** pydantic v1 [validate_model]: the declared fields in order, each
    validated, the errors of all of them collected. *)
Fixpoint validate_fields (b : json_object) (fs : list (string * ftype))
    : list verror + list (string * pyval) :=
  match fs with
  | [] => inr []
  | (f, t) :: fs' => cons_field f (check_field b f t) (validate_fields b fs')
  end.

(** [PassengerResponse.validate(d)]: what FastAPI does with the dict a
    route declared with [response_model=PassengerResponse] returns. *)
Definition validate_PassengerResponse (b : json_object) : list verror + list (string * pyval) :=
  validate_fields b PassengerResponse_fields.

(** A value as [jsonable_encoder] leaves a validated field of annotation
    [t]: what a stored document holds, and what the response model must
    accept. *)
Definition field_typed (t : ftype) (v : pyval) : Prop :=
  match t with
  | FStr => exists s, v = PyStr s
  | FOptStr => v = PyNone \/ exists s, v = PyStr s
  | FOptDate => v = PyNone \/
      exists d, v = PyStr (isoformat d) /\ validate_date (JStr (isoformat d)) = Some d
  | FEmail => exists a, v = PyStr a /\ email_validator (JStr a) = Some a
  end.
End Validation.

(** What the proofs assume of the libraries behind [PydanticLib]: the
    ISO string of a parsed date parses back to it, and an address the email library accepted, its
    domain lowercased, is accepted and returned unchanged. *)
Class PydanticLaws `{PydanticLib} : Prop := {
  validate_date_isoformat v d :
    validate_date v = Some d -> validate_date (JStr (isoformat d)) = Some d;
  email_address_normal s a :
    email_address s = Some a -> email_address (lower_domain a) = Some (lower_domain a)
}.

(** ** Sample inputs *)

(** A library behaviour for the examples: dates in ISO format, every
    string an address. *)
Definition sample_lib : PydanticLib := {|
  validate_date v :=
    match v with JStr s => fromisoformat s | JDate d => if valid_date d then Some d else None
            | _ => None end;
  email_address s := Some s
|}.

(** The spec's example body, with [meal_preference] sent as [null]. *)
Definition null_meal_body : json_object :=
  list_to_map [("title", JStr "Mr"); ("given_name", JStr "Jane"); ("surname", JStr "Doe");
               ("email", JStr "jane@example.com"); ("mobile", JStr "+10000000000");
               ("meal_preference", JNull)].

Definition null_meal : PassengerCreate := {|
  title := "Mr"; given_name := "Jane"; surname := "Doe"; passport_number := None;
  date_of_birth := None; date_of_expiration := None; email := "jane@example.com";
  mobile := "+10000000000"; emergency_contact := None; organization_name := None;
  designation := None; frequent_flyer_number := None; recent_route := None;
  favourite_carrier := None; meal_preference := None; accessibility := None;
  baggage_preference := None;
  fields_set := list_to_set ["title"; "given_name"; "surname"; "email"; "mobile"; "meal_preference"]
|}.

(** ** Lemmas on the model's dictionaries *)

Lemma model_fields_NoDup : NoDup model_fields.
Proof. apply (bool_decide_unpack _). vm_compute. reflexivity. Qed.

Lemma model_entries_keys p : (model_entries p).*1 = model_fields.
Proof. reflexivity. Qed.

Lemma model_dict_lookup p f :
  model_dict p !! f = if bool_decide (f ∈ model_fields) then Some (model_value p f) else None.
Proof.
  unfold model_value. case_bool_decide as Hf.
  - rewrite <- (model_entries_keys p) in Hf.
    apply list_elem_of_fmap in Hf as [[k v] [-> Hin]].
    unfold model_dict. erewrite elem_of_list_to_map_1; [done| |done].
    rewrite model_entries_keys. apply model_fields_NoDup.
  - apply not_elem_of_list_to_map_1. by rewrite model_entries_keys.
Qed.

Lemma dict_exclude_unset_lookup p f :
  dict_exclude_unset p !! f =
  if bool_decide (f ∈ model_fields /\ f ∈ fields_set p) then Some (model_value p f) else None.
Proof.
  unfold dict_exclude_unset. rewrite map_lookup_filter, model_dict_lookup.
  destruct (decide (f ∈ model_fields)) as [Hm|Hm];
    [rewrite bool_decide_true by done | rewrite bool_decide_false by done]; simpl.
  - destruct (decide (f ∈ fields_set p)) as [Hs|Hs].
    + rewrite option_guard_True by done. by rewrite bool_decide_true.
    + rewrite option_guard_False by done. rewrite bool_decide_false; tauto.
  - rewrite bool_decide_false; tauto.
Qed.

Lemma jsonable_encoder_lookup p f :
  jsonable_encoder p !! f = encode_value <$> model_dict p !! f.
Proof. apply lookup_fmap. Qed.

Lemma jsonable_encoder_lookup_field p f :
  jsonable_encoder p !! f =
  if bool_decide (f ∈ model_fields) then Some (encode_value (model_value p f)) else None.
Proof. rewrite jsonable_encoder_lookup, model_dict_lookup. by case_bool_decide. Qed.

Lemma encode_value_not_date v dt : encode_value v <> PyDate dt.
Proof. by destruct v. Qed.

(** What [create_passenger] hands to [insert_one] holds no date, so BSON
    can encode it. *)
Lemma jsonable_encoder_no_date p : first_date (jsonable_encoder p) = None.
Proof.
  apply first_date_None. intros k dt. rewrite jsonable_encoder_lookup.
  destruct (model_dict p !! k); simpl; [|done].
  intros [=]. by eapply encode_value_not_date.
Qed.

Lemma model_entries_not_date p f v dt :
  (f, v) ∈ model_entries p -> f ∉ date_fields -> v <> PyDate dt.
Proof.
  intros Hin Hd. unfold model_entries in Hin.
  repeat (apply elem_of_cons in Hin as [Hin|Hin];
    [injection Hin as -> ->;
     first [ discriminate
           | unfold of_opt_str; case_match; discriminate
           | exfalso; apply Hd; unfold date_fields; rewrite elem_of_cons; by left
           | exfalso; apply Hd; unfold date_fields; rewrite !elem_of_cons; by right; left ]|]).
  by apply not_elem_of_nil in Hin.
Qed.

(** Only the two date fields can hold a [datetime.date]. *)
Lemma model_value_not_date p f dt : f ∉ date_fields -> model_value p f <> PyDate dt.
Proof.
  intros Hd. unfold model_value. destruct (model_dict p !! f) as [v|] eqn:E; [|done].
  apply elem_of_list_to_map_2 in E. by eapply model_entries_not_date.
Qed.

(** ** What validation guarantees *)

Section ValidationLemmas.
Context `{PydanticLib}.

Lemma req_field_inr {A} body f (val : json -> option A) err x :
  req_field body f val err = inr x -> is_Some (body !! f).
Proof. unfold req_field. destruct (body !! f); [eauto|discriminate]. Qed.

(** A body that validates has every required field, and pydantic records
    as set exactly the declared fields the body carries. *)
Lemma validate_PassengerCreate_inr body p :
  validate_PassengerCreate body = inr p ->
  (forall f, f ∈ required_fields -> is_Some (body !! f)) /\
  fields_set p = list_to_set (filter (fun f => is_Some (body !! f)) model_fields).
Proof.
  unfold validate_PassengerCreate. intros Hv.
  repeat (case_match; try discriminate). injection Hv as <-. split; [|done].
  intros f Hf. unfold required_fields in Hf.
  repeat (apply elem_of_cons in Hf as [->|Hf]; [by eapply req_field_inr|]).
  by apply not_elem_of_nil in Hf.
Qed.

Lemma validate_fields_set body p f :
  validate_PassengerCreate body = inr p -> f ∈ model_fields ->
  f ∈ fields_set p <-> is_Some (body !! f).
Proof.
  intros Hv Hm. rewrite (proj2 (validate_PassengerCreate_inr body p Hv)).
  rewrite elem_of_list_to_set, list_elem_of_filter. tauto.
Qed.
Lemma opt_field_null {A} b f (val : json -> option A) err :
  b !! f = Some JNull -> opt_field b f val err = inr None.
Proof. unfold opt_field. by intros ->. Qed.

Lemma req_field_null {A} b f (val : json -> option A) err :
  b !! f = Some JNull -> req_field b f val err = inl (NoneNotAllowed f).
Proof. unfold req_field. by intros ->. Qed.

(** A field the body sends as [null] is [None] in the model (and the
    body validates only if that field is optional). *)
Lemma validate_null b p k :
  validate_PassengerCreate b = inr p -> k ∈ model_fields -> b !! k = Some JNull ->
  model_value p k = PyNone.
Proof.
  unfold validate_PassengerCreate. intros Hv Hk Hb.
  repeat (case_match; try discriminate). injection Hv as <-.
  unfold model_fields in Hk.
  repeat (apply elem_of_cons in Hk as [->|Hk];
    [ repeat match goal with
      | E : opt_field _ ?f _ _ = inr _ |- _ =>
          first [rewrite (opt_field_null _ _ _ _ Hb) in E; injection E as <- | clear E]
      | E : req_field _ ?f _ _ = inr _ |- _ =>
          first [rewrite (req_field_null _ _ _ _ Hb) in E; discriminate | clear E]
      end; vm_compute; reflexivity |]).
  by apply not_elem_of_nil in Hk.
Qed.

Lemma req_field_some {A} b f (val : json -> option A) err x :
  req_field b f val err = inr x -> exists j, b !! f = Some j /\ val j = Some x.
Proof. unfold req_field. destruct (b !! f) as [[]|]; try case_match; naive_solver. Qed.

Lemma opt_field_some {A} b f (val : json -> option A) err x :
  opt_field b f val err = inr (Some x) -> exists j, b !! f = Some j /\ val j = Some x.
Proof. unfold opt_field. destruct (b !! f) as [[]|]; try case_match; naive_solver. Qed.

Lemma err_of_map_inr {A B} (g : A -> B) (r : verror + A) : err_of (map_inr g r) = err_of r.
Proof. by destruct r. Qed.

Lemma errs_of_cons_field f r rs : errs_of (cons_field f r rs) = err_of r ++ errs_of rs.
Proof. by destruct r, rs. Qed.

Lemma cons_field_inl f e rs : cons_field f (inl e) rs = inl (e :: errs_of rs).
Proof. done. Qed.

Lemma cons_field_inr_inl f v es : cons_field f (inr v) (inl es) = inl es.
Proof. done. Qed.

Lemma cons_field_inr_inr f v vs : cons_field f (inr v) (inr vs) = inr ((f, v) :: vs).
Proof. done. Qed.

Lemma err_of_inl {A} (e : verror) : err_of (A := A) (inl e) = [e].
Proof. done. Qed.

Lemma err_of_inr {A} (a : A) : err_of (inr a) = [].
Proof. done. Qed.

Lemma errs_of_inr {A} (a : A) : errs_of (inr a) = [].
Proof. done. Qed.

(** pydantic's generic loop over the declared fields of [PassengerCreate]
    computes what the field-by-field [validate_PassengerCreate] does:
    the same errors in the same order, or the model's entries.  Each of
    the seventeen outcomes is generalised and cased on in turn, so the
    proof stays linear in the number of fields. *)
Lemma validate_fields_PassengerCreate b :
  validate_fields b PassengerCreate_fields = map_inr model_entries (validate_PassengerCreate b).
Proof.
  unfold validate_PassengerCreate. cbn [validate_fields PassengerCreate_fields check_field].
  repeat match goal with
  | |- context [req_field b ?f ?v ?e] => generalize (req_field b f v e); intro
  | |- context [opt_field b ?f ?v ?e] => generalize (opt_field b f v e); intro
  end.
  repeat match goal with
  | |- _ = map_inr _ (match ?r with _ => _ end) =>
      destruct r; cbv beta iota;
      [ rewrite ?map_inr_inl, ?map_inr_inr, cons_field_inl, ?cons_field_inr_inl,
          ?errs_of_cons_field, ?err_of_map_inr, ?err_of_inl, ?err_of_inr, errs_of_inr,
          ?app_nil_r, ?app_nil_l; reflexivity | ]
  end.
  rewrite ?map_inr_inr, ?cons_field_inr_inr. reflexivity.
Qed.

Lemma validate_fields_inr b fs vs f t :
  validate_fields b fs = inr vs -> (f, t) ∈ fs ->
  exists v, (f, v) ∈ vs /\ check_field b f t = inr v.
Proof.
  revert vs; induction fs as [|[f' t'] fs IH]; intros vs Hv Hin; [by apply not_elem_of_nil in Hin|].
  simpl in Hv. unfold cons_field in Hv.
  destruct (check_field b f' t') as [|v'] eqn:Ec, (validate_fields b fs) as [|vs'];
    try discriminate. injection Hv as <-.
  apply elem_of_cons in Hin as [[= -> ->]|Hin].
  - exists v'. split; [by left|done].
  - destruct (IH vs' eq_refl Hin) as (v & ? & ?). exists v. split; [by right|done].
Qed.

(** Each field of a validated model is the outcome of its validator. *)
Lemma validated_model_value b p f t :
  validate_PassengerCreate b = inr p -> (f, t) ∈ PassengerCreate_fields ->
  check_field b f t = inr (model_value p f).
Proof.
  intros Hv Hin. pose proof (validate_fields_PassengerCreate b) as Hf. rewrite Hv in Hf.
  destruct (validate_fields_inr _ _ _ _ _ Hf Hin) as (v & Hfv & Hc).
  rewrite Hc. unfold model_value, model_dict. erewrite elem_of_list_to_map_1; [done| |done].
  rewrite model_entries_keys. apply model_fields_NoDup.
Qed.

(** C18: The update payload [passenger.dict(exclude_unset=True)] holds
    exactly the declared fields the body carries, omitted ones left out;
    a field sent as [null] is in it, with value [None], so it clears the
    stored value where an omitted one keeps it (spec section 4). *)
Theorem update_payload_fields b p :
  validate_PassengerCreate b = inr p ->
  (forall k, is_Some (dict_exclude_unset p !! k) <-> k ∈ model_fields /\ is_Some (b !! k)) /\
  (forall k, k ∈ model_fields -> b !! k = Some JNull -> dict_exclude_unset p !! k = Some PyNone).
Proof.
  intros Hv. split.
  - intros k. rewrite dict_exclude_unset_lookup.
    case_bool_decide as Hc; split; intros Hs; try done.
    + destruct Hc as [Hm Hf]. split; [done|]. by apply (validate_fields_set b p k Hv Hm).
    + destruct Hs as [Hm Hb]. exfalso. apply Hc. split; [done|].
      by apply (validate_fields_set b p k Hv Hm).
  - intros k Hm Hb. rewrite dict_exclude_unset_lookup, bool_decide_eq_true_2.
    + f_equal. by apply (validate_null b p k Hv Hm Hb).
    + split; [done|]. apply (validate_fields_set b p k Hv Hm). by rewrite Hb.
Qed.

End ValidationLemmas.

Lemma update_payload_fields_witness :
  (forall k, is_Some (dict_exclude_unset null_meal !! k) <->
             k ∈ model_fields /\ is_Some (null_meal_body !! k)) /\
  (forall k, k ∈ model_fields -> null_meal_body !! k = Some JNull ->
             dict_exclude_unset null_meal !! k = Some PyNone).
Proof.
  apply (update_payload_fields (H := sample_lib)). vm_compute. reflexivity.
Defined.

Lemma lower_domain_idem s : lower_domain (lower_domain s) = lower_domain s.
Proof.
  induction s as [|c s IH]; [done|]. simpl.
  destruct (Ascii.eqb c "@") eqn:Ec; simpl; rewrite Ec; [by rewrite string_lower_idem | by rewrite IH].
Qed.

(** ** Validated fields are typed, and typed values validate back *)

Section Typed.
Context `{PydanticLaws}.

(** An address [EmailStr] returned validates to itself. *)
Lemma email_validator_normal j a : email_validator j = Some a -> email_validator (JStr a) = Some a.
Proof.
  unfold email_validator. simpl.
  destruct (str_validator j) as [s|]; simpl; [|done].
  destruct (email_address s) as [a'|] eqn:Ea; simpl; [|done]. intros [= <-].
  rewrite (email_address_normal s a' Ea). simpl. by rewrite lower_domain_idem.
Qed.

Lemma check_field_typed b f t v : check_field b f t = inr v -> field_typed t (encode_value v).
Proof.
  destruct t; simpl; intros (a & Hr & ->)%map_inr_eq_inr.
  - by eexists.
  - destruct a; simpl; [right; by eexists | by left].
  - destruct a as [d|]; simpl; [right|by left].
    destruct (opt_field_some _ _ _ _ _ Hr) as (j & _ & Hj).
    exists d. split; [done|]. by eapply validate_date_isoformat.
  - destruct (req_field_some _ _ _ _ _ Hr) as (j & _ & Hj).
    exists a. split; [done|]. by eapply email_validator_normal.
Qed.

Lemma typed_check_field b f t v :
  field_typed t v -> b !! f = Some (json_of_pyval v) ->
  exists v', check_field b f t = inr v' /\ encode_value v' = v.
Proof.
  unfold check_field, req_field, opt_field. intros Ht Hb. rewrite Hb.
  destruct t; simpl in Ht.
  - destruct Ht as [s ->]. by eexists.
  - destruct Ht as [->|[s ->]]; by eexists.
  - destruct Ht as [->|(d & -> & Hd)]; [by eexists|]. simpl. rewrite Hd. by eexists.
  - destruct Ht as (a & -> & Ha). simpl. rewrite Ha. by eexists.
Qed.

(** Every field of a validated model is typed once encoded. *)
Lemma validated_typed b p f t :
  validate_PassengerCreate b = inr p -> (f, t) ∈ PassengerCreate_fields ->
  field_typed t (encode_value (model_value p f)).
Proof. intros Hv Hin. eapply check_field_typed, validated_model_value; eauto. Qed.
End Typed.

Lemma sample_laws : @PydanticLaws sample_lib.
Proof.
  split.
  - intros v d. destruct v as [| | | |s|d'|]; simpl; try done.
    + intros Hd. apply fromisoformat_inv in Hd as [Hv <-]. by apply fromisoformat_isoformat.
    + case_match; [|done]. intros [= <-]. by apply fromisoformat_isoformat.
  - by intros s a [= ->].
Qed.

End Schema.
