(* ===== verification/Models.v ===== *)
(** * The model [Passenger] (src/models.py)

    models.py declares [Passenger], a pydantic model with the seventeen
    fields of [PassengerCreate] and [Config.orm_mode = True].  main.py
    imports it (line 3) and never uses it.  It is modelled as its field
    table and pydantic's validation against it ([validate_Passenger]).
    Its field table is the one of [PassengerCreate], so it accepts exactly
    the bodies [PassengerCreate] accepts, with the same values and errors.
    [orm_mode] only enables [Passenger.from_orm(obj)], which reads
    attributes instead of keys; no code calls it.  [from_orm] is pydantic
    v1's classmethod: it raises [ConfigError] unless [orm_mode] is set,
    and otherwise validates the object's attributes as a body, so
    [Passenger.from_orm] also accepts exactly what [PassengerCreate]
    accepts ([Passenger_from_orm_validates]). *)

From S2P Require Import Prelude Dates ObjectId PyValues Schemas.
Import Date Oid Py Schema.

Module Models.

(** [class Passenger(BaseModel)]: its fields with their annotations, in
    declaration order. *)
Definition Passenger_fields : list (string * ftype) :=
  [("title", FStr); ("given_name", FStr); ("surname", FStr);
   ("passport_number", FOptStr); ("date_of_birth", FOptDate);
   ("date_of_expiration", FOptDate); ("email", FEmail); ("mobile", FStr);
   ("emergency_contact", FOptStr); ("organization_name", FOptStr);
   ("designation", FOptStr); ("frequent_flyer_number", FOptStr);
   ("recent_route", FOptStr); ("favourite_carrier", FOptStr);
   ("meal_preference", FOptStr); ("accessibility", FOptStr);
   ("baggage_preference", FOptStr)].

(** [class Config: orm_mode = True] *)
Definition Passenger_orm_mode : bool := true.

(** What [from_orm] raises. *)
Inductive orm_error : Type :=
| ConfigError
| ValidationError (errs : list verror).

Section Validation.
Context `{PydanticLib}.

(** pydantic v1 [BaseModel.from_orm(obj)]: [ConfigError] without
    [orm_mode]; with it, [validate_model] over the object's attributes
    ([GetterDict(obj)], attribute [name] read as key [name]). *)
Definition from_orm (orm_mode : bool) (fields : list (string * ftype)) (attrs : json_object)
    : orm_error + list (string * pyval) :=
  if orm_mode then
    match validate_fields attrs fields with
    | inl errs => inl (ValidationError errs)
    | inr vs => inr vs
    end
  else inl ConfigError.

(** [Passenger.parse_obj(body)]: pydantic's loop over the fields. *)
Definition validate_Passenger (b : json_object) : list verror + list (string * pyval) :=
  validate_fields b Passenger_fields.

(** [Passenger.from_orm(obj)] never raises [ConfigError], and validates
    the attributes as [PassengerCreate] validates a body. *)
Lemma Passenger_from_orm_validates attrs :
  from_orm Passenger_orm_mode Passenger_fields attrs =
  match validate_PassengerCreate attrs with
  | inl errs => inl (ValidationError errs)
  | inr p => inr (model_entries p)
  end.
Proof.
  assert (Hf : Passenger_fields = PassengerCreate_fields) by reflexivity.
  unfold from_orm, Passenger_orm_mode. rewrite Hf, validate_fields_PassengerCreate.
  by destruct (validate_PassengerCreate attrs).
Qed.
End Validation.

End Models.
