(* ===== verification/Store.v ===== *)
(** * The document store interface (spec 4.1, used by src/main.py)

    The handlers reach MongoDB through four driver calls on
    [passenger_collection]: [insert_one], [find_one({"_id": ...})],
    [update_one({"_id": ...}, {"$set": ...})] and
    [delete_one({"_id": ...})].  This file states what the service relies
    on from them:
    - [op] and [op_res]: the four awaited operations and their results
      ([InsertOneResult], [UpdateResult], [DeleteResult] of pymongo);
    - [abs_exec]: the abstract store, a finite map from ObjectId to
      document, with the behaviour of each call (spec 4.1), including the
      driver errors the calls raise;
    - the classes [DocStore] (a stateful implementation of the calls, its
      view as an abstract store and the ObjectId it generates next) and
      [DocStoreLaws] (the implementation refines [abs_exec]);
    - [absstore]: the reference implementation, the abstract map with the
      driver's id counter, and its instance of the classes.
    The service (Handlers.v) is proved against these classes; Mongo.v
    gives the collection model that discharges them. *)

From S2P Require Import Prelude Dates ObjectId PyValues.
Import Date Oid Py.

Module Store.

Inductive op : Type :=
| InsertOne (doc : pydict)
| FindOne (o : oid)
| UpdateOne (o : oid) (set : pydict)
| DeleteOne (o : oid).

Record InsertOneResult : Type := { inserted_id : oid }.
Record UpdateResult : Type := { matched_count : nat; modified_count : nat }.
Record DeleteResult : Type := { deleted_count : nat }.

Definition op_res (o : op) : Type :=
  match o with
  | InsertOne _ => InsertOneResult
  | FindOne _ => option pydict
  | UpdateOne _ _ => UpdateResult
  | DeleteOne _ => DeleteResult
  end.

(** Code that awaits store operations. *)
Abbreviation sprog := (prog op op_res exn).

(** ** The abstract store *)

Abbreviation absdb := (gmap oid pydict).

(** [insert_one(d)]: [d] gets the generated id [gen] under ["_id"]
    unless it has one. *)
Definition abs_insert (gen : oid) (d : pydict) (m : absdb)
    : (exn + InsertOneResult) * absdb :=
  match first_date d with
  | Some dt => (inl (InvalidDocument dt), m)
  | None =>
      let o := match doc_id d with Some o => o | None => gen end in
      match m !! o with
      | Some _ => (inl (DuplicateKeyError o), m)
      | None => (inr {| inserted_id := o |}, <[o := <["_id" := PyObjectId o]> d]> m)
      end
  end.

(** [find_one({"_id": o})] *)
Definition abs_find (o : oid) (m : absdb) : (exn + option pydict) * absdb :=
  (inr (m !! o), m).

(** [update_one({"_id": o}, {"$set": set})]: the fields of [set]
    overwrite those of the document; [modified_count] is 0 when that
    leaves the document as it was. *)
Definition abs_update (o : oid) (set : pydict) (m : absdb) : (exn + UpdateResult) * absdb :=
  match first_date set with
  | Some dt => (inl (InvalidDocument dt), m)
  | None =>
      match m !! o with
      | None => (inr {| matched_count := 0; modified_count := 0 |}, m)
      | Some d =>
          if bool_decide (is_Some (set !! "_id") /\ set !! "_id" <> Some (PyObjectId o))
          then (inl (ImmutableIdError o), m)
          else
            let d' := set ∪ d in
            (inr {| matched_count := 1;
                    modified_count := if bool_decide (d' = d) then 0 else 1 |},
             <[o := d']> m)
      end
  end.

(** [delete_one({"_id": o})] *)
Definition abs_delete (o : oid) (m : absdb) : (exn + DeleteResult) * absdb :=
  match m !! o with
  | Some _ => (inr {| deleted_count := 1 |}, delete o m)
  | None => (inr {| deleted_count := 0 |}, m)
  end.

Definition abs_exec (gen : oid) (o : op) (m : absdb) : (exn + op_res o) * absdb :=
  match o return (exn + op_res o) * absdb with
  | InsertOne d => abs_insert gen d m
  | FindOne i => abs_find i m
  | UpdateOne i set => abs_update i set m
  | DeleteOne i => abs_delete i m
  end.

(** ** The interface an implementation provides *)

Class DocStore (S : Type) : Type := {
  store_exec : forall o : op, S -> (exn + op_res o) * S;
  (** the documents, by id *)
  store_view : S -> absdb;
  (** the id [insert_one] generates next *)
  store_next_id : S -> oid;
  (** the implementation's own invariant *)
  store_ok : S -> Prop
}.

Class DocStoreLaws (S : Type) `{DocStore S} : Prop := {
  store_exec_ok o s : store_ok s -> store_ok (store_exec o s).2;
  store_exec_refines o s : store_ok s ->
    ((store_exec o s).1, store_view (store_exec o s).2) =
    abs_exec (store_next_id s) o (store_view s);
  (** generated ids are 12-byte ObjectIds *)
  store_next_id_bound s : (store_next_id s < OID_BOUND)%N
}.

(** ** The reference implementation

    The abstract map with the driver's id counter: [insert_one] of a
    document without ["_id"] takes the next id and advances the counter
    (Mongo.v does the same on the list of documents). *)
Record absstore : Type := { abs_db : absdb; abs_counter : N }.

Definition abs_gen (a : absstore) : oid := (abs_counter a mod OID_BOUND)%N.

Definition counter_after (o : op) (n : N) : N :=
  match o with
  | InsertOne d => match doc_id d with Some _ => n | None => (n + 1)%N end
  | _ => n
  end.

Definition absstore_exec (o : op) (a : absstore) : (exn + op_res o) * absstore :=
  ((abs_exec (abs_gen a) o (abs_db a)).1,
   {| abs_db := (abs_exec (abs_gen a) o (abs_db a)).2;
      abs_counter := counter_after o (abs_counter a) |}).

#[export] Instance absstore_store : DocStore absstore := {|
  store_exec := absstore_exec;
  store_view := abs_db;
  store_next_id := abs_gen;
  store_ok _ := True
|}.

(** Programs that only read: every call they await is a [find_one]. *)
Inductive reads_only {A} : sprog A -> Prop :=
| ro_pure a : reads_only (Pure a)
| ro_throw e : reads_only (Throw e)
| ro_find o k : (forall r, reads_only (k r)) -> reads_only (Await (FindOne o) k).

Section Client.
Context {S : Type} `{DocStoreLaws S}.

Definition run_store {A} (p : sprog A) (s : S) : (exn + A) * S := run store_exec p s.

(** One awaited call, seen through the view: the continuation gets the
    abstract result and the store moves to a state whose view is the
    abstract successor. *)
Lemma run_store_await {A} o (k : exn + op_res o -> sprog A) s :
  store_ok s ->
  exists s', store_ok s' /\
    store_view s' = (abs_exec (store_next_id s) o (store_view s)).2 /\
    run_store (Await o k) s = run_store (k (abs_exec (store_next_id s) o (store_view s)).1) s'.
Proof.
  intros Hok. pose proof (store_exec_refines o s Hok) as Href.
  unfold run_store. simpl. destruct (store_exec o s) as [r s'] eqn:E.
  pose proof (store_exec_ok o s Hok) as Hok'. rewrite E in Hok'.
  simpl in *. rewrite <- Href. by exists s'.
Qed.

Lemma run_store_bind_await {A} o (k : op_res o -> sprog A) s :
  store_ok s ->
  exists s', store_ok s' /\
    store_view s' = (abs_exec (store_next_id s) o (store_view s)).2 /\
    run_store (prog_bind k (await o)) s =
    match (abs_exec (store_next_id s) o (store_view s)).1 with
    | inl e => (inl e, s')
    | inr v => run_store (k v) s'
    end.
Proof.
  intros Hok. destruct (run_store_await o (fun r => prog_bind k
    (match r with inl e => Throw e | inr v => Pure v end)) s Hok) as (s' & Hok' & Hv & Hr).
  exists s'. split; [done|]. split; [done|].
  change (prog_bind k (await o)) with
    (Await o (fun r => prog_bind k (match r with inl e => Throw e | inr v => Pure v end))).
  rewrite Hr. by destruct (abs_exec _ _ _).1.
Qed.

Lemma run_store_try_except {A} (p : sprog A) h s :
  run_store (try_except p h) s =
  match run_store p s with
  | (inl e, s') => run_store (h e) s'
  | (inr a, s') => (inr a, s')
  end.
Proof. apply run_try_except. Qed.

Lemma run_store_bind {A B} (p : sprog A) (f : A -> sprog B) s :
  run_store (prog_bind f p) s =
  match run_store p s with
  | (inl e, s') => (inl e, s')
  | (inr a, s') => run_store (f a) s'
  end.
Proof. apply run_bind. Qed.
End Client.

Lemma absstore_laws : DocStoreLaws absstore.
Proof.
  split.
  - done.
  - intros o a _. simpl. by destruct (abs_exec (abs_gen a) o (abs_db a)).
  - intros a. apply N.mod_lt. unfold OID_BOUND. lia.
Qed.

#[export] Existing Instance absstore_laws.

Lemma reads_only_bind {A B} (f : A -> sprog B) p :
  reads_only p -> (forall a, reads_only (f a)) -> reads_only (prog_bind f p).
Proof. intros Hp Hf. induction Hp; simpl; [done|constructor|by constructor]. Qed.

Lemma reads_only_try {A} (p : sprog A) h :
  reads_only p -> (forall e, reads_only (h e)) -> reads_only (try_except p h).
Proof. intros Hp Hh. induction Hp; simpl; [constructor|done|by constructor]. Qed.

Lemma reads_only_find o : reads_only (await (FindOne o)).
Proof. constructor. intros [e|v]; constructor. Qed.

#[export] Hint Constructors reads_only : pax.
#[export] Hint Resolve reads_only_find : pax.

(** Running a reading program leaves the documents as they were. *)
Lemma run_store_reads_only {St} `{DocStoreLaws St} {A} (p : sprog A) (s : St) :
  store_ok s -> reads_only p ->
  store_ok (run_store p s).2 /\ store_view (run_store p s).2 = store_view s.
Proof.
  intros Hok Hp. revert s Hok. induction Hp as [a|e|o k Hk IH]; intros s Hok; [done|done|].
  pose proof (store_exec_refines (FindOne o) s Hok) as Href.
  pose proof (store_exec_ok (FindOne o) s Hok) as Hok'.
  unfold run_store in *. simpl. destruct (store_exec (FindOne o) s) as [r s'] eqn:E.
  simpl in *. injection Href as _ Hv. destruct (IH r s' Hok') as [Hok'' Hv'].
  split; [done|]. by rewrite Hv', Hv.
Qed.

(** Step over one awaited store call of the program being run, in a
    state satisfying [store_ok]. *)
Ltac store_step :=
  cbv beta;
  (* type the continuation's argument by [op_res], as the lemma does *)
  match goal with
  | |- context [@prog_bind ?O ?R ?E ?X ?Y ?k (@await ?O ?R ?E ?o)] =>
      change (@prog_bind O R E X Y k (@await O R E o)) with
             (@prog_bind O R E (R o) Y k (@await O R E o))
  end;
  match goal with
  | Hok : store_ok ?s |- context [run_store (@prog_bind _ _ _ _ _ ?k (@await _ _ _ ?o)) ?s] =>
      let s' := fresh "s" in
      let Hok' := fresh "Hok" in
      let Hv := fresh "Hv" in
      let Hr := fresh "Hr" in
      destruct (run_store_bind_await o k s Hok) as (s' & Hok' & Hv & Hr);
      rewrite Hr; clear Hr; cbn [abs_exec] in Hv |- *;
      unfold abs_find, abs_insert, abs_update, abs_delete in Hv |- *;
      cbn [fst snd inserted_id] in Hv |- *
  end.

End Store.
