(* ===== verification/Mongo.v ===== *)
(** * The MongoDB collection behind [passenger_collection] (src/database.py)

    [database.py] opens an [AsyncIOMotorClient] and hands main.py the
    collection [passenger_db.passenger_collection].  Its behaviour is the
    server's and the driver's, modelled from their documented semantics:
    - the collection is the list of its documents in natural (insertion)
      order, each stored with an ObjectId under ["_id"] (unique index);
    - the driver generates the ObjectId of a document without ["_id"] from
      a counter, before it encodes the document (so a failed insert still
      consumes an id); ids wrap at [2 ^ 96];
    - [find_one], [update_one], [delete_one] act on the first document
      whose ["_id"] matches.
    [Mongo_laws] proves that this model refines the abstract store of
    Store.v: the class instance the service theorems are used at.
    [exec_abstracts] relates each call to the same call on the reference
    store [absstore] ([abstracts]: same documents by id, same counter). *)

From S2P Require Import Prelude Dates ObjectId PyValues Store.
Import Date Oid Py Store.

Module Mongo.

Record collection : Type := {
  documents : list pydict;
  oid_counter : N
}.

Fixpoint find_doc (o : oid) (l : list pydict) : option pydict :=
  match l with
  | [] => None
  | d :: l' => if bool_decide (doc_id d = Some o) then Some d else find_doc o l'
  end.

Fixpoint replace_doc (o : oid) (d' : pydict) (l : list pydict) : list pydict :=
  match l with
  | [] => []
  | d :: l' => if bool_decide (doc_id d = Some o) then d' :: l' else d :: replace_doc o d' l'
  end.

Fixpoint remove_doc (o : oid) (l : list pydict) : list pydict :=
  match l with
  | [] => []
  | d :: l' => if bool_decide (doc_id d = Some o) then l' else d :: remove_doc o l'
  end.

(** [ObjectId()]: the next id of the driver's counter, 12 bytes wide. *)
Definition gen_oid (c : collection) : oid := (oid_counter c mod OID_BOUND)%N.

Definition insert_one (d : pydict) (c : collection) : (exn + InsertOneResult) * collection :=
  let '(o, c1) :=
    match doc_id d with
    | Some o => (o, c)
    | None => (gen_oid c, {| documents := documents c; oid_counter := oid_counter c + 1 |})
    end in
  match first_date d with
  | Some dt => (inl (InvalidDocument dt), c1)
  | None =>
      match find_doc o (documents c1) with
      | Some _ => (inl (DuplicateKeyError o), c1)
      | None =>
          (inr {| inserted_id := o |},
           {| documents := documents c1 ++ [<["_id" := PyObjectId o]> d];
              oid_counter := oid_counter c1 |})
      end
  end.

Definition find_one (o : oid) (c : collection) : (exn + option pydict) * collection :=
  (inr (find_doc o (documents c)), c).

Definition update_one (o : oid) (set : pydict) (c : collection)
    : (exn + UpdateResult) * collection :=
  match first_date set with
  | Some dt => (inl (InvalidDocument dt), c)
  | None =>
      match find_doc o (documents c) with
      | None => (inr {| matched_count := 0; modified_count := 0 |}, c)
      | Some d =>
          if bool_decide (is_Some (set !! "_id") /\ set !! "_id" <> Some (PyObjectId o))
          then (inl (ImmutableIdError o), c)
          else
            let d' := set ∪ d in
            (inr {| matched_count := 1;
                    modified_count := if bool_decide (d' = d) then 0 else 1 |},
             {| documents := replace_doc o d' (documents c); oid_counter := oid_counter c |})
      end
  end.

Definition delete_one (o : oid) (c : collection) : (exn + DeleteResult) * collection :=
  match find_doc o (documents c) with
  | Some _ =>
      (inr {| deleted_count := 1 |},
       {| documents := remove_doc o (documents c); oid_counter := oid_counter c |})
  | None => (inr {| deleted_count := 0 |}, c)
  end.

Definition exec (o : op) (c : collection) : (exn + op_res o) * collection :=
  match o return (exn + op_res o) * collection with
  | InsertOne d => insert_one d c
  | FindOne i => find_one i c
  | UpdateOne i set => update_one i set c
  | DeleteOne i => delete_one i c
  end.

Definition entries (l : list pydict) : list (oid * pydict) :=
  omap (fun d => o ← doc_id d; Some (o, d)) l.

Definition view_of (l : list pydict) : absdb := list_to_map (entries l).

Definition view (c : collection) : absdb := view_of (documents c).

(** The unique index on ["_id"]. *)
Definition ids_unique (c : collection) : Prop := NoDup (omap doc_id (documents c)).

#[export] Instance Mongo_store : DocStore collection := {|
  store_exec := exec;
  store_view := view;
  store_next_id := gen_oid;
  store_ok := ids_unique
|}.

(** The collection a reference store stands for: same documents by id,
    same counter. *)
Definition abstracts (c : collection) (a : absstore) : Prop :=
  ids_unique c /\ view c = abs_db a /\ oid_counter c = abs_counter a.

(** ** The list of documents refines the map of the abstract store *)

Lemma entries_cons d l :
  entries (d :: l) =
  match doc_id d with Some o => (o, d) :: entries l | None => entries l end.
Proof. unfold entries. simpl. by destruct (doc_id d). Qed.

Lemma view_of_cons d l :
  view_of (d :: l) =
  match doc_id d with Some o => <[o := d]> (view_of l) | None => view_of l end.
Proof. unfold view_of. rewrite entries_cons. by destruct (doc_id d). Qed.

Lemma find_doc_view o l : find_doc o l = view_of l !! o.
Proof.
  induction l as [|d l IH]; [done|]. simpl. rewrite view_of_cons.
  destruct (doc_id d) as [o'|] eqn:E; case_bool_decide; simplify_eq.
  - by rewrite lookup_insert_eq.
  - rewrite lookup_insert_ne by congruence. done.
  - done.
Qed.

Lemma find_doc_id o l d : find_doc o l = Some d -> doc_id d = Some o.
Proof.
  induction l as [|d' l IH]; simpl; [done|].
  case_bool_decide; [congruence | done].
Qed.

Lemma find_doc_Some_in o l d : find_doc o l = Some d -> o ∈ omap doc_id l.
Proof.
  induction l as [|d0 l IH]; simpl; [done|].
  case_bool_decide as Hd0; intros Hf.
  - rewrite Hd0. left.
  - destruct (doc_id d0); [right|]; auto.
Qed.

Lemma find_doc_None_notin o l : find_doc o l = None -> o ∉ omap doc_id l.
Proof.
  induction l as [|d l IH]; simpl; [set_solver|].
  case_bool_decide as Hd; [done|]. intros Hf.
  destruct (doc_id d) eqn:E; simpl; [|auto].
  rewrite elem_of_cons. intros [->|Hin]; [done | by apply IH].
Qed.

Lemma replace_doc_view o d d' l :
  find_doc o l = Some d -> doc_id d' = Some o ->
  view_of (replace_doc o d' l) = <[o := d']> (view_of l).
Proof.
  intros Hf Hid. revert Hf. induction l as [|d0 l IH]; simpl; [done|].
  case_bool_decide as Hd0; intros Hf; rewrite !view_of_cons.
  - rewrite Hid, Hd0. by rewrite insert_insert_eq.
  - destruct (doc_id d0) as [o0|] eqn:E; [|by apply IH].
    rewrite IH by done. apply insert_insert_ne. congruence.
Qed.

Lemma replace_doc_ids o d d' l :
  find_doc o l = Some d -> doc_id d' = Some o ->
  omap doc_id (replace_doc o d' l) = omap doc_id l.
Proof.
  intros Hf Hid. revert Hf. induction l as [|d0 l IH]; simpl; [done|].
  case_bool_decide as Hd0; intros Hf; simpl.
  - by rewrite Hid, Hd0.
  - destruct (doc_id d0); [f_equal|]; auto.
Qed.

Lemma remove_doc_view o d l :
  NoDup (omap doc_id l) -> find_doc o l = Some d ->
  view_of (remove_doc o l) = delete o (view_of l).
Proof.
  revert d. induction l as [|d0 l IH]; intros d; simpl; [done|].
  rewrite view_of_cons. case_bool_decide as Hd0; intros Hnd Hf.
  - rewrite Hd0 in Hnd |- *. rewrite delete_insert_eq.
    apply NoDup_cons in Hnd as [Hnot _].
    symmetry. apply delete_id. rewrite <- find_doc_view.
    destruct (find_doc o l) eqn:E; [|done].
    exfalso. by eapply Hnot, find_doc_Some_in.
  - rewrite view_of_cons. destruct (doc_id d0) as [o0|] eqn:E.
    + apply NoDup_cons in Hnd as [_ Hnd].
      rewrite (IH d) by done. symmetry. apply delete_insert_ne. congruence.
    + by apply (IH d).
Qed.

Lemma append_doc_view o x l :
  find_doc o l = None -> doc_id x = Some o ->
  view_of (l ++ [x]) = <[o := x]> (view_of l).
Proof.
  intros Hf Hx. induction l as [|d l IH]; simpl in *.
  - rewrite view_of_cons, Hx. done.
  - revert Hf. case_bool_decide as Hd; [done|]. intros Hf.
    rewrite !view_of_cons. destruct (doc_id d) as [o'|] eqn:E; [|by apply IH].
    rewrite IH by done. apply insert_insert_ne. congruence.
Qed.

Lemma remove_doc_ids_sublist o l :
  omap doc_id (remove_doc o l) `sublist_of` omap doc_id l.
Proof.
  induction l as [|d l IH]; simpl; [constructor|].
  case_bool_decide; simpl; destruct (doc_id d).
  - by apply sublist_cons.
  - done.
  - by apply sublist_skip.
  - done.
Qed.

Lemma doc_id_insert_id o d : doc_id (<["_id" := PyObjectId o]> d) = Some o.
Proof. unfold doc_id. by rewrite lookup_insert_eq. Qed.

(** The document [set ∪ d] written by an update keeps the id of [d]
    when [set] does not change it. *)
Lemma doc_id_union_set o set d :
  doc_id d = Some o ->
  ~ (is_Some (set !! "_id") /\ set !! "_id" <> Some (PyObjectId o)) ->
  doc_id (set ∪ d) = Some o.
Proof.
  unfold doc_id. intros Hd Hset. rewrite lookup_union.
  destruct (set !! "_id") as [v|] eqn:E.
  - destruct (decide (Some v = Some (PyObjectId o))) as [Heq|Hne].
    + injection Heq as ->. destruct (d !! "_id"); done.
    + exfalso. apply Hset. split; [eauto | done].
  - destruct (d !! "_id"); done.
Qed.

Lemma append_doc_ids o x l :
  NoDup (omap doc_id l) -> find_doc o l = None -> doc_id x = Some o ->
  NoDup (omap doc_id (l ++ [x])).
Proof.
  intros Hnd Hf Hx. rewrite omap_app. simpl. rewrite Hx.
  apply NoDup_app. repeat split; [done | | apply NoDup_singleton].
  intros y Hy ->%list_elem_of_singleton. by eapply find_doc_None_notin.
Qed.

(** The collection model implements the store contract. *)
Lemma Mongo_laws : DocStoreLaws collection.
Proof.
  split.
  - intros [] [l n] Hnd; simpl in *; unfold ids_unique in *; simpl in *.
    + unfold insert_one. simpl.
      destruct (doc_id doc) as [o|] eqn:Eid; simpl;
        destruct (first_date doc); simpl; try done;
        destruct (find_doc _ l) eqn:Ef; simpl; try done;
        unfold ids_unique; simpl; eapply append_doc_ids; eauto using doc_id_insert_id.
    + done.
    + unfold update_one. destruct (first_date set); simpl; [done|].
      destruct (find_doc o l) as [d|] eqn:Ef; simpl; [|done].
      case_bool_decide as Hs; simpl; [done|].
      unfold ids_unique; simpl.
      erewrite replace_doc_ids; eauto. apply doc_id_union_set; [|done].
      by eapply find_doc_id.
    + unfold delete_one. simpl. destruct (find_doc o l); simpl; [|done].
      unfold ids_unique; simpl.
      eapply sublist_NoDup; [done | apply remove_doc_ids_sublist].
  - intros [] [l n] Hnd; simpl in *; unfold ids_unique in *; simpl in *.
    + unfold insert_one, abs_insert, view. simpl.
      destruct (doc_id doc) as [o|] eqn:Eid; simpl;
        destruct (first_date doc); simpl; try done;
        rewrite <- find_doc_view; destruct (find_doc _ l) eqn:Ef; simpl; try done;
        by rewrite (append_doc_view _ _ _ Ef (doc_id_insert_id _ _)).
    + unfold find_one, abs_find, view. simpl. by rewrite find_doc_view.
    + unfold update_one, abs_update, view.
      destruct (first_date set); simpl; [done|].
      rewrite <- find_doc_view. destruct (find_doc o l) as [d|] eqn:Ef; simpl; [|done].
      case_bool_decide as Hs; simpl; [done|].
      erewrite replace_doc_view; eauto. apply doc_id_union_set; [|done].
      by eapply find_doc_id.
    + unfold delete_one, abs_delete, view. simpl.
      rewrite <- find_doc_view. destruct (find_doc o l) eqn:Ef; simpl; [|done].
      by erewrite remove_doc_view.
  - intros c. apply N.mod_lt. unfold OID_BOUND. lia.
Qed.

#[export] Existing Instance Mongo_laws.

(** ** The collection and the reference store answer alike *)

Lemma exec_counter o c : oid_counter (exec o c).2 = counter_after o (oid_counter c).
Proof.
  destruct o as [d|i|i set|i]; simpl.
  - unfold insert_one. destruct (doc_id d); simpl;
      destruct (first_date d); [done| |done|]; by destruct (find_doc _ _).
  - done.
  - unfold update_one. destruct (first_date set); [done|].
    destruct (find_doc i _); [|done]. by case_bool_decide.
  - unfold delete_one. by destruct (find_doc i _).
Qed.

Lemma exec_abstracts o c a :
  abstracts c a ->
  (exec o c).1 = (absstore_exec o a).1 /\ abstracts (exec o c).2 (absstore_exec o a).2.
Proof.
  intros (Hu & Hv & Hn).
  pose proof (store_exec_refines (S := collection) o c Hu) as Href. simpl in Href.
  assert (Hg : gen_oid c = abs_gen a) by (unfold gen_oid, abs_gen; by rewrite Hn).
  rewrite Hg, Hv in Href. unfold absstore_exec. rewrite <- Href. simpl.
  split; [done|]. split_and!.
  - exact (store_exec_ok (S := collection) o c Hu).
  - done.
  - by rewrite exec_counter, Hn.
Qed.

End Mongo.
