(* ===== verification/Handlers.v ===== *)
(** * The request handlers of src/main.py

    Each [async def] handler becomes a [sprog] (Store.v): the pure Python
    steps are ordinary functions (raising through [exn + _]), every
    [await passenger_collection.<call>] is one [await] node, and the
    [try: ... except Exception as e: raise HTTPException(500, str(e))]
    that wraps each body is [try_except].  [passenger_helper] and
    [convert_dates_to_string] are pure functions on dictionaries.  The
    file ends with the helpers' contracts and the bound on the driver
    calls each handler awaits before it finishes. *)

From S2P Require Import Prelude Dates ObjectId PyValues Schemas Store.
Import Date Oid Py Schema Store.

Module Main.

(** A pure Python step that may raise, inside a handler. *)
Definition lift {A} (r : exn + A) : sprog A :=
  match r with inl e => Throw e | inr a => Pure a end.

(** [ObjectId(id)] *)
Definition ObjectId (id : string) : sprog oid :=
  match parse_object_id id with Some o => Pure o | None => Throw (InvalidId id) end.

(** [if passenger:] on the result of [find_one] *)
Definition truthy (r : option pydict) : option pydict :=
  match r with Some d => if dict_truthy d then Some d else None | None => None end.

(** [except Exception as e: raise HTTPException(status_code=500, detail=str(e))] *)
Definition reraise_500 {A} (e : exn) : sprog A :=
  Throw (HTTPException 500 (str_exn e)).

Definition not_found : exn := HTTPException 404 "Passenger not found".

(** [root()] *)
Definition root : pydict := {[ "message" := PyStr "Welcome to the Passenger API!" ]}.

(** ** [passenger_helper] *)

(** How the helper reads a field: [passenger[k]] or [passenger.get(k)]. *)
Inductive access : Type := Index | Get.

#[export] Instance access_eq_dec : EqDecision access.
Proof. solve_decision. Defined.

Definition helper_fields : list (string * access) :=
  [("title", Index); ("given_name", Index); ("surname", Index);
   ("passport_number", Get); ("date_of_birth", Get); ("date_of_expiration", Get);
   ("email", Index); ("mobile", Index); ("emergency_contact", Get);
   ("organization_name", Get); ("designation", Get);
   ("frequent_flyer_number", Get); ("recent_route", Get);
   ("favourite_carrier", Get); ("meal_preference", Get);
   ("accessibility", Get); ("baggage_preference", Get)].

Definition read_field (p : pydict) (f : string * access) : exn + pyval :=
  match f.2 with Index => dict_index p f.1 | Get => inr (dict_get p f.1) end.

(** The dict literal's entries, evaluated left to right. *)
Fixpoint helper_entries (p : pydict) (fs : list (string * access))
    : exn + list (string * pyval) :=
  match fs with
  | [] => inr []
  | f :: fs' =>
      match read_field p f with
      | inl e => inl e
      | inr v =>
          match helper_entries p fs' with
          | inl e => inl e
          | inr es => inr ((f.1, v) :: es)
          end
      end
  end.

Definition passenger_helper (passenger : pydict) : exn + pydict :=
  match dict_index passenger "_id" with
  | inl e => inl e
  | inr i =>
      match helper_entries passenger helper_fields with
      | inl e => inl e
      | inr es => inr (list_to_map (("id", PyStr (py_str i)) :: es))
      end
  end.

(** ** [convert_dates_to_string] *)

Definition convert_date_field (k : string) (d : pydict) : pydict :=
  match d !! k with
  | Some (PyDate dt) => <[k := PyStr (isoformat dt)]> d
  | _ => d
  end.

Definition convert_dates_to_string (passenger_data : pydict) : pydict :=
  convert_date_field "date_of_expiration"
    (convert_date_field "date_of_birth" passenger_data).

(** ** The handlers *)

Definition create_passenger (passenger : PassengerCreate) : sprog pydict :=
  try:
    (let passenger_data := jsonable_encoder passenger in
     new_passenger ← await (InsertOne passenger_data);
     created_passenger ← await (FindOne (inserted_id new_passenger));
     match created_passenger with
     | None => Throw (HTTPException 404 "Passenger not found after creation")
     | Some c => lift (passenger_helper c)
     end)
  except e => reraise_500 e.

Definition get_passenger (id : string) : sprog pydict :=
  try:
    (o ← ObjectId id;
     passenger ← await (FindOne o);
     match truthy passenger with
     | Some p => lift (passenger_helper p)
     | None => Throw not_found
     end)
  except e => reraise_500 e.

(** [{**existing_passenger_data, **update_data}] *)
Definition merge_update (existing_passenger_data update_data : pydict) : pydict :=
  update_data ∪ existing_passenger_data.

Definition update_passenger (id : string) (passenger : PassengerCreate) : sprog pydict :=
  try:
    (o ← ObjectId id;
     existing_passenger ← await (FindOne o);
     match truthy existing_passenger with
     | None => Throw not_found
     | Some existing =>
         existing_passenger_data ← lift (passenger_helper existing);
         let update_data := dict_exclude_unset passenger in
         let merged_data := merge_update existing_passenger_data update_data in
         let merged_data := convert_dates_to_string merged_data in
         o' ← ObjectId id;
         update_result ← await (UpdateOne o' merged_data);
         if Nat.eqb (modified_count update_result) 1 then
           o'' ← ObjectId id;
           updated_passenger ← await (FindOne o'');
           match truthy updated_passenger with
           | Some u => lift (passenger_helper u)
           | None => Throw not_found
           end
         else Throw not_found
     end)
  except e => reraise_500 e.

Definition delete_message : pydict :=
  {[ "message" := PyStr "Passenger deleted successfully" ]}.

Definition delete_passenger (id : string) : sprog pydict :=
  try:
    (o ← ObjectId id;
     delete_result ← await (DeleteOne o);
     if Nat.eqb (deleted_count delete_result) 1 then Pure delete_message
     else Throw not_found)
  except e => reraise_500 e.

(** ** The response shape (spec 4.2, "Normalize")

    [normalize d] is the record the spec promises for a stored document:
    its id as a string and exactly the declared fields, absent optional
    ones as [None].  [passenger_helper] implements it on every document
    that has the keys it indexes ([doc_has_keys]). *)

Definition normalize (d : pydict) : pydict :=
  list_to_map (("id", PyStr (py_str (dict_get d "_id")))
               :: map (fun f => (f, dict_get d f)) model_fields).

Arguments normalize : simpl never.

(** The keys [passenger_helper] reads with [passenger[k]]: ["_id"] for
    the id, then the fields [helper_fields] reads with [Index]. *)
Definition indexed_keys : list string :=
  "_id" :: map fst (filter (fun f => bool_decide (f.2 = Index)) helper_fields).

Definition doc_has_keys (d : pydict) : bool :=
  forallb (fun k => bool_decide (is_Some (d !! k))) indexed_keys.

(** The document [create_passenger] stores for a model, under id [n]. *)
Definition stored_doc (n : oid) (p : PassengerCreate) : pydict :=
  <["_id" := PyObjectId n]> (jsonable_encoder p).

Arguments stored_doc : simpl never.

(** The [$set] payload [update_passenger] sends for the request model [p]
    and the stored document [d] (main.py lines 99-108). *)
Definition merged_data (p : PassengerCreate) (d : pydict) : pydict :=
  convert_dates_to_string (merge_update (normalize d) (dict_exclude_unset p)).

Arguments merged_data : simpl never.

(** The value an update leaves in field [k]: the request's when the body
    set it, the stored one otherwise. *)
Definition updated_value (p : PassengerCreate) (d : pydict) (k : string) : pyval :=
  if bool_decide (k ∈ fields_set p) then encode_value (model_value p k) else dict_get d k.

(** The invariant on stored documents that makes BSON encoding succeed. *)
Definition no_dates (d : pydict) : Prop := forall k dt, d !! k <> Some (PyDate dt).

(** ** [passenger_helper] *)

Lemma helper_fields_keys : helper_fields.*1 = model_fields.
Proof. reflexivity. Qed.

Lemma helper_entries_ok p fs :
  (forall f, f ∈ fs -> f.2 = Index -> is_Some (p !! f.1)) ->
  helper_entries p fs = inr (map (fun f => (f.1, dict_get p f.1)) fs).
Proof.
  induction fs as [|[k a] fs IH]; intros Hfs; simpl; [done|].
  assert (read_field p (k, a) = inr (dict_get p k)) as ->.
  { unfold read_field, dict_index, dict_get. destruct a; simpl; [|done].
    destruct (Hfs (k, Index)) as [v Hv]; [left|done|]. simpl in Hv. by rewrite Hv. }
  rewrite IH; [done|]. intros f Hf. apply Hfs. by right.
Qed.

Lemma doc_has_keys_spec d k : doc_has_keys d = true -> k ∈ indexed_keys -> is_Some (d !! k).
Proof.
  unfold doc_has_keys. rewrite forallb_forall. intros H Hk.
  apply list_elem_of_In in Hk. apply H in Hk. by apply bool_decide_eq_true in Hk.
Qed.

(** The keys the helper reads with [passenger[k]] are the indexed keys. *)
Lemma helper_index_key f : f ∈ helper_fields -> f.2 = Index -> f.1 ∈ indexed_keys.
Proof.
  intros Hf Ha. unfold helper_fields in Hf.
  repeat (apply elem_of_cons in Hf as [->|Hf];
    [first [discriminate Ha | apply (bool_decide_unpack _); vm_compute; reflexivity]|]).
  by apply not_elem_of_nil in Hf.
Qed.

Lemma required_index k : k ∈ required_fields -> (k, Index) ∈ helper_fields.
Proof.
  intros Hk. unfold required_fields in Hk.
  repeat (apply elem_of_cons in Hk as [->|Hk];
    [apply (bool_decide_unpack _); vm_compute; reflexivity|]).
  by apply not_elem_of_nil in Hk.
Qed.

Lemma doc_has_keys_intro d :
  (forall k, k ∈ indexed_keys -> is_Some (d !! k)) -> doc_has_keys d = true.
Proof.
  intros H. unfold doc_has_keys. apply forallb_forall. intros k Hk%list_elem_of_In.
  by apply bool_decide_eq_true_2, H.
Qed.

Lemma doc_has_keys_false d :
  doc_has_keys d = false -> exists k, k ∈ indexed_keys /\ d !! k = None.
Proof.
  intros (k & Hk & Hf)%forallb_false_exists. exists k. split; [done|].
  apply bool_decide_eq_false in Hf. by apply eq_None_not_Some.
Qed.

(** On a document with the keys it indexes, the helper returns the
    response shape. *)
Lemma passenger_helper_normalize d :
  doc_has_keys d = true -> passenger_helper d = inr (normalize d).
Proof.
  intros Hk. unfold passenger_helper.
  destruct (doc_has_keys_spec d "_id" Hk) as [i Hi]; [left|].
  unfold dict_index. rewrite Hi. rewrite helper_entries_ok.
  - unfold normalize, dict_get. rewrite Hi. reflexivity.
  - intros [f a] Hf Ha. simpl in Ha; subst a. apply (doc_has_keys_spec d f Hk).
    unfold helper_fields in Hf. unfold indexed_keys, required_fields.
    repeat (apply elem_of_cons in Hf as [Hf|Hf];
      [injection Hf as ->; set_solver|]).
    by apply not_elem_of_nil in Hf.
Qed.

Lemma normalize_lookup d k :
  normalize d !! k =
  if bool_decide (k = "id") then Some (PyStr (py_str (dict_get d "_id")))
  else if bool_decide (k ∈ model_fields) then Some (dict_get d k) else None.
Proof.
  unfold normalize. case_bool_decide as Hid.
  - subst. by rewrite list_to_map_cons, lookup_insert_eq.
  - rewrite list_to_map_cons, lookup_insert_ne by congruence.
    case_bool_decide as Hk.
    + apply elem_of_list_to_map_1.
      * rewrite map_pair_keys. apply model_fields_NoDup.
      * apply list_elem_of_In, in_map_iff. exists k. split; [done|]. by apply list_elem_of_In.
    + apply not_elem_of_list_to_map_1. by rewrite map_pair_keys.
Qed.

Lemma doc_has_keys_truthy d : doc_has_keys d = true -> truthy (Some d) = Some d.
Proof.
  intros Hk. unfold truthy, dict_truthy.
  destruct (doc_has_keys_spec d "_id" Hk) as [v Hv]; [left|].
  rewrite bool_decide_true; [done|]. intros ->. by rewrite lookup_empty in Hv.
Qed.

Lemma model_fields_no_id : "_id" ∉ model_fields.
Proof. apply (bool_decide_unpack _). vm_compute. reflexivity. Qed.

Lemma required_in_model_all : Forall (fun k => k ∈ model_fields) required_fields.
Proof. apply (bool_decide_unpack _). vm_compute. reflexivity. Qed.

Lemma required_in_model k : k ∈ required_fields -> k ∈ model_fields.
Proof.
  intros Hk. pose proof required_in_model_all as Hall. rewrite Forall_forall in Hall.
  apply Hall. first [done | by apply list_elem_of_In].
Qed.

Lemma stored_doc_lookup n p k :
  stored_doc n p !! k =
  if bool_decide (k = "_id") then Some (PyObjectId n)
  else if bool_decide (k ∈ model_fields) then Some (encode_value (model_value p k)) else None.
Proof.
  unfold stored_doc. case_bool_decide; [subst; by rewrite lookup_insert_eq|].
  rewrite lookup_insert_ne by congruence. apply jsonable_encoder_lookup_field.
Qed.

Lemma stored_doc_has_keys n p : doc_has_keys (stored_doc n p) = true.
Proof.
  unfold doc_has_keys. apply forallb_forall. intros k Hk%list_elem_of_In.
  apply bool_decide_eq_true. rewrite stored_doc_lookup.
  case_bool_decide; [done|]. rewrite bool_decide_true; [done|].
  apply required_in_model. unfold indexed_keys in Hk.
  apply elem_of_cons in Hk as [->|Hk]; done.
Qed.

Lemma stored_doc_no_date n p : first_date (stored_doc n p) = None.
Proof.
  apply first_date_None. intros k dt. rewrite stored_doc_lookup.
  case_bool_decide; [congruence|]. case_bool_decide; [|congruence].
  intros Heq%Some_inj. by apply (encode_value_not_date (model_value p k) dt).
Qed.

Lemma doc_id_jsonable p : doc_id (jsonable_encoder p) = None.
Proof.
  unfold doc_id. rewrite jsonable_encoder_lookup_field.
  rewrite bool_decide_false; [done | apply model_fields_no_id].
Qed.

(** The record [create_passenger] answers: the generated id as a string
    and every declared field of the request, dates in ISO form. *)
Lemma normalize_stored_doc n p k :
  normalize (stored_doc n p) !! k =
  if bool_decide (k = "id") then Some (PyStr (oid_str n))
  else if bool_decide (k ∈ model_fields) then Some (encode_value (model_value p k)) else None.
Proof.
  rewrite normalize_lookup. unfold dict_get. rewrite !stored_doc_lookup.
  repeat case_bool_decide; subst; try congruence; try reflexivity.
  all: exfalso; by apply model_fields_no_id.
Qed.

(** ** The update payload *)

Lemma encode_value_id v : (forall dt, v <> PyDate dt) -> encode_value v = v.
Proof. destruct v; try done. intros H. by destruct (H d). Qed.

Lemma convert_date_field_lookup k m j :
  convert_date_field k m !! j =
  if bool_decide (j = k) then encode_value <$> m !! j else m !! j.
Proof.
  unfold convert_date_field. case_bool_decide as Hj.
  - subst. destruct (m !! k) as [[]|] eqn:E; rewrite ?E; try done.
    by rewrite lookup_insert_eq.
  - destruct (m !! k) as [[]|]; try done. by rewrite lookup_insert_ne.
Qed.

Lemma convert_dates_lookup m j :
  convert_dates_to_string m !! j =
  if bool_decide (j ∈ date_fields) then encode_value <$> m !! j else m !! j.
Proof.
  unfold convert_dates_to_string. rewrite !convert_date_field_lookup.
  unfold date_fields.
  repeat case_bool_decide; subst; try congruence; try set_solver.
Qed.

(** [d.get(k)] is not a date on a document without dates. *)
Lemma dict_get_not_date d k dt : no_dates d -> dict_get d k <> PyDate dt.
Proof. unfold dict_get. intros Hd. destruct (d !! k) eqn:E; [|done]. intros ->. by apply (Hd k dt). Qed.

Lemma id_not_model : "id" ∉ model_fields.
Proof. apply (bool_decide_unpack _). vm_compute. reflexivity. Qed.

Lemma id_not_date : "id" ∉ date_fields.
Proof. apply (bool_decide_unpack _). vm_compute. reflexivity. Qed.

Lemma date_in_model k : k ∈ date_fields -> k ∈ model_fields.
Proof.
  unfold date_fields. intros Hk.
  repeat (apply elem_of_cons in Hk as [->|Hk]; [apply (bool_decide_unpack _); vm_compute; reflexivity|]).
  by apply not_elem_of_nil in Hk.
Qed.

Lemma merged_data_lookup p d k :
  no_dates d ->
  merged_data p d !! k =
  if bool_decide (k = "id") then Some (PyStr (py_str (dict_get d "_id")))
  else if bool_decide (k ∈ model_fields) then Some (updated_value p d k) else None.
Proof.
  intros Hd. unfold merged_data, merge_update, updated_value.
  rewrite convert_dates_lookup, lookup_union, dict_exclude_unset_lookup, normalize_lookup.
  pose proof id_not_model. pose proof id_not_date. pose proof (date_in_model k).
  repeat case_bool_decide; subst; cbn; try tauto; try reflexivity;
    f_equal; first [apply encode_value_id | symmetry; apply encode_value_id];
    intros dt; first [by apply dict_get_not_date | by apply model_value_not_date].
Qed.

Lemma merged_data_no_id p d : no_dates d -> merged_data p d !! "_id" = None.
Proof.
  intros Hd. rewrite merged_data_lookup by done.
  rewrite !bool_decide_false; [done | apply model_fields_no_id | done].
Qed.

Lemma updated_value_not_date p d k dt : no_dates d -> updated_value p d k <> PyDate dt.
Proof.
  intros Hd. unfold updated_value. case_bool_decide;
    [apply encode_value_not_date | by apply dict_get_not_date].
Qed.

Lemma merged_data_no_dates p d : no_dates d -> no_dates (merged_data p d).
Proof.
  intros Hd k dt. rewrite merged_data_lookup by done.
  repeat case_bool_decide; try done. intros Heq%Some_inj.
  by apply (updated_value_not_date p d k dt).
Qed.

Lemma no_dates_union m d : no_dates m -> no_dates d -> no_dates (m ∪ d).
Proof.
  intros Hm Hd k dt. rewrite lookup_union.
  destruct (m !! k) eqn:Em, (d !! k) eqn:Ed; simpl; try done.
  - intros Heq%Some_inj. subst. by apply (Hm k dt).
  - intros Heq%Some_inj. subst. by apply (Hm k dt).
  - intros Heq%Some_inj. subst. by apply (Hd k dt).
Qed.

Lemma doc_has_keys_union m d : doc_has_keys d = true -> doc_has_keys (m ∪ d) = true.
Proof.
  unfold doc_has_keys. rewrite !forallb_forall. intros H k Hk.
  apply H in Hk. apply bool_decide_eq_true in Hk as [v Hv].
  apply bool_decide_eq_true. rewrite lookup_union, Hv. destruct (m !! k); eauto.
Qed.

#[export] Hint Resolve no_dates_union doc_has_keys_union merged_data_no_dates : pax.

(** The record an update answers with, field by field. *)
Lemma normalize_merged p d k :
  no_dates d ->
  normalize (merged_data p d ∪ d) !! k =
  if bool_decide (k = "id") then Some (PyStr (py_str (dict_get d "_id")))
  else if bool_decide (k ∈ model_fields) then Some (updated_value p d k) else None.
Proof.
  intros Hd. rewrite normalize_lookup. unfold dict_get at 1 2.
  rewrite !lookup_union, merged_data_no_id by done.
  case_bool_decide; [unfold dict_get; by destruct (d !! "_id")|]. case_bool_decide; [|done].
  rewrite merged_data_lookup by done.
  rewrite bool_decide_false by done. rewrite bool_decide_true by done.
  by destruct (d !! k).
Qed.

(** Applying the same update to the document it produced changes
    nothing: the second [$set] rewrites every field with its value. *)
Lemma merged_data_idempotent p d :
  no_dates d -> merged_data p (merged_data p d ∪ d) ∪ (merged_data p d ∪ d) = merged_data p d ∪ d.
Proof.
  intros Hd. assert (Hd1 : no_dates (merged_data p d ∪ d))
    by eauto with pax.
  assert (Hid : dict_get (merged_data p d ∪ d) "_id" = dict_get d "_id").
  { unfold dict_get. rewrite lookup_union, merged_data_no_id by done. by destruct (d !! "_id"). }
  assert (Hv : forall k, k ∈ model_fields -> k <> "id" ->
    updated_value p (merged_data p d ∪ d) k = updated_value p d k).
  { intros k Hm Hk. unfold updated_value at 1. case_bool_decide as Hs.
    - unfold updated_value. by rewrite (bool_decide_eq_true_2 _ Hs).
    - unfold dict_get at 1. rewrite lookup_union, merged_data_lookup by done.
      rewrite (bool_decide_eq_false_2 _ Hk), (bool_decide_eq_true_2 _ Hm).
      destruct (d !! k); reflexivity. }
  apply map_eq. intros k. rewrite !lookup_union, !merged_data_lookup by done.
  rewrite Hid. case_bool_decide as Hk; [destruct (d !! k); reflexivity|].
  case_bool_decide as Hm; [rewrite Hv by done|]; destruct (d !! k); reflexivity.
Qed.

(** The helper either answers, or raises [KeyError] on the first field it
    indexes that the document lacks. *)
Lemma helper_entries_cases p fs :
  (forall f, f ∈ fs -> f.2 = Index -> is_Some (p !! f.1)) \/
  (exists f, f ∈ fs /\ f.2 = Index /\ p !! f.1 = None /\
     helper_entries p fs = inl (KeyError f.1)).
Proof.
  induction fs as [|[k a] fs IH]; [left; set_solver|].
  simpl. unfold read_field, dict_index, dict_get. simpl.
  destruct a; [destruct (p !! k) eqn:Ek|].
  - destruct IH as [IH|(f & Hf & Ha & Hn & He)].
    + left. intros f [->|Hf]%elem_of_cons Ha; [simpl; by rewrite Ek|]. by apply IH.
    + right. exists f. rewrite He. split_and!; [by right|done|done|done].
  - right. exists (k, Index). split_and!; [left|done|done|done].
  - destruct IH as [IH|(f & Hf & Ha & Hn & He)].
    + left. intros f [->|Hf]%elem_of_cons Ha; [done|]. by apply IH.
    + right. exists f. rewrite He. split_and!; [by right|done|done|done].
Qed.

(** ** The handlers, run against any store that meets the contract *)

(** [get_passenger] only reads. *)
Lemma get_passenger_reads_only id : reads_only (get_passenger id).
Proof.
  unfold get_passenger. apply reads_only_try; [|constructor]. unfold_prog.
  apply reads_only_bind; [unfold ObjectId; case_match; constructor|]. intros o.
  apply reads_only_bind; [apply reads_only_find|]. intros r.
  destruct (truthy r); [unfold lift; case_match|]; constructor.
Qed.

Section Service.
Context {S : Type} `{DocStoreLaws S}.

Lemma run_ObjectId_bind {A} id (k : oid -> sprog A) s :
  run_store (prog_bind k (ObjectId id)) s =
  match parse_object_id id with
  | Some o => run_store (k o) s
  | None => (inl (InvalidId id), s)
  end.
Proof. unfold ObjectId. by destruct (parse_object_id id). Qed.

Lemma get_passenger_missing id o s :
  store_ok s -> parse_object_id id = Some o -> store_view s !! o = None ->
  exists s', store_ok s' /\ store_view s' = store_view s /\
    run_store (get_passenger id) s = (inl (HTTPException 500 "404: Passenger not found"), s').
Proof.
  intros Hok Hp Hm. unfold get_passenger. rewrite run_store_try_except.
  unfold_prog. rewrite run_ObjectId_bind, Hp.
  store_step. rewrite Hm. simpl. eauto.
Qed.

Lemma get_passenger_invalid_id id s :
  parse_object_id id = None ->
  run_store (get_passenger id) s = (inl (HTTPException 500 (str_exn (InvalidId id))), s).
Proof.
  intros Hp. unfold get_passenger. rewrite run_store_try_except.
  unfold_prog. by rewrite run_ObjectId_bind, Hp.
Qed.

Lemma get_passenger_found id o d s :
  store_ok s -> parse_object_id id = Some o -> store_view s !! o = Some d ->
  doc_has_keys d = true ->
  exists s', store_ok s' /\ store_view s' = store_view s /\
    run_store (get_passenger id) s = (inr (normalize d), s').
Proof.
  intros Hok Hp Hd Hk. unfold get_passenger. rewrite run_store_try_except.
  unfold_prog. rewrite run_ObjectId_bind, Hp.
  store_step. rewrite Hd. cbn [fst snd].
  rewrite doc_has_keys_truthy, passenger_helper_normalize by done.
  simpl. eauto.
Qed.

Lemma delete_passenger_existing id o d s :
  store_ok s -> parse_object_id id = Some o -> store_view s !! o = Some d ->
  exists s', store_ok s' /\ store_view s' = delete o (store_view s) /\
    run_store (delete_passenger id) s = (inr delete_message, s').
Proof.
  intros Hok Hp Hd. unfold delete_passenger. rewrite run_store_try_except.
  unfold_prog. rewrite run_ObjectId_bind, Hp.
  store_step. rewrite Hd in Hv |- *. simpl. eauto.
Qed.

Lemma delete_passenger_missing id o s :
  store_ok s -> parse_object_id id = Some o -> store_view s !! o = None ->
  exists s', store_ok s' /\ store_view s' = store_view s /\
    run_store (delete_passenger id) s = (inl (HTTPException 500 "404: Passenger not found"), s').
Proof.
  intros Hok Hp Hd. unfold delete_passenger. rewrite run_store_try_except.
  unfold_prog. rewrite run_ObjectId_bind, Hp.
  store_step. rewrite Hd in Hv |- *. simpl. eauto.
Qed.

Lemma create_passenger_ok p s :
  store_ok s -> store_view s !! store_next_id s = None ->
  exists s', store_ok s' /\
    store_view s' = <[store_next_id s := stored_doc (store_next_id s) p]> (store_view s) /\
    run_store (create_passenger p) s = (inr (normalize (stored_doc (store_next_id s) p)), s').
Proof.
  intros Hok Hfresh. unfold create_passenger. rewrite run_store_try_except.
  unfold_prog. store_step.
  rewrite jsonable_encoder_no_date, doc_id_jsonable, Hfresh in Hv |- *. cbn [fst snd] in Hv |- *.
  store_step. rewrite Hv, lookup_insert_eq. fold (stored_doc (store_next_id s) p). cbn [fst snd].
  rewrite passenger_helper_normalize by apply stored_doc_has_keys. simpl.
  exists s1. split; [done|]. split; [by rewrite Hv0, Hv | done].
Qed.
Lemma update_passenger_invalid_id id p s :
  parse_object_id id = None ->
  run_store (update_passenger id p) s = (inl (HTTPException 500 (str_exn (InvalidId id))), s).
Proof.
  intros Hp. unfold update_passenger. rewrite run_store_try_except.
  unfold_prog. by rewrite run_ObjectId_bind, Hp.
Qed.

Lemma delete_passenger_invalid_id id s :
  parse_object_id id = None ->
  run_store (delete_passenger id) s = (inl (HTTPException 500 (str_exn (InvalidId id))), s).
Proof.
  intros Hp. unfold delete_passenger. rewrite run_store_try_except.
  unfold_prog. by rewrite run_ObjectId_bind, Hp.
Qed.

Lemma update_passenger_missing id o p s :
  store_ok s -> parse_object_id id = Some o -> store_view s !! o = None ->
  exists s', store_ok s' /\ store_view s' = store_view s /\
    run_store (update_passenger id p) s = (inl (HTTPException 500 "404: Passenger not found"), s').
Proof.
  intros Hok Hp Hd. unfold update_passenger. rewrite run_store_try_except.
  unfold_prog. rewrite run_ObjectId_bind, Hp.
  store_step. rewrite Hd. simpl. eauto.
Qed.

(** An id the store already holds makes [insert_one] raise, and the
    handler answers 500 with the driver's message. *)
Lemma create_passenger_collision p d s :
  store_ok s -> store_view s !! store_next_id s = Some d ->
  exists s', store_ok s' /\ store_view s' = store_view s /\
    run_store (create_passenger p) s =
    (inl (HTTPException 500 (str_exn (DuplicateKeyError (store_next_id s)))), s').
Proof.
  intros Hok Hd. unfold create_passenger. rewrite run_store_try_except.
  unfold_prog. store_step.
  rewrite jsonable_encoder_no_date, doc_id_jsonable, Hd in Hv |- *.
  cbn [fst snd] in Hv |- *. eauto.
Qed.

Lemma update_passenger_run id o d p s :
  store_ok s -> parse_object_id id = Some o -> store_view s !! o = Some d ->
  doc_has_keys d = true -> no_dates d ->
  exists s', store_ok s' /\
    store_view s' = <[o := merged_data p d ∪ d]> (store_view s) /\
    run_store (update_passenger id p) s =
    ((if bool_decide (merged_data p d ∪ d = d)
      then inl (HTTPException 500 "404: Passenger not found")
      else inr (normalize (merged_data p d ∪ d))), s').
Proof.
  intros Hok Hp Hd Hk Hnd. unfold update_passenger. rewrite run_store_try_except.
  unfold_prog. rewrite run_ObjectId_bind, Hp.
  store_step. rewrite Hd. cbn [fst snd].
  rewrite doc_has_keys_truthy, passenger_helper_normalize by done.
  cbn [lift prog_bind]. cbv zeta. rewrite run_ObjectId_bind, Hp.
  fold (merged_data p d).
  store_step.
  rewrite (proj2 (first_date_None _) (merged_data_no_dates p d Hnd)), Hv, Hd in Hv0 |- *.
  rewrite bool_decide_false in Hv0 |- * by (rewrite merged_data_no_id by done; naive_solver).
  cbn [fst snd modified_count] in Hv0 |- *.
  case_bool_decide as Heq; cbn [Nat.eqb].
  - exists s1. split; [done|]. split; [done|]. simpl. done.
  - rewrite run_ObjectId_bind, Hp. store_step.
    rewrite Hv0, lookup_insert_eq. cbn [fst snd].
    rewrite doc_has_keys_truthy, passenger_helper_normalize by eauto with pax.
    simpl. exists s2. split; [done|]. split; [by rewrite Hv1, Hv0|]. done.
Qed.
End Service.

(** ** The helper's contract *)

(** C9: [passenger_helper] answers the response shape [normalize d]
    (the id as a string, every declared field, [None] for absent optional
    ones) on a document that has every key it reads with [passenger[k]];
    on any other document it raises [KeyError] on such a key the document
    lacks.  It never answers anything else. *)
Theorem passenger_helper_spec d :
  (doc_has_keys d = true /\ passenger_helper d = inr (normalize d)) \/
  (doc_has_keys d = false /\
   exists k, k ∈ indexed_keys /\ d !! k = None /\ passenger_helper d = inl (KeyError k)).
Proof.
  destruct (doc_has_keys d) eqn:Hk; [left; split; [done|by apply passenger_helper_normalize]|].
  right. split; [done|]. unfold passenger_helper, dict_index.
  destruct (d !! "_id") as [i|] eqn:Ei; [|exists "_id"; split_and!; [left|done|done]].
  destruct (helper_entries_cases d helper_fields) as [Hall|(f & Hf & Ha & Hn & He)].
  - exfalso. rewrite (doc_has_keys_intro d) in Hk; [done|].
    intros k [->|Hr]%elem_of_cons; [by exists i|].
    apply (Hall (k, Index)); [by apply required_index|done].
  - exists f.1. rewrite He. split_and!; [by apply helper_index_key|done|done].
Qed.

(** C10: [convert_dates_to_string] replaces a valid date in a date field
    by a string that [date.fromisoformat] reads back as that same date,
    and by the only such string. *)
Theorem convert_dates_roundtrip m k dt :
  k ∈ date_fields -> m !! k = Some (PyDate dt) -> valid_date dt = true ->
  exists s, convert_dates_to_string m !! k = Some (PyStr s) /\ fromisoformat s = Some dt /\
            forall s', fromisoformat s' = Some dt -> s' = s.
Proof.
  intros Hk Hm Hv. exists (isoformat dt).
  rewrite convert_dates_lookup, (bool_decide_eq_true_2 _ Hk), Hm. split_and!; [done| |].
  - by apply fromisoformat_spec.
  - intros s' Hs'. by apply fromisoformat_spec in Hs' as [_ <-].
Qed.

Lemma convert_dates_roundtrip_witness :
  exists s, convert_dates_to_string {[ "date_of_birth" := PyDate (mkdate 1990 1 31) ]}
              !! "date_of_birth" = Some (PyStr s) /\
            fromisoformat s = Some (mkdate 1990 1 31) /\
            forall s', fromisoformat s' = Some (mkdate 1990 1 31) -> s' = s.
Proof.
  apply convert_dates_roundtrip;
    [apply (bool_decide_unpack _); vm_compute; reflexivity | apply lookup_singleton_eq | reflexivity].
Defined.

(** ** Every handler finishes *)

(** Walk a handler's program: a pure step ([ObjectId], [lift]) awaits
    nothing, each awaited call spends one unit of the bound, and the
    [except] clause only raises. *)
Ltac within_tac :=
  unfold_prog;
  repeat match goal with
  | |- awaits_within _ (try_except _ _) =>
      apply within_try; [| intros; hnf; constructor]
  | |- awaits_within (Datatypes.S _) (@prog_bind ?Op ?Res ?Exn _ _ _ (await ?o)) =>
      apply (@within_bind_await Op Res Exn _ _ o); intros ?
  | |- awaits_within _ (prog_bind _ (ObjectId _)) =>
      apply within_bind_pure; [unfold ObjectId; case_match; constructor | intros ?]
  | |- awaits_within _ (prog_bind _ (lift _)) =>
      apply within_bind_pure; [unfold lift; case_match; constructor | intros ?]
  | |- awaits_within _ (lift _) => unfold lift; case_match
  | |- awaits_within _ (match ?x with _ => _ end) => destruct x
  | |- awaits_within _ (if ?b then _ else _) => destruct b
  | |- awaits_within _ (Pure _) => constructor
  | |- awaits_within _ (Throw _) => constructor
  end.

Lemma get_passenger_within id : awaits_within 1 (get_passenger id).
Proof. unfold get_passenger. within_tac. Qed.

Lemma create_passenger_within p : awaits_within 2 (create_passenger p).
Proof. unfold create_passenger. within_tac. Qed.

Lemma update_passenger_within id p : awaits_within 3 (update_passenger id p).
Proof. unfold update_passenger. within_tac. Qed.

Lemma delete_passenger_within id : awaits_within 1 (delete_passenger id).
Proof. unfold delete_passenger. within_tac. Qed.

End Main.
