(* ===== verification/Api.v ===== *)
(** * The HTTP API: FastAPI around the handlers of src/main.py

    A request names one of the five routes of main.py (lines 15, 43, 71,
    88, 126).  FastAPI validates the body against [PassengerCreate] before
    the handler runs (422 on failure), runs the handler, and renders its
    outcome: a returned dict is a 200 JSON body, an [HTTPException(c, d)]
    is status [c] with body [{"detail": d}].  [serve] is one request
    against the store; [serve_all] a sequence of requests, one after the
    other, as a client sees them.

    The store invariant is proved once for every predicate [P] on
    documents that the handlers' writes preserve ([keeps],
    [serve_spec_gen]); [db_wf] is one instance, and Response.v adds the
    typed documents as another.  [spec_serve] states each route directly
    on the map of stored documents, and [serve_refines_spec] shows the
    handlers implement it.

    The second half of the file states what a client can rely on: the
    theorems on [serve] and [serve_all], for every store that meets the
    contract of Store.v and every behaviour of pydantic's validators; the
    witnesses after them run each one on the collection model of Mongo.v. *)

From S2P Require Import Prelude Config Dates ObjectId PyValues Schemas Store Mongo Handlers.
Import Config Date Oid Py Schema Store Mongo Main.

Module Api.

Inductive request : Type :=
| GetRoot
| PostCreate (body : json_object)
| GetPassenger (id : string)
| PutUpdate (id : string) (body : json_object)
| DeletePassenger (id : string).

Inductive resp_body : Type :=
| JsonDict (d : pydict)
| Detail (detail : string)
| ValidationErrors (errs : list verror).

#[export] Instance resp_body_eq_dec : EqDecision resp_body.
Proof. solve_decision. Defined.

Record response : Type := { status_code : N; body : resp_body }.

#[export] Instance response_eq_dec : EqDecision response.
Proof. solve_decision. Defined.

(** FastAPI's rendering of a handler's outcome. *)
Definition respond (r : exn + pydict) : response :=
  match r with
  | inr d => {| status_code := 200; body := JsonDict d |}
  | inl (HTTPException c det) => {| status_code := c; body := Detail det |}
  | inl _ => {| status_code := 500; body := Detail "Internal Server Error" |}
  end.

Definition unprocessable (errs : list verror) : response :=
  {| status_code := 422; body := ValidationErrors errs |}.

(** What a client sees when a handler's own [HTTPException(404)] has been
    caught and re-raised by its [except Exception] clause. *)
Definition rewrapped_not_found : response :=
  {| status_code := 500; body := Detail "404: Passenger not found" |}.

(** ** The store invariant

    Every stored document has the keys [passenger_helper] indexes, no
    [datetime.date] value, and its own id under ["_id"]. *)
Definition doc_wf (o : oid) (d : pydict) : Prop :=
  doc_has_keys d = true /\ no_dates d /\ doc_id d = Some o.

Definition db_wf (m : absdb) : Prop := map_Forall doc_wf m.

(** What a route that returns records answers on a store whose
    documents satisfy [P]: the normalised record of such a document, or an
    [HTTPException] 500. *)
Definition answer_record (P : oid -> pydict -> Prop) (r : exn + pydict) : Prop :=
  (exists o d, P o d /\ r = inr (normalize d)) \/ (exists m, r = inl (HTTPException 500 m)).

(** What [delete_passenger] answers: the confirmation or a 500. *)
Definition answer_delete (r : exn + pydict) : Prop :=
  r = inr delete_message \/ (exists m, r = inl (HTTPException 500 m)).

Definition answer_ok (P : oid -> pydict -> Prop) (r : exn + pydict) : Prop :=
  answer_record P r \/ answer_delete r.

Section Serve.
Context `{PydanticLib} {S : Type} `{DocStoreLaws S}.

Definition run_handler (p : sprog pydict) (s : S) : response * S :=
  let '(r, s') := run_store p s in (respond r, s').

Definition serve (r : request) (s : S) : response * S :=
  match r with
  | GetRoot => (respond (inr root), s)
  | PostCreate b =>
      match validate_PassengerCreate b with
      | inl errs => (unprocessable errs, s)
      | inr p => run_handler (create_passenger p) s
      end
  | GetPassenger id => run_handler (get_passenger id) s
  | PutUpdate id b =>
      match validate_PassengerCreate b with
      | inl errs => (unprocessable errs, s)
      | inr p => run_handler (update_passenger id p) s
      end
  | DeletePassenger id => run_handler (delete_passenger id) s
  end.

Fixpoint serve_all (rs : list request) (s : S) : list response * S :=
  match rs with
  | [] => ([], s)
  | r :: rs' =>
      let '(x, s1) := serve r s in
      let '(xs, s2) := serve_all rs' s1 in
      (x :: xs, s2)
  end.

(** A handler leaves a store satisfying the implementation's invariant
    with every document satisfying [P], answers as [A] says, and
    changes no document but the one of id [tgt]. *)
Definition keeps (P : oid -> pydict -> Prop) (A : exn + pydict -> Prop)
    (h : sprog pydict) (tgt : option oid) (s : S) : Prop :=
  exists r s', run_store h s = (r, s') /\ store_ok s' /\ map_Forall P (store_view s') /\
    A r /\ forall o', Some o' <> tgt -> store_view s' !! o' = store_view s !! o'.

(** The document a request may change. *)
Definition target (r : request) (s : S) : option oid :=
  match r with
  | GetRoot => None
  | PostCreate _ => Some (store_next_id s)
  | GetPassenger id | PutUpdate id _ | DeletePassenger id => parse_object_id id
  end.
End Serve.

(** ** The routes as a specification on the stored documents

    What each request promises, written directly on the map of stored
    documents, without programs, awaits or exceptions: [n] is the id the
    driver generates next.  [serve_refines_spec] shows the handlers
    implement it on every well-formed store. *)
Section Spec.
Context `{PydanticLib}.

Definition error_500 (detail : string) : response :=
  {| status_code := 500; body := Detail detail |}.

Definition spec_serve (n : oid) (r : request) (m : absdb) : response * absdb :=
  match r with
  | GetRoot => (respond (inr root), m)
  | PostCreate b =>
      match validate_PassengerCreate b with
      | inl errs => (unprocessable errs, m)
      | inr p =>
          match m !! n with
          | Some _ => (error_500 (str_exn (DuplicateKeyError n)), m)
          | None => (respond (inr (normalize (stored_doc n p))), <[n := stored_doc n p]> m)
          end
      end
  | GetPassenger id =>
      match parse_object_id id with
      | None => (error_500 (str_exn (InvalidId id)), m)
      | Some o =>
          match m !! o with
          | Some d => (respond (inr (normalize d)), m)
          | None => (rewrapped_not_found, m)
          end
      end
  | PutUpdate id b =>
      match validate_PassengerCreate b with
      | inl errs => (unprocessable errs, m)
      | inr p =>
          match parse_object_id id with
          | None => (error_500 (str_exn (InvalidId id)), m)
          | Some o =>
              match m !! o with
              | Some d =>
                  (if bool_decide (merged_data p d ∪ d = d) then rewrapped_not_found
                   else respond (inr (normalize (merged_data p d ∪ d))),
                   <[o := merged_data p d ∪ d]> m)
              | None => (rewrapped_not_found, m)
              end
          end
      end
  | DeletePassenger id =>
      match parse_object_id id with
      | None => (error_500 (str_exn (InvalidId id)), m)
      | Some o =>
          match m !! o with
          | Some _ => (respond (inr delete_message), delete o m)
          | None => (rewrapped_not_found, m)
          end
      end
  end.

(** The id a read, update or delete names, when it is an ObjectId. *)
Definition req_id (r : request) : option oid :=
  match r with
  | GetPassenger id | PutUpdate id _ | DeletePassenger id => parse_object_id id
  | _ => None
  end.

Definition creates (r : request) : bool :=
  match r with PostCreate _ => true | _ => false end.

Fixpoint spec_all (n : oid) (rs : list request) (m : absdb) : list response * absdb :=
  match rs with
  | [] => ([], m)
  | r :: rs' =>
      let '(x, m1) := spec_serve n r m in
      let '(xs, m2) := spec_all n rs' m1 in
      (x :: xs, m2)
  end.
End Spec.

(** ** Sample inputs *)

(** The examples run with the library behaviour [sample_lib] of
    Schemas.v: dates in ISO format, every string an address. *)
#[local] Existing Instance sample_lib.

Definition empty_collection : collection := {| documents := []; oid_counter := 0 |}.

Definition jane_body : json_object :=
  list_to_map [("title", JStr "Ms"); ("given_name", JStr "Jane"); ("surname", JStr "Doe");
               ("email", JStr "jane@Example.COM"); ("mobile", JStr "0400 000 000");
               ("date_of_birth", JStr "1990-01-31")].

Definition jane : PassengerCreate := {|
  title := "Ms"; given_name := "Jane"; surname := "Doe"; passport_number := None;
  date_of_birth := Some {| year := 1990; month := 1; day := 31 |};
  date_of_expiration := None; email := "jane@example.com"; mobile := "0400 000 000";
  emergency_contact := None; organization_name := None; designation := None;
  frequent_flyer_number := None; recent_route := None; favourite_carrier := None;
  meal_preference := None; accessibility := None; baggage_preference := None;
  fields_set := list_to_set ["title"; "given_name"; "surname"; "date_of_birth"; "email"; "mobile"]
|}.

(** The collection after Jane has been created in the empty one. *)
Definition jane_collection : collection := (serve (PostCreate jane_body) empty_collection).2.

(** A body that changes Jane's mobile number. *)
Definition jane_update_body : json_object := <["mobile" := JStr "0499 999 999"]> jane_body.

Definition jane_update : PassengerCreate :=
  {| title := "Ms"; given_name := "Jane"; surname := "Doe"; passport_number := None;
     date_of_birth := Some {| year := 1990; month := 1; day := 31 |};
     date_of_expiration := None; email := "jane@example.com"; mobile := "0499 999 999";
     emergency_contact := None; organization_name := None; designation := None;
     frequent_flyer_number := None; recent_route := None; favourite_carrier := None;
     meal_preference := None; accessibility := None; baggage_preference := None;
     fields_set := fields_set jane |}.


(** Jane created twice: two documents, ids 0 and 1. *)
Definition two_janes : collection :=
  (serve (PostCreate jane_body) jane_collection).2.

(** A session of the sample requests. *)
Definition sample_session : list request :=
  [PostCreate jane_body; PutUpdate (oid_str 0) jane_update_body;
   PutUpdate (oid_str 0) jane_update_body; GetPassenger (oid_str 0);
   DeletePassenger (oid_str 0); PostCreate jane_body].

(** The example scenario of the spec (section 8): create, read, update
    only [meal_preference], delete, read again. *)
Definition spec_create_body : json_object :=
  list_to_map [("title", JStr "Mr"); ("given_name", JStr "Jane"); ("surname", JStr "Doe");
               ("email", JStr "jane@example.com"); ("mobile", JStr "+10000000000")].

Definition spec_scenario : list request :=
  [PostCreate spec_create_body; GetPassenger (oid_str 0);
   PutUpdate (oid_str 0) {[ "meal_preference" := JStr "vegan" ]};
   DeletePassenger (oid_str 0); GetPassenger (oid_str 0)].

(** A collection whose next generated id is already taken by a stored
    document, as when another client inserted a document under that id. *)
Definition taken_collection : collection :=
  {| documents := [stored_doc 0 jane]; oid_counter := 0 |}.

(** ** The invariant holds after every request *)

Lemma stored_doc_wf n p : doc_wf n (stored_doc n p).
Proof.
  split; [apply stored_doc_has_keys|]. split.
  - exact (proj1 (first_date_None _) (stored_doc_no_date n p)).
  - unfold doc_id, stored_doc. by rewrite lookup_insert_eq.
Qed.

Lemma merged_wf o p d : doc_wf o d -> doc_wf o (merged_data p d ∪ d).
Proof.
  intros (Hk & Hnd & Hid). split; [eauto with pax|]. split.
  - eauto with pax.
  - unfold doc_id in *. rewrite lookup_union, merged_data_no_id by done.
    by destruct (d !! "_id").
Qed.

Lemma doc_wf_id o d : doc_wf o d -> py_str (dict_get d "_id") = oid_str o.
Proof.
  intros (_ & _ & Hid). unfold doc_id, dict_get in *.
  destruct (d !! "_id") as [[]|]; simplify_eq; done.
Qed.

Section Respond.
Context `{PydanticLib} {S : Type} `{DocStoreLaws S}.

Lemma run_handler_eq h s r s' :
  run_store h s = (r, s') -> run_handler h s = (respond r, s').
Proof. intros Hr. unfold run_handler. by rewrite Hr. Qed.

Lemma serve_post_valid b p s :
  validate_PassengerCreate b = inr p ->
  serve (PostCreate b) s = run_handler (create_passenger p) s.
Proof. intros Hv. unfold serve. by rewrite Hv. Qed.

Lemma serve_put_valid id b p s :
  validate_PassengerCreate b = inr p ->
  serve (PutUpdate id b) s = run_handler (update_passenger id p) s.
Proof. intros Hv. unfold serve. by rewrite Hv. Qed.

(** A creation that answers 200 found its generated id free, answered
    the record of the stored model and stored it under that id. *)
Lemma serve_create_200 b p s r s' :
  store_ok s -> validate_PassengerCreate b = inr p ->
  serve (PostCreate b) s = ({| status_code := 200; body := JsonDict r |}, s') ->
  store_view s !! store_next_id s = None /\ r = normalize (stored_doc (store_next_id s) p) /\
  store_view s' = <[store_next_id s := stored_doc (store_next_id s) p]> (store_view s).
Proof.
  intros Hok Hv Hs. rewrite (serve_post_valid _ _ _ Hv) in Hs.
  destruct (store_view s !! store_next_id s) as [d|] eqn:Hn.
  - destruct (create_passenger_collision p d s) as (s1 & _ & _ & Hr); [done..|].
    rewrite (run_handler_eq _ _ _ _ Hr) in Hs. cbn in Hs. congruence.
  - destruct (create_passenger_ok p s) as (s1 & _ & Hv1 & Hr); [done..|].
    rewrite (run_handler_eq _ _ _ _ Hr) in Hs. injection Hs as <- <-. done.
Qed.
End Respond.

(** An update that answers 200 found the passenger, validated its body,
    stored the merge and answered its record. *)
Lemma serve_update_200 `{PydanticLib} {S : Type} `{DocStoreLaws S} id b s r s' :
  store_ok s -> db_wf (store_view s) ->
  serve (PutUpdate id b) s = ({| status_code := 200; body := JsonDict r |}, s') ->
  exists o d p, parse_object_id id = Some o /\ store_view s !! o = Some d /\
    validate_PassengerCreate b = inr p /\ r = normalize (merged_data p d ∪ d) /\
    store_ok s' /\ store_view s' = <[o := merged_data p d ∪ d]> (store_view s).
Proof.
  intros Hok Hwf Hs. destruct (validate_PassengerCreate b) as [errs|p] eqn:Hv;
    [unfold serve in Hs; rewrite Hv in Hs; discriminate|].
  rewrite (serve_put_valid _ _ _ _ Hv) in Hs.
  destruct (parse_object_id id) as [o|] eqn:Hp;
    [|rewrite (run_handler_eq _ _ _ _ (update_passenger_invalid_id id p s Hp)) in Hs; cbn in Hs; congruence].
  destruct (store_view s !! o) as [d|] eqn:Hd.
  - destruct (Hwf o d Hd) as (Hk & Hnd & _).
    destruct (update_passenger_run id o d p s) as (s1 & Hok1 & Hv1 & Hr); [done..|].
    rewrite (run_handler_eq _ _ _ _ Hr) in Hs. case_bool_decide; cbn in Hs; [congruence|].
    injection Hs as <- <-. exists o, d, p. done.
  - destruct (update_passenger_missing id o p s) as (s1 & _ & _ & Hr); [done..|].
    rewrite (run_handler_eq _ _ _ _ Hr) in Hs. cbn in Hs. congruence.
Qed.

Lemma answer_record_normalize (P : oid -> pydict -> Prop) o d :
  P o d -> answer_record P (inr (normalize d)).
Proof. left. eauto. Qed.

Lemma answer_record_500 P m : answer_record P (inl (HTTPException 500 m)).
Proof. right. eauto. Qed.

Lemma answer_delete_message : answer_delete (inr delete_message).
Proof. by left. Qed.

Lemma answer_delete_500 m : answer_delete (inl (HTTPException 500 m)).
Proof. right. eauto. Qed.

Lemma answer_ok_record P r : answer_record P r -> answer_ok P r.
Proof. by left. Qed.

Lemma answer_ok_delete P r : answer_delete r -> answer_ok P r.
Proof. by right. Qed.

#[export] Hint Resolve answer_record_normalize answer_record_500 answer_delete_message
  answer_delete_500 answer_ok_record answer_ok_delete : pax.

Lemma answer_record_if P (b : bool) m o d :
  P o d -> answer_record P (if b then inl (HTTPException 500 m) else inr (normalize d)).
Proof. destruct b; eauto with pax. Qed.

#[export] Hint Resolve answer_record_if : pax.

Lemma normalize_keys d k : is_Some (normalize d !! k) <-> k = "id" \/ k ∈ model_fields.
Proof.
  rewrite normalize_lookup. repeat case_bool_decide; split; intros Hk; try done; naive_solver.
Qed.

(** The handlers keep every invariant [P] on documents that implies
    [doc_wf] and that holds of the documents the handlers write: the one
    [create_passenger] stores, and the merge [update_passenger] stores
    over a document satisfying [P]. *)
Section Invariant.
Context {S : Type} `{DocStoreLaws S}.
Context (P : oid -> pydict -> Prop).
Hypothesis HP_wf : forall o d, P o d -> doc_wf o d.

Lemma keeps_same A h tgt s r s' :
  run_store h s = (r, s') -> store_ok s' -> store_view s' = store_view s ->
  map_Forall P (store_view s) -> A r -> keeps P A h tgt s.
Proof. intros Hr Hok Hv Hwf Ha. exists r, s'. by rewrite Hv. Qed.

Lemma keeps_insert A h o s r s' d :
  run_store h s = (r, s') -> store_ok s' -> store_view s' = <[o := d]> (store_view s) ->
  map_Forall P (store_view s) -> P o d -> A r -> keeps P A h (Some o) s.
Proof.
  intros Hr Hok Hv Hwf Hd Ha. exists r, s'. rewrite Hv. split_and!; [done|done| |done|].
  - by apply map_Forall_insert_2.
  - intros o' Ho'. apply lookup_insert_ne. congruence.
Qed.

Ltac finish_keeps := eapply keeps_same; eauto with pax.

Lemma get_keeps id s :
  store_ok s -> map_Forall P (store_view s) ->
  keeps P (answer_record P) (get_passenger id) (parse_object_id id) s.
Proof.
  intros Hok Hwf. destruct (parse_object_id id) as [o|] eqn:Hp.
  - destruct (store_view s !! o) as [d|] eqn:Hd.
    + pose proof (Hwf o d Hd) as HPd. destruct (HP_wf o d HPd) as (Hk & _ & _).
      destruct (get_passenger_found id o d s) as (s' & ? & ? & ?); auto. finish_keeps.
    + destruct (get_passenger_missing id o s) as (s' & ? & ? & ?); auto. finish_keeps.
  - eapply keeps_same; [by apply get_passenger_invalid_id|..]; eauto with pax.
Qed.

Lemma delete_keeps id s :
  store_ok s -> map_Forall P (store_view s) ->
  keeps P answer_delete (delete_passenger id) (parse_object_id id) s.
Proof.
  intros Hok Hwf. destruct (parse_object_id id) as [o|] eqn:Hp.
  - destruct (store_view s !! o) as [d|] eqn:Hd.
    + destruct (delete_passenger_existing id o d s) as (s' & ? & Hv & ?); auto.
      exists (inr delete_message), s'. rewrite Hv. split_and!; [done|done| |auto with pax|].
      * by apply map_Forall_delete.
      * intros o' Ho'. apply lookup_delete_ne. congruence.
    + destruct (delete_passenger_missing id o s) as (s' & ? & ? & ?); auto. finish_keeps.
  - eapply keeps_same; [by apply delete_passenger_invalid_id|..]; eauto with pax.
Qed.

Lemma create_keeps p s :
  (forall n, P n (stored_doc n p)) ->
  store_ok s -> map_Forall P (store_view s) ->
  keeps P (answer_record P) (create_passenger p) (Some (store_next_id s)) s.
Proof.
  intros Hc Hok Hwf. destruct (store_view s !! store_next_id s) as [d|] eqn:Hd.
  - destruct (create_passenger_collision p d s) as (s' & ? & ? & ?); auto. finish_keeps.
  - destruct (create_passenger_ok p s) as (s' & ? & Hv & ?); auto.
    eapply keeps_insert; eauto with pax.
Qed.

Lemma update_keeps id p s :
  (forall o d, P o d -> P o (merged_data p d ∪ d)) ->
  store_ok s -> map_Forall P (store_view s) ->
  keeps P (answer_record P) (update_passenger id p) (parse_object_id id) s.
Proof.
  intros Hu Hok Hwf. destruct (parse_object_id id) as [o|] eqn:Hp.
  - destruct (store_view s !! o) as [d|] eqn:Hd.
    + pose proof (Hwf o d Hd) as HPd. destruct (HP_wf o d HPd) as (Hk & Hnd & _).
      pose proof (Hu o d HPd).
      destruct (update_passenger_run id o d p s) as (s' & ? & Hv & ?); auto.
      eapply keeps_insert; eauto with pax.
    + destruct (update_passenger_missing id o p s) as (s' & ? & ? & ?); auto. finish_keeps.
  - eapply keeps_same; [by apply update_passenger_invalid_id|..]; eauto with pax.
Qed.

Lemma run_handler_keeps A h tgt s :
  keeps P A h tgt s ->
  store_ok (run_handler h s).2 /\ map_Forall P (store_view (run_handler h s).2) /\
  (exists r, (run_handler h s).1 = respond r /\ A r) /\
  forall o', Some o' <> tgt -> store_view (run_handler h s).2 !! o' = store_view s !! o'.
Proof.
  intros (r & s' & Hr & Hok & Hwf & Ha & Hf). unfold run_handler. rewrite Hr. split_and!; eauto.
Qed.

Context `{PydanticLib}.
Hypothesis HP_create : forall b p n, validate_PassengerCreate b = inr p -> P n (stored_doc n p).
Hypothesis HP_update : forall b p o d,
  validate_PassengerCreate b = inr p -> P o d -> P o (merged_data p d ∪ d).

(** One request on a store whose documents satisfy [P]: what it leaves
    and what it answers. *)
Lemma serve_spec_gen r s :
  store_ok s -> map_Forall P (store_view s) ->
  store_ok (serve r s).2 /\ map_Forall P (store_view (serve r s).2) /\
  ((serve r s).1 = respond (inr root) \/ (exists errs, (serve r s).1 = unprocessable errs) \/
   exists a, (serve r s).1 = respond a /\ answer_ok P a) /\
  forall o', Some o' <> target r s -> store_view (serve r s).2 !! o' = store_view s !! o'.
Proof.
  intros Hok Hwf. destruct r as [|b|id|id b|id]; simpl.
  - split_and!; eauto.
  - destruct (validate_PassengerCreate b) as [errs|p] eqn:Hv; [split_and!; eauto|].
    destruct (run_handler_keeps _ _ _ _ (create_keeps p s (fun n => HP_create b p n Hv) Hok Hwf))
      as (? & ? & (a & ? & ?) & ?).
    split_and!; eauto 7 with pax.
  - destruct (run_handler_keeps _ _ _ _ (get_keeps id s Hok Hwf)) as (? & ? & (a & ? & ?) & ?).
    split_and!; eauto 7 with pax.
  - destruct (validate_PassengerCreate b) as [errs|p] eqn:Hv; [split_and!; eauto|].
    destruct (run_handler_keeps _ _ _ _ (update_keeps id p s (fun o d => HP_update b p o d Hv) Hok Hwf))
      as (? & ? & (a & ? & ?) & ?).
    split_and!; eauto 7 with pax.
  - destruct (run_handler_keeps _ _ _ _ (delete_keeps id s Hok Hwf)) as (? & ? & (a & ? & ?) & ?).
    split_and!; eauto 7 with pax.
Qed.
End Invariant.

Section WfInvariant.
Context {S : Type} `{DocStoreLaws S} `{PydanticLib}.

Lemma serve_spec r s :
  store_ok s -> db_wf (store_view s) ->
  store_ok (serve r s).2 /\ db_wf (store_view (serve r s).2) /\
  ((serve r s).1 = respond (inr root) \/ (exists errs, (serve r s).1 = unprocessable errs) \/
   exists a, (serve r s).1 = respond a /\ answer_ok doc_wf a) /\
  forall o', Some o' <> target r s -> store_view (serve r s).2 !! o' = store_view s !! o'.
Proof.
  apply serve_spec_gen; [done | intros; apply stored_doc_wf | intros; by apply merged_wf].
Qed.

Lemma serve_keeps_wf r s :
  store_ok s -> db_wf (store_view s) ->
  store_ok (serve r s).2 /\ db_wf (store_view (serve r s).2).
Proof. intros Hok Hwf. by destruct (serve_spec r s Hok Hwf) as (? & ? & _). Qed.
End WfInvariant.

(** A property of stores that every request keeps holds after every
    sequence of requests. *)
Section Sequences.
Context `{PydanticLib} {S : Type} `{DocStore S}.

Lemma serve_all_preserves (I : S -> Prop) rs s :
  (forall r s, I s -> I (serve r s).2) -> I s -> I (serve_all rs s).2.
Proof.
  intros Hstep. revert s; induction rs as [|r rs IH]; intros s Hs; [done|]. simpl.
  pose proof (Hstep r s Hs) as Hs1. destruct (serve r s) as [x s1]. simpl in *.
  pose proof (IH s1 Hs1) as Hs2. by destruct (serve_all rs s1).
Qed.
End Sequences.

(** ** The handlers implement the specification *)

Section Refines.
Context `{PydanticLib} {S : Type} `{DocStoreLaws S}.

(** Close one path of a route: the handler's run on that path, given by
    a lemma of Handlers.v, answers and stores what [spec_serve] says. *)
Ltac spec_path L :=
  let s' := fresh "s'" in let Hv := fresh "Hv" in let Hr := fresh "Hr" in
  destruct L as (s' & _ & Hv & Hr); [done..|];
  rewrite (run_handler_eq _ _ _ _ Hr); cbn [fst snd];
  split; [try case_bool_decide; reflexivity | by rewrite Hv].

Lemma serve_refines_spec r s :
  store_ok s -> db_wf (store_view s) ->
  (serve r s).1 = (spec_serve (store_next_id s) r (store_view s)).1 /\
  store_view (serve r s).2 = (spec_serve (store_next_id s) r (store_view s)).2.
Proof.
  intros Hok Hwf. destruct r as [|b|id|id b|id]; cbn [serve spec_serve]; [done| | | |].
  - destruct (validate_PassengerCreate b) as [errs|p]; [done|].
    destruct (store_view s !! store_next_id s) as [d|] eqn:Hn.
    + spec_path (create_passenger_collision p d s).
    + spec_path (create_passenger_ok p s).
  - destruct (parse_object_id id) as [o|] eqn:Hp;
      [|rewrite (run_handler_eq _ _ _ _ (get_passenger_invalid_id id s Hp)); by split].
    destruct (store_view s !! o) as [d|] eqn:Hd.
    + destruct (Hwf o d Hd) as (Hk & _ & _). spec_path (get_passenger_found id o d s).
    + spec_path (get_passenger_missing id o s).
  - destruct (validate_PassengerCreate b) as [errs|p]; [done|].
    destruct (parse_object_id id) as [o|] eqn:Hp;
      [|rewrite (run_handler_eq _ _ _ _ (update_passenger_invalid_id id p s Hp)); by split].
    destruct (store_view s !! o) as [d|] eqn:Hd.
    + destruct (Hwf o d Hd) as (Hk & Hnd & _). spec_path (update_passenger_run id o d p s).
    + spec_path (update_passenger_missing id o p s).
  - destruct (parse_object_id id) as [o|] eqn:Hp;
      [|rewrite (run_handler_eq _ _ _ _ (delete_passenger_invalid_id id s Hp)); by split].
    destruct (store_view s !! o) as [d|] eqn:Hd.
    + spec_path (delete_passenger_existing id o d s).
    + spec_path (delete_passenger_missing id o s).
Qed.
End Refines.

(** A read, update or delete acts on the one document it names: its
    answer and what it leaves under that id depend only on that
    document, and it leaves every other id alone. *)
Section Locality.
Context `{PydanticLib}.

Lemma spec_serve_next n n' r m : creates r = false -> spec_serve n r m = spec_serve n' r m.
Proof. by destruct r. Qed.

Lemma spec_serve_id_next n n' r o m : req_id r = Some o -> spec_serve n r m = spec_serve n' r m.
Proof. by destruct r. Qed.

(** Case on the body's validation and on the stored document, without
    unfolding the validator. *)
Ltac spec_split :=
  repeat match goal with
  | |- context [match validate_PassengerCreate ?b with _ => _ end] =>
      destruct (validate_PassengerCreate b)
  | |- context [match ?m !! ?o with _ => _ end] => destruct (m !! o) eqn:?
  end; cbn [fst snd].

Lemma spec_frame n r o m k :
  req_id r = Some o -> k <> o -> (spec_serve n r m).2 !! k = m !! k.
Proof.
  intros Hid Hk. destruct r as [|b|id|id b|id]; try discriminate;
    cbn [req_id] in Hid; cbn [spec_serve]; rewrite Hid; spec_split;
    first [done | by rewrite lookup_insert_ne | by rewrite lookup_delete_ne].
Qed.

Lemma spec_local n r o m1 m2 :
  req_id r = Some o -> m1 !! o = m2 !! o ->
  (spec_serve n r m1).1 = (spec_serve n r m2).1 /\
  (spec_serve n r m1).2 !! o = (spec_serve n r m2).2 !! o.
Proof.
  intros Hid Hm. destruct r as [|b|id|id b|id]; try discriminate;
    cbn [req_id] in Hid; cbn [spec_serve]; rewrite Hid, Hm; spec_split;
    rewrite ?lookup_insert_eq, ?lookup_delete_eq; split; congruence.
Qed.

Lemma spec_commute n r1 r2 o1 o2 m :
  req_id r1 = Some o1 -> req_id r2 = Some o2 -> o1 <> o2 ->
  (spec_serve n r2 (spec_serve n r1 m).2).2 = (spec_serve n r1 (spec_serve n r2 m).2).2.
Proof.
  intros H1 H2 Hne. apply map_eq. intros k.
  destruct (decide (k = o1)) as [->|Hk1]; [|destruct (decide (k = o2)) as [->|Hk2]].
  - rewrite (spec_frame n r2 o2) by done.
    apply (spec_local n r1 o1); [done|]. by rewrite (spec_frame n r2 o2).
  - rewrite (spec_frame n r1 o1 _ o2) by done.
    symmetry. apply (spec_local n r2 o2); [done|]. by rewrite (spec_frame n r1 o1).
  - by rewrite !(spec_frame n r2 o2), !(spec_frame n r1 o1), (spec_frame n r2 o2) by done.
Qed.
End Locality.

(** ** The theorems *)

Section Client.
Context `{PydanticLib} {S : Type} `{DocStoreLaws S}.

(** C1: Reading an id that is well formed but not stored does not answer
    404: the handler's own [HTTPException(404)] is caught by its
    [except Exception] clause and re-raised as a 500 whose detail is
    ["404: Passenger not found"]; the documents are unchanged. *)
Theorem get_missing_answers_500 id o s :
  store_ok s -> parse_object_id id = Some o -> store_view s !! o = None ->
  exists s', serve (GetPassenger id) s = (rewrapped_not_found, s') /\
             store_view s' = store_view s.
Proof.
  intros Hok Hp Hn.
  destruct (get_passenger_missing id o s) as (s' & _ & Hv & Hr); [done..|].
  exists s'. split; [|done]. exact (run_handler_eq _ _ _ _ Hr).
Qed.

(** C2: An update of a stored passenger that changes the document
    answers 200 with the merged record: its id, and for each declared
    field the body's value when the body carries the field, the stored
    value otherwise; the store holds the merged document. *)
Theorem update_merges_fields id o d b p s :
  store_ok s -> db_wf (store_view s) -> parse_object_id id = Some o ->
  store_view s !! o = Some d -> validate_PassengerCreate b = inr p ->
  merged_data p d ∪ d <> d ->
  exists r s', serve (PutUpdate id b) s = ({| status_code := 200; body := JsonDict r |}, s') /\
    store_view s' = <[o := merged_data p d ∪ d]> (store_view s) /\
    r !! "id" = Some (PyStr (oid_str o)) /\
    (forall k, k ∈ model_fields ->
       r !! k = Some (if bool_decide (is_Some (b !! k))
                      then encode_value (model_value p k) else dict_get d k)).
Proof.
  intros Hok Hwf Hp Hd Hv Hch. pose proof (Hwf o d Hd) as Hdw.
  destruct Hdw as (Hk & Hnd & _).
  destruct (update_passenger_run id o d p s) as (s' & _ & Hv' & Hr); [done..|].
  rewrite (bool_decide_eq_false_2 _ Hch) in Hr.
  exists (normalize (merged_data p d ∪ d)), s'.
  rewrite (serve_put_valid _ _ _ _ Hv), (run_handler_eq _ _ _ _ Hr).
  split_and!; [done|done| |].
  - rewrite normalize_merged, bool_decide_eq_true_2 by done.
    by rewrite (doc_wf_id o d (Hwf o d Hd)).
  - intros k Hm. rewrite normalize_merged by done.
    rewrite bool_decide_eq_false_2 by (intros ->; by apply id_not_model).
    rewrite (bool_decide_eq_true_2 _ Hm). unfold updated_value.
    by rewrite (bool_decide_ext _ _ (validate_fields_set b p k Hv Hm)).
Qed.

(** C3: Sending the same update twice: whatever the first answers, the
    second finds nothing to modify ([modified_count] is 0) and answers
    the re-raised 404 as a 500, leaving the documents as they were. *)
Theorem update_repeated_answers_500 id o d b p s :
  store_ok s -> db_wf (store_view s) -> parse_object_id id = Some o ->
  store_view s !! o = Some d -> validate_PassengerCreate b = inr p ->
  exists s2, serve (PutUpdate id b) (serve (PutUpdate id b) s).2 = (rewrapped_not_found, s2) /\
             store_view s2 = store_view (serve (PutUpdate id b) s).2.
Proof.
  intros Hok Hwf Hp Hd Hv. pose proof (Hwf o d Hd) as Hdw.
  destruct Hdw as (Hk & Hnd & _).
  destruct (update_passenger_run id o d p s) as (s1 & Hok1 & Hv1 & Hr1); [done..|].
  rewrite (serve_put_valid id b p s Hv), (run_handler_eq _ _ _ _ Hr1). cbn [snd].
  destruct (merged_wf o p d (Hwf o d Hd)) as (Hk1 & Hnd1 & _).
  destruct (update_passenger_run id o (merged_data p d ∪ d) p s1) as (s2 & _ & Hv2 & Hr2);
    [done|done|by rewrite Hv1, lookup_insert_eq|done|done|].
  rewrite (merged_data_idempotent p d Hnd), bool_decide_eq_true_2 in Hr2 by done.
  rewrite (merged_data_idempotent p d Hnd) in Hv2.
  exists s2. rewrite (serve_put_valid _ _ _ _ Hv), (run_handler_eq _ _ _ _ Hr2).
  split; [done|]. by rewrite Hv2, Hv1, insert_insert_eq.
Qed.
(** C4: Creating a passenger from a valid body answers 200 with the
    stored record: the generated id as 24 hex digits and every declared
    field with the body's value, dates as ISO strings, absent optional
    fields as [None]; the store holds the encoded model under the new
    id. *)
Theorem create_answers_record b p s :
  store_ok s -> validate_PassengerCreate b = inr p ->
  store_view s !! store_next_id s = None ->
  exists r s', serve (PostCreate b) s = ({| status_code := 200; body := JsonDict r |}, s') /\
    store_view s' = <[store_next_id s := stored_doc (store_next_id s) p]> (store_view s) /\
    forall k, r !! k =
      if bool_decide (k = "id") then Some (PyStr (oid_str (store_next_id s)))
      else if bool_decide (k ∈ model_fields) then Some (encode_value (model_value p k))
      else None.
Proof.
  intros Hok Hv Hn. destruct (create_passenger_ok p s) as (s' & _ & Hv' & Hr); [done..|].
  eexists _, s'. rewrite (serve_post_valid _ _ _ Hv), (run_handler_eq _ _ _ _ Hr).
  split_and!; [done|done|]. apply normalize_stored_doc.
Qed.

(** C5: The record a creation answers carries an ["id"] string, and
    reading that id back answers the same record. *)
Theorem create_then_get b p s :
  store_ok s -> validate_PassengerCreate b = inr p ->
  store_view s !! store_next_id s = None ->
  exists r id s1 s2,
    serve (PostCreate b) s = ({| status_code := 200; body := JsonDict r |}, s1) /\
    r !! "id" = Some (PyStr id) /\
    serve (GetPassenger id) s1 = ({| status_code := 200; body := JsonDict r |}, s2).
Proof.
  intros Hok Hv Hn. destruct (create_passenger_ok p s) as (s1 & Hok1 & Hv1 & Hr1); [done..|].
  destruct (get_passenger_found (oid_str (store_next_id s)) (store_next_id s)
              (stored_doc (store_next_id s) p) s1) as (s2 & _ & _ & Hr2).
  - done.
  - apply parse_object_id_oid_str, store_next_id_bound.
  - by rewrite Hv1, lookup_insert_eq.
  - apply stored_doc_has_keys.
  - eexists _, (oid_str (store_next_id s)), s1, s2.
    rewrite (serve_post_valid _ _ _ Hv), (run_handler_eq _ _ _ _ Hr1).
    split_and!; [done| |exact (run_handler_eq _ _ _ _ Hr2)].
    by rewrite normalize_stored_doc, bool_decide_eq_true_2.
Qed.

(** C6: Deleting a stored passenger answers the confirmation and removes
    it; reading it afterwards, and deleting it again, both answer the
    re-raised 404 as a 500. *)
Theorem delete_then_get id o d s :
  store_ok s -> parse_object_id id = Some o -> store_view s !! o = Some d ->
  exists s1 s2 s3,
    serve (DeletePassenger id) s = ({| status_code := 200; body := JsonDict delete_message |}, s1) /\
    serve (GetPassenger id) s1 = (rewrapped_not_found, s2) /\
    serve (DeletePassenger id) s2 = (rewrapped_not_found, s3) /\
    store_view s3 = delete o (store_view s).
Proof.
  intros Hok Hp Hd.
  destruct (delete_passenger_existing id o d s) as (s1 & Hok1 & Hv1 & Hr1); [done..|].
  destruct (get_passenger_missing id o s1) as (s2 & Hok2 & Hv2 & Hr2);
    [done|done|by rewrite Hv1, lookup_delete_eq|].
  destruct (delete_passenger_missing id o s2) as (s3 & _ & Hv3 & Hr3);
    [done|done|by rewrite Hv2, Hv1, lookup_delete_eq|].
  exists s1, s2, s3. split_and!.
  - exact (run_handler_eq _ _ _ _ Hr1).
  - exact (run_handler_eq _ _ _ _ Hr2).
  - exact (run_handler_eq _ _ _ _ Hr3).
  - by rewrite Hv3, Hv2, Hv1.
Qed.

(** C7: A body without one of the five required fields is refused with
    422, on update as on create, and the store is not touched: an
    update cannot be partial in those fields. *)
Theorem missing_required_field_422 f b id s :
  f ∈ required_fields -> b !! f = None ->
  (exists errs, serve (PutUpdate id b) s = (unprocessable errs, s)) /\
  (exists errs, serve (PostCreate b) s = (unprocessable errs, s)).
Proof.
  intros Hf Hb. unfold serve.
  destruct (validate_PassengerCreate b) as [errs|p] eqn:Hv; [split; eauto|].
  destruct (proj1 (validate_PassengerCreate_inr b p Hv) f Hf) as [v Hv'].
  congruence.
Qed.

(** C8: An id that is not an ObjectId is answered 500 with the bson
    error message, by reads, updates and deletes, without touching the
    store. *)
Theorem invalid_id_answers_500 id b s :
  parse_object_id id = None ->
  let r := {| status_code := 500; body := Detail (str_exn (InvalidId id)) |} in
  serve (GetPassenger id) s = (r, s) /\ serve (DeletePassenger id) s = (r, s) /\
  (forall p, validate_PassengerCreate b = inr p -> serve (PutUpdate id b) s = (r, s)).
Proof.
  intros Hp r. split_and!.
  - exact (run_handler_eq _ _ _ _ (get_passenger_invalid_id id s Hp)).
  - exact (run_handler_eq _ _ _ _ (delete_passenger_invalid_id id s Hp)).
  - intros p Hv. rewrite (serve_put_valid _ _ _ _ Hv).
    exact (run_handler_eq _ _ _ _ (update_passenger_invalid_id id p s Hp)).
Qed.
(** C13: Every update that reaches the store writes an ["id"] field into
    the stored document, holding the id as a string: [passenger_helper]'s
    output, which has that key, is the base of the [$set] payload. *)
Theorem update_stores_id_field id o d b p s :
  store_ok s -> db_wf (store_view s) -> parse_object_id id = Some o ->
  store_view s !! o = Some d -> validate_PassengerCreate b = inr p ->
  exists d', store_view (serve (PutUpdate id b) s).2 !! o = Some d' /\
             d' !! "id" = Some (PyStr (oid_str o)).
Proof.
  intros Hok Hwf Hp Hd Hv. pose proof (Hwf o d Hd) as Hdw. destruct Hdw as (Hk & Hnd & _).
  destruct (update_passenger_run id o d p s) as (s' & _ & Hv' & Hr); [done..|].
  rewrite (serve_put_valid _ _ _ _ Hv), (run_handler_eq _ _ _ _ Hr). cbn [snd].
  exists (merged_data p d ∪ d). rewrite Hv', lookup_insert_eq. split; [done|].
  rewrite lookup_union, merged_data_lookup, bool_decide_eq_true_2 by done.
  rewrite (doc_wf_id o d (Hwf o d Hd)). by destruct (d !! "id").
Qed.
(** C14: No request ever answers 404.  On a well-formed store every
    response is 200, 422 (the body fails validation) or 500: the handlers'
    own [HTTPException(404)]s are all re-raised as 500. *)
Theorem serve_status_codes r s :
  store_ok s -> db_wf (store_view s) -> status_code (serve r s).1 ∈ [200; 422; 500]%N.
Proof.
  intros Hok Hwf.
  destruct (serve_spec r s Hok Hwf) as (_ & _ & [->|[[errs ->]|(a & -> & Ha)]] & _);
    [set_solver..|].
  destruct Ha as [[(o & d & _ & ->)|[m ->]]|[->|[m ->]]]; simpl; set_solver.
Qed.

(** C15: A 200 answer is the welcome message, the delete confirmation, or
    a record with exactly the response-shape fields of the spec: [id] and
    the seventeen declared fields. *)
Theorem serve_record_shape r s d :
  store_ok s -> db_wf (store_view s) ->
  (serve r s).1 = {| status_code := 200; body := JsonDict d |} ->
  d = root \/ d = delete_message \/
  (forall k, is_Some (d !! k) <-> k = "id" \/ k ∈ model_fields).
Proof.
  intros Hok Hwf.
  destruct (serve_spec r s Hok Hwf) as (_ & _ & [->|[[errs ->]|(a & -> & Ha)]] & _);
    [intros [= <-]; by left|done|].
  destruct Ha as [[(o & d' & _ & ->)|[m ->]]|[->|[m ->]]];
    [|done|intros [= <-]; by right; left|done].
  intros [= <-]. right; right. apply normalize_keys.
Qed.

(** C16: A read never changes the stored documents, whatever the id and
    whatever the store holds. *)
Theorem get_read_only id s :
  store_ok s -> store_view (serve (GetPassenger id) s).2 = store_view s.
Proof.
  intros Hok. cbn [serve]. unfold run_handler.
  destruct (run_store_reads_only (get_passenger id) s Hok (get_passenger_reads_only id))
    as [_ Hv].
  destruct (run_store (get_passenger id) s). exact Hv.
Qed.

(** C17: A request changes no document but the one it names: the path id
    for reads, updates and deletes, the generated id for a creation. *)
Theorem serve_frame r s o' :
  store_ok s -> db_wf (store_view s) -> Some o' <> target r s ->
  store_view (serve r s).2 !! o' = store_view s !! o'.
Proof. intros Hok Hwf. by apply (serve_spec r s Hok Hwf). Qed.


(** C24: After an update that answers 200 with a record, reading the
    passenger answers 200 with that same record. *)
Theorem update_then_get id b r s s1 :
  store_ok s -> db_wf (store_view s) ->
  serve (PutUpdate id b) s = ({| status_code := 200; body := JsonDict r |}, s1) ->
  exists s2, serve (GetPassenger id) s1 = ({| status_code := 200; body := JsonDict r |}, s2).
Proof.
  intros Hok Hwf Hs.
  destruct (serve_update_200 id b s r s1 Hok Hwf Hs) as (o & d & p & Hp & Hd & _ & -> & Hok1 & Hv1).
  destruct (Hwf o d Hd) as (Hk & _ & _).
  destruct (get_passenger_found id o (merged_data p d ∪ d) s1) as (s2 & _ & _ & Hr);
    [done|done|by rewrite Hv1, lookup_insert_eq|eauto with pax|].
  exists s2. exact (run_handler_eq _ _ _ _ Hr).
Qed.

(** C25: A read, update or delete of one passenger and one of another
    passenger commute: each answers the same whether it runs first or
    second, and both orders leave the same documents. *)
Theorem requests_commute r1 r2 o1 o2 s :
  store_ok s -> db_wf (store_view s) -> req_id r1 = Some o1 -> req_id r2 = Some o2 -> o1 <> o2 ->
  (serve r2 (serve r1 s).2).1 = (serve r2 s).1 /\
  (serve r1 (serve r2 s).2).1 = (serve r1 s).1 /\
  store_view (serve r2 (serve r1 s).2).2 = store_view (serve r1 (serve r2 s).2).2.
Proof.
  intros Hok Hwf Hid1 Hid2 Hne.
  destruct (serve_keeps_wf r1 s Hok Hwf) as [Hok1 Hwf1].
  destruct (serve_keeps_wf r2 s Hok Hwf) as [Hok2 Hwf2].
  destruct (serve_refines_spec r1 s Hok Hwf) as [A1 V1].
  destruct (serve_refines_spec r2 s Hok Hwf) as [A2 V2].
  destruct (serve_refines_spec r2 _ Hok1 Hwf1) as [A21 V21].
  destruct (serve_refines_spec r1 _ Hok2 Hwf2) as [A12 V12].
  rewrite (spec_serve_id_next _ (store_next_id s) r2 o2) in A21, V21 by done.
  rewrite (spec_serve_id_next _ (store_next_id s) r1 o1) in A12, V12 by done.
  rewrite V1 in A21, V21. rewrite V2 in A12, V12. split_and!.
  - rewrite A21, A2. apply (spec_local _ r2 o2); [done|]. by apply (spec_frame _ r1 o1).
  - rewrite A12, A1. apply (spec_local _ r1 o1); [done|]. by apply (spec_frame _ r2 o2).
  - rewrite V21, V12. by apply (spec_commute _ r1 r2 o1 o2).
Qed.

(** C26: The handlers implement the specification [spec_serve]: a
    session of requests that creates nothing answers, and leaves the
    documents, as the specification computes from the stored documents
    alone. *)
Theorem session_refines_spec rs s n :
  store_ok s -> db_wf (store_view s) -> forallb (fun r => negb (creates r)) rs = true ->
  (serve_all rs s).1 = (spec_all n rs (store_view s)).1 /\
  store_view (serve_all rs s).2 = (spec_all n rs (store_view s)).2.
Proof.
  revert s; induction rs as [|r rs IH]; intros s Hok Hwf Hc; [done|].
  apply andb_prop in Hc as [Hr Hrs]. apply negb_true_iff in Hr. cbn [serve_all spec_all].
  destruct (serve_refines_spec r s Hok Hwf) as [A V].
  destruct (serve_keeps_wf r s Hok Hwf) as [Hok1 Hwf1].
  rewrite (spec_serve_next _ n r) in A, V by done.
  destruct (serve r s) as [x s1], (spec_serve n r (store_view s)) as [y m1]. cbn [fst snd] in *.
  subst y m1. destruct (IH s1 Hok1 Hwf1 Hrs) as [A' V'].
  destruct (serve_all rs s1) as [xs s2], (spec_all n rs (store_view s1)) as [ys m2].
  cbn [fst snd] in *. by subst.
Qed.

(** C27: A creation whose generated id is already taken answers 500 with
    the driver's duplicate-key message, which names the collection
    [passenger_db.passenger_collection] of database.py, and stores
    nothing: the documents are as before. *)
Theorem create_collision_answers_500 b p d s :
  store_ok s -> validate_PassengerCreate b = inr p -> store_view s !! store_next_id s = Some d ->
  exists s',
    serve (PostCreate b) s =
      ({| status_code := 500; body := Detail (str_exn (DuplicateKeyError (store_next_id s))) |}, s') /\
    store_view s' = store_view s /\
    exists pre post, str_exn (DuplicateKeyError (store_next_id s)) = (pre ++ collection_namespace ++ post)%string.
Proof.
  intros Hok Hv Hd. destruct (create_passenger_collision p d s) as (s' & _ & Hv' & Hr); [done..|].
  exists s'. rewrite (serve_post_valid _ _ _ Hv), (run_handler_eq _ _ _ _ Hr).
  split_and!; [done|done|]. apply str_duplicate_key_namespace.
Qed.

(** C23: A creation answers the email address it was sent with the part
    after the [@] lowercased, as pydantic's [EmailStr] normalises it
    (the email library's address, local part as sent): the record read
    back differs from the body when the domain has capitals. *)
Theorem create_normalises_email b p s r s' x a :
  store_ok s -> validate_PassengerCreate b = inr p ->
  b !! "email" = Some (JStr x) -> email_address x = Some a ->
  serve (PostCreate b) s = ({| status_code := 200; body := JsonDict r |}, s') ->
  r !! "email" = Some (PyStr (lower_domain a)).
Proof.
  intros Hok Hv Hb Ha Hs. destruct (serve_create_200 b p s r s' Hok Hv Hs) as (_ & -> & _).
  rewrite normalize_stored_doc, bool_decide_false, bool_decide_true
    by first [discriminate | apply (bool_decide_unpack _); vm_compute; reflexivity].
  pose proof (validated_model_value b p "email" FEmail Hv
                ltac:(apply (bool_decide_unpack _); vm_compute; reflexivity)) as Hc.
  cbn [check_field] in Hc. apply map_inr_eq_inr in Hc as (y & Hy & Hm).
  apply req_field_some in Hy as (j & Hj & Hval). rewrite Hb in Hj. injection Hj as <-.
  unfold email_validator in Hval. simpl in Hval. rewrite Ha in Hval. injection Hval as <-.
  by rewrite Hm.
Qed.
End Client.

Section Refinement.
Context `{PydanticLib}.

End Refinement.

(** The example scenario of the spec (section 8) does not run as the
    spec says.  The create and the read answer 200.  The update that sends
    only [meal_preference] is refused with 422, one error for each missing
    required field.  The delete answers 200, and the final read answers
    500 with detail "404: Passenger not found" instead of 404. *)
Theorem spec_scenario_responses :
  map status_code (serve_all spec_scenario empty_collection).1 = [200; 200; 422; 200; 500]%N /\
  nth_error (serve_all spec_scenario empty_collection).1 2 =
    Some (unprocessable [FieldRequired "title"; FieldRequired "given_name";
                         FieldRequired "surname"; FieldRequired "email"; FieldRequired "mobile"]) /\
  last (serve_all spec_scenario empty_collection).1 = Some rewrapped_not_found.
Proof. split_and!; vm_compute; reflexivity. Qed.

(** ** Witnesses *)

Lemma jane_valid : validate_PassengerCreate jane_body = inr jane.
Proof. vm_compute. reflexivity. Qed.

Lemma jane_update_valid : validate_PassengerCreate jane_update_body = inr jane_update.
Proof. vm_compute. reflexivity. Qed.

Lemma jane_collection_view : store_view jane_collection = {[0%N := stored_doc 0 jane]}.
Proof. apply (bool_decide_unpack _). vm_compute. reflexivity. Qed.

Lemma jane_collection_ok : store_ok jane_collection.
Proof. apply (bool_decide_unpack _). vm_compute. reflexivity. Qed.

Lemma jane_collection_wf : db_wf (store_view jane_collection).
Proof. rewrite jane_collection_view. apply map_Forall_singleton, stored_doc_wf. Qed.

Lemma get_missing_answers_500_witness :
  exists s', serve (GetPassenger (oid_str 7)) empty_collection = (rewrapped_not_found, s') /\
             store_view s' = store_view empty_collection.
Proof.
  apply (get_missing_answers_500 _ 7); [constructor | vm_compute; reflexivity | reflexivity].
Defined.

Lemma update_merges_fields_witness :
  exists r s', serve (PutUpdate (oid_str 0) jane_update_body) jane_collection =
               ({| status_code := 200; body := JsonDict r |}, s') /\
    store_view s' = <[0%N := merged_data jane_update (stored_doc 0 jane) ∪ stored_doc 0 jane]>
                      (store_view jane_collection) /\
    r !! "id" = Some (PyStr (oid_str 0)) /\
    (forall k, k ∈ model_fields ->
       r !! k = Some (if bool_decide (is_Some (jane_update_body !! k))
                      then encode_value (model_value jane_update k)
                      else dict_get (stored_doc 0 jane) k)).
Proof.
  apply update_merges_fields.
  - exact jane_collection_ok.
  - exact jane_collection_wf.
  - vm_compute. reflexivity.
  - rewrite jane_collection_view. apply lookup_singleton_eq.
  - exact jane_update_valid.
  - apply (bool_decide_unpack _). vm_compute. reflexivity.
Defined.

Lemma update_repeated_answers_500_witness :
  exists s2, serve (PutUpdate (oid_str 0) jane_update_body)
               (serve (PutUpdate (oid_str 0) jane_update_body) jane_collection).2 =
             (rewrapped_not_found, s2) /\
    store_view s2 = store_view (serve (PutUpdate (oid_str 0) jane_update_body) jane_collection).2.
Proof.
  apply (update_repeated_answers_500 _ 0 (stored_doc 0 jane) _ jane_update).
  - exact jane_collection_ok.
  - exact jane_collection_wf.
  - vm_compute. reflexivity.
  - rewrite jane_collection_view. apply lookup_singleton_eq.
  - exact jane_update_valid.
Defined.

Lemma empty_collection_ok : store_ok empty_collection.
Proof. constructor. Qed.

Lemma empty_collection_next : store_next_id empty_collection = 0%N.
Proof. reflexivity. Qed.

Lemma create_answers_record_witness :
  exists r s', serve (PostCreate jane_body) empty_collection =
               ({| status_code := 200; body := JsonDict r |}, s') /\
    store_view s' = <[0%N := stored_doc 0 jane]> (store_view empty_collection) /\
    forall k, r !! k =
      if bool_decide (k = "id") then Some (PyStr (oid_str 0))
      else if bool_decide (k ∈ model_fields) then Some (encode_value (model_value jane k))
      else None.
Proof.
  pose proof (create_answers_record jane_body jane empty_collection) as H.
  rewrite empty_collection_next in H.
  apply H; [exact empty_collection_ok | exact jane_valid | reflexivity].
Defined.

Lemma create_then_get_witness :
  exists r id s1 s2,
    serve (PostCreate jane_body) empty_collection =
      ({| status_code := 200; body := JsonDict r |}, s1) /\
    r !! "id" = Some (PyStr id) /\
    serve (GetPassenger id) s1 = ({| status_code := 200; body := JsonDict r |}, s2).
Proof.
  pose proof (create_then_get jane_body jane empty_collection) as H.
  rewrite empty_collection_next in H.
  apply H; [exact empty_collection_ok | exact jane_valid | reflexivity].
Defined.

Lemma delete_then_get_witness :
  exists s1 s2 s3,
    serve (DeletePassenger (oid_str 0)) jane_collection =
      ({| status_code := 200; body := JsonDict delete_message |}, s1) /\
    serve (GetPassenger (oid_str 0)) s1 = (rewrapped_not_found, s2) /\
    serve (DeletePassenger (oid_str 0)) s2 = (rewrapped_not_found, s3) /\
    store_view s3 = delete 0%N (store_view jane_collection).
Proof.
  apply (delete_then_get _ 0 (stored_doc 0 jane)).
  - exact jane_collection_ok.
  - vm_compute. reflexivity.
  - rewrite jane_collection_view. apply lookup_singleton_eq.
Defined.

Lemma update_stores_id_field_witness :
  exists d', store_view (serve (PutUpdate (oid_str 0) jane_update_body) jane_collection).2 !! 0%N
               = Some d' /\ d' !! "id" = Some (PyStr (oid_str 0)).
Proof.
  apply (update_stores_id_field _ 0 (stored_doc 0 jane) _ jane_update).
  - exact jane_collection_ok.
  - exact jane_collection_wf.
  - vm_compute. reflexivity.
  - rewrite jane_collection_view. apply lookup_singleton_eq.
  - exact jane_update_valid.
Defined.

Lemma two_janes_ok : store_ok two_janes /\ db_wf (store_view two_janes).
Proof.
  apply serve_keeps_wf; [exact jane_collection_ok | exact jane_collection_wf].
Qed.

Lemma serve_status_codes_witness :
  status_code (serve (PutUpdate (oid_str 0) jane_update_body) jane_collection).1
    ∈ [200; 422; 500]%N.
Proof. apply serve_status_codes; [exact jane_collection_ok | exact jane_collection_wf]. Defined.

Lemma serve_record_shape_witness :
  normalize (stored_doc 0 jane) = root \/ normalize (stored_doc 0 jane) = delete_message \/
  (forall k, is_Some (normalize (stored_doc 0 jane) !! k) <-> k = "id" \/ k ∈ model_fields).
Proof.
  apply (serve_record_shape (GetPassenger (oid_str 0)) jane_collection).
  - exact jane_collection_ok.
  - exact jane_collection_wf.
  - apply (bool_decide_unpack _). vm_compute. reflexivity.
Defined.

Lemma get_read_only_witness :
  store_view (serve (GetPassenger (oid_str 0)) two_janes).2 = store_view two_janes.
Proof. apply get_read_only. exact (proj1 two_janes_ok). Defined.

Lemma serve_frame_witness :
  store_view (serve (DeletePassenger (oid_str 0)) two_janes).2 !! 1%N = store_view two_janes !! 1%N.
Proof.
  apply serve_frame; [exact (proj1 two_janes_ok) | exact (proj2 two_janes_ok) |].
  vm_compute. congruence.
Defined.

Lemma missing_required_field_422_witness :
  (exists errs, serve (PutUpdate (oid_str 0) (delete "email" jane_body)) jane_collection =
                (unprocessable errs, jane_collection)) /\
  (exists errs, serve (PostCreate (delete "email" jane_body)) jane_collection =
                (unprocessable errs, jane_collection)).
Proof.
  apply (missing_required_field_422 "email").
  - apply (bool_decide_unpack _). vm_compute. reflexivity.
  - vm_compute. reflexivity.
Defined.

Lemma jane_created :
  serve (PostCreate jane_body) empty_collection =
  ({| status_code := 200; body := JsonDict (normalize (stored_doc 0 jane)) |}, jane_collection).
Proof.
  apply pair_equal_spec. split; [|reflexivity].
  apply (bool_decide_unpack _). vm_compute. reflexivity.
Qed.

Lemma create_normalises_email_witness :
  normalize (stored_doc 0 jane) !! "email" = Some (PyStr (lower_domain "jane@Example.COM")).
Proof.
  apply (create_normalises_email jane_body jane empty_collection _ jane_collection
           "jane@Example.COM" "jane@Example.COM").
  - exact empty_collection_ok.
  - exact jane_valid.
  - vm_compute. reflexivity.
  - reflexivity.
  - exact jane_created.
Defined.

Lemma jane_updated :
  (serve (PutUpdate (oid_str 0) jane_update_body) jane_collection).1 =
  {| status_code := 200;
     body := JsonDict (normalize (merged_data jane_update (stored_doc 0 jane) ∪ stored_doc 0 jane)) |}.
Proof. apply (bool_decide_unpack _). vm_compute. reflexivity. Qed.

Lemma update_then_get_witness :
  exists s2, serve (GetPassenger (oid_str 0))
               (serve (PutUpdate (oid_str 0) jane_update_body) jane_collection).2 =
    ({| status_code := 200;
        body := JsonDict (normalize (merged_data jane_update (stored_doc 0 jane) ∪ stored_doc 0 jane)) |},
     s2).
Proof.
  apply (update_then_get _ jane_update_body _ jane_collection).
  - exact jane_collection_ok.
  - exact jane_collection_wf.
  - rewrite <- jane_updated. apply surjective_pairing.
Defined.

Lemma requests_commute_witness :
  (serve (DeletePassenger (oid_str 1)) (serve (GetPassenger (oid_str 0)) two_janes).2).1 =
    (serve (DeletePassenger (oid_str 1)) two_janes).1 /\
  (serve (GetPassenger (oid_str 0)) (serve (DeletePassenger (oid_str 1)) two_janes).2).1 =
    (serve (GetPassenger (oid_str 0)) two_janes).1 /\
  store_view (serve (DeletePassenger (oid_str 1)) (serve (GetPassenger (oid_str 0)) two_janes).2).2 =
  store_view (serve (GetPassenger (oid_str 0)) (serve (DeletePassenger (oid_str 1)) two_janes).2).2.
Proof.
  apply (requests_commute _ _ 0 1).
  - exact (proj1 two_janes_ok).
  - exact (proj2 two_janes_ok).
  - vm_compute. reflexivity.
  - vm_compute. reflexivity.
  - discriminate.
Defined.

Lemma session_refines_spec_witness :
  (serve_all [GetPassenger (oid_str 0); PutUpdate (oid_str 0) jane_update_body;
              DeletePassenger (oid_str 0); GetPassenger (oid_str 0)] jane_collection).1 =
  (spec_all 0 [GetPassenger (oid_str 0); PutUpdate (oid_str 0) jane_update_body;
               DeletePassenger (oid_str 0); GetPassenger (oid_str 0)] (store_view jane_collection)).1 /\
  store_view (serve_all [GetPassenger (oid_str 0); PutUpdate (oid_str 0) jane_update_body;
                         DeletePassenger (oid_str 0); GetPassenger (oid_str 0)] jane_collection).2 =
  (spec_all 0 [GetPassenger (oid_str 0); PutUpdate (oid_str 0) jane_update_body;
               DeletePassenger (oid_str 0); GetPassenger (oid_str 0)] (store_view jane_collection)).2.
Proof.
  apply session_refines_spec; [exact jane_collection_ok | exact jane_collection_wf | reflexivity].
Defined.

Lemma taken_collection_next : store_next_id taken_collection = 0%N.
Proof. reflexivity. Qed.

Lemma create_collision_answers_500_witness :
  exists s',
    serve (PostCreate jane_body) taken_collection =
      ({| status_code := 500; body := Detail (str_exn (DuplicateKeyError 0)) |}, s') /\
    store_view s' = store_view taken_collection /\
    exists pre post, str_exn (DuplicateKeyError 0) = (pre ++ collection_namespace ++ post)%string.
Proof.
  pose proof (create_collision_answers_500 jane_body jane (stored_doc 0 jane) taken_collection) as H.
  rewrite taken_collection_next in H.
  apply H.
  - apply (bool_decide_unpack _). vm_compute. reflexivity.
  - exact jane_valid.
  - apply (bool_decide_unpack _). vm_compute. reflexivity.
Defined.

Lemma invalid_id_answers_500_witness :
  let r := {| status_code := 500; body := Detail (str_exn (InvalidId "42")) |} in
  serve (GetPassenger "42") jane_collection = (r, jane_collection) /\
  serve (DeletePassenger "42") jane_collection = (r, jane_collection) /\
  (forall p, validate_PassengerCreate jane_body = inr p ->
             serve (PutUpdate "42" jane_body) jane_collection = (r, jane_collection)).
Proof. apply invalid_id_answers_500. vm_compute. reflexivity. Defined.

End Api.
