(* ===== verification/Response.v ===== *)
(** * The response model: [response_model=PassengerResponse]

    The routes [create_passenger], [get_passenger] and [update_passenger]
    are declared with [response_model=PassengerResponse] (main.py lines
    43, 71, 88).  FastAPI validates the dict such a route returns against
    [PassengerResponse] (schemas.py lines 26-27) and answers the model
    through [jsonable_encoder]; a dict that fails validation raises, and
    the server answers 500.  [root] and [delete_passenger] declare no
    model and answer their dict as it is.

    [serve_http] is FastAPI with this step, [serve] of Api.v without it.
    The theorems show that on a store whose documents have the types the
    request schema gives them ([db_typed]), which every request keeps,
    the two answer alike on every sequence of requests: the theorems on
    [serve] hold of [serve_http].  A document of another shape, such as
    one written by another client with [title] set to [null], makes a
    read answer 500. *)

From S2P Require Import Prelude Config Dates ObjectId PyValues Schemas Store Mongo Handlers Api.
Import Date Oid Py Schema Store Mongo Main Api.

Module Resp.

Section Render.
Context `{PydanticLib}.

(** FastAPI's [serialize_response] for [response_model=PassengerResponse]:
    the returned dict validated against the model, the model answered
    through [jsonable_encoder]; a validation error is not caught, so the
    server answers 500. *)
Definition serialize_response (d : pydict) : response :=
  match validate_PassengerResponse (json_of_pyval <$> d) with
  | inr vs => {| status_code := 200; body := JsonDict (encode_value <$> list_to_map vs) |}
  | inl _ => {| status_code := 500; body := Detail "Internal Server Error" |}
  end.

(** The outcome of a route with a response model. *)
Definition respond_model (r : exn + pydict) : response :=
  match r with
  | inr d => serialize_response d
  | inl e => respond (inl e)
  end.

Context {S : Type} `{DocStore S}.

Definition run_route (h : sprog pydict) (s : S) : response * S :=
  let '(r, s') := run_store h s in (respond_model r, s').

(** The five routes as FastAPI serves them, the response model applied
    where the decorator declares one. *)
Definition serve_http (r : request) (s : S) : response * S :=
  match r with
  | GetRoot => (respond (inr root), s)
  | PostCreate b =>
      match validate_PassengerCreate b with
      | inl errs => (unprocessable errs, s)
      | inr p => run_route (create_passenger p) s
      end
  | GetPassenger id => run_route (get_passenger id) s
  | PutUpdate id b =>
      match validate_PassengerCreate b with
      | inl errs => (unprocessable errs, s)
      | inr p => run_route (update_passenger id p) s
      end
  | DeletePassenger id => run_handler (delete_passenger id) s
  end.

Fixpoint serve_all_http (rs : list request) (s : S) : list response * S :=
  match rs with
  | [] => ([], s)
  | r :: rs' =>
      let '(x, s1) := serve_http r s in
      let '(xs, s2) := serve_all_http rs' s1 in
      (x :: xs, s2)
  end.

(** A document whose declared fields hold what a validated request
    leaves there. *)
Definition doc_typed (d : pydict) : Prop :=
  forall f t, (f, t) ∈ PassengerCreate_fields -> field_typed t (dict_get d f).

Definition typed_wf (o : oid) (d : pydict) : Prop := doc_wf o d /\ doc_typed d.

Definition db_typed (m : absdb) : Prop := map_Forall typed_wf m.
End Render.

(** ** Sample inputs *)

#[local] Existing Instance sample_lib.
#[local] Existing Instance sample_laws.

(** A collection holding Jane's record with [title] set to [null], as
    another client could have written it. *)
Definition untitled_collection : collection :=
  {| documents := [<["title" := PyNone]> (stored_doc 0 jane)]; oid_counter := 1 |}.

(** ** Lemmas *)

Lemma PassengerCreate_fields_keys : PassengerCreate_fields.*1 = model_fields.
Proof. reflexivity. Qed.

Lemma PassengerResponse_fields_keys : PassengerResponse_fields.*1 = model_fields ++ ["id"].
Proof. reflexivity. Qed.

Lemma PassengerResponse_fields_NoDup : NoDup PassengerResponse_fields.*1.
Proof. apply (bool_decide_unpack _). vm_compute. reflexivity. Qed.

Lemma field_in_model f t : (f, t) ∈ PassengerCreate_fields -> f ∈ model_fields.
Proof. intros Hin. rewrite <- PassengerCreate_fields_keys. apply list_elem_of_fmap. by exists (f, t). Qed.

Lemma response_field_cases f t :
  (f, t) ∈ PassengerResponse_fields -> (f, t) ∈ PassengerCreate_fields \/ (f = "id" /\ t = FStr).
Proof.
  unfold PassengerResponse_fields. rewrite elem_of_app, list_elem_of_singleton.
  intros [Hin|[= -> ->]]; auto.
Qed.

Lemma normalize_field d f : f ∈ model_fields -> dict_get (normalize d) f = dict_get d f.
Proof.
  intros Hm. unfold dict_get at 1. rewrite normalize_lookup, bool_decide_false, bool_decide_true;
    first [done | intros ->; by apply id_not_model].
Qed.

Lemma normalize_response_lookup d k :
  normalize d !! k =
  if bool_decide (k ∈ PassengerResponse_fields.*1) then Some (dict_get (normalize d) k) else None.
Proof.
  rewrite PassengerResponse_fields_keys. destruct (normalize d !! k) as [v|] eqn:E.
  - rewrite bool_decide_true; [unfold dict_get; by rewrite E|].
    rewrite elem_of_app, list_elem_of_singleton.
    destruct (proj1 (normalize_keys d k) (mk_is_Some _ _ E)); tauto.
  - rewrite bool_decide_false; [done|]. rewrite elem_of_app, list_elem_of_singleton. intros Hk.
    destruct (proj2 (normalize_keys d k)) as [v Hv]; [tauto | congruence].
Qed.

(** The generic loop accepts a body each of whose fields validates to a
    value that encodes to [e f]. *)
Lemma validate_fields_encoded `{PydanticLib} b fs (e : string -> pyval) :
  (forall f t, (f, t) ∈ fs -> exists v, check_field b f t = inr v /\ encode_value v = e f) ->
  exists vs, validate_fields b fs = inr vs /\
             prod_map id encode_value <$> vs = (fun ft => (ft.1, e ft.1)) <$> fs.
Proof.
  induction fs as [|[f t] fs IH]; intros Hall; [by exists []|].
  destruct (Hall f t ltac:(by left)) as (v & Hc & He).
  destruct IH as (vs & Hvs & Hm); [intros f' t' Hin; apply Hall; by right|].
  exists ((f, v) :: vs). split; [simpl; by rewrite Hc, Hvs|].
  rewrite !fmap_cons, Hm. f_equal. simpl. by rewrite He.
Qed.

Lemma validate_fields_fail `{PydanticLib} b fs f t e :
  (f, t) ∈ fs -> check_field b f t = inl e -> exists es, validate_fields b fs = inl es.
Proof.
  induction fs as [|[f' t'] fs IH]; intros Hin Hc; [by apply not_elem_of_nil in Hin|]. simpl.
  apply elem_of_cons in Hin as [[= -> ->]|Hin]; [rewrite Hc; by eexists|].
  destruct (IH Hin Hc) as [es ->]. destruct (check_field b f' t'); by eexists.
Qed.

Lemma typed_wf_doc_wf `{PydanticLib} o d : typed_wf o d -> doc_wf o d.
Proof. by intros [? _]. Qed.

Lemma required_field_type f :
  f ∈ required_fields -> (f, FStr) ∈ PassengerCreate_fields \/ (f, FEmail) ∈ PassengerCreate_fields.
Proof.
  unfold required_fields. intros Hf.
  repeat (apply elem_of_cons in Hf as [->|Hf];
    [first [left; apply (bool_decide_unpack _); vm_compute; reflexivity
           | right; apply (bool_decide_unpack _); vm_compute; reflexivity] |]).
  by apply not_elem_of_nil in Hf.
Qed.

(** A field declared without [Optional] that holds [None] fails
    validation. *)
Lemma required_null_fails `{PydanticLib} b f :
  f ∈ required_fields -> b !! f = Some JNull ->
  exists t e, (f, t) ∈ PassengerCreate_fields /\ check_field b f t = inl e.
Proof.
  intros Hf Hb. unfold check_field.
  destruct (required_field_type f Hf) as [Hin|Hin]; do 2 eexists; split; try exact Hin;
    simpl; by rewrite (req_field_null _ _ _ _ Hb).
Qed.

Section Typed.
Context `{PydanticLaws}.

Lemma stored_doc_typed b p n : validate_PassengerCreate b = inr p -> doc_typed (stored_doc n p).
Proof.
  intros Hv f t Hin. pose proof (field_in_model f t Hin) as Hm.
  unfold dict_get. rewrite stored_doc_lookup, bool_decide_false, bool_decide_true;
    first [by eapply validated_typed | done | intros ->; by apply model_fields_no_id].
Qed.

Lemma merged_typed b p o d :
  validate_PassengerCreate b = inr p -> doc_wf o d -> doc_typed d ->
  doc_typed (merged_data p d ∪ d).
Proof.
  intros Hv (_ & Hnd & _) Hd f t Hin. pose proof (field_in_model f t Hin) as Hm.
  unfold dict_get at 1. rewrite (lookup_union_Some_l _ _ _ (updated_value p d f)).
  - unfold updated_value. case_bool_decide; [by eapply validated_typed | by apply Hd].
  - rewrite merged_data_lookup, bool_decide_false, bool_decide_true;
      first [done | intros ->; by apply id_not_model].
Qed.

Lemma typed_wf_stored b p n : validate_PassengerCreate b = inr p -> typed_wf n (stored_doc n p).
Proof. intros Hv. split; [apply stored_doc_wf | by eapply stored_doc_typed]. Qed.

Lemma typed_wf_merged b p o d :
  validate_PassengerCreate b = inr p -> typed_wf o d -> typed_wf o (merged_data p d ∪ d).
Proof. intros Hv [Hw Ht]. split; [by apply merged_wf | by eapply merged_typed]. Qed.

(** The record of a typed document passes the response model unchanged. *)
Lemma serialize_normalize d :
  doc_typed d -> serialize_response (normalize d) = {| status_code := 200; body := JsonDict (normalize d) |}.
Proof.
  intros Hd. unfold serialize_response, validate_PassengerResponse.
  destruct (validate_fields_encoded (json_of_pyval <$> normalize d) PassengerResponse_fields
              (dict_get (normalize d))) as (vs & -> & Hvs).
  - intros f t Hin. apply typed_check_field.
    + destruct (response_field_cases f t Hin) as [Hc|[-> ->]].
      * rewrite normalize_field by (by eapply field_in_model). by apply Hd.
      * unfold dict_get. rewrite normalize_lookup, bool_decide_true by done. by eexists.
    + rewrite lookup_fmap, normalize_response_lookup, bool_decide_true; [done|].
      apply list_elem_of_fmap. by exists (f, t).
  - do 3 f_equal. rewrite <- list_to_map_fmap, Hvs.
    apply list_to_map_graph; [apply PassengerResponse_fields_NoDup | apply normalize_response_lookup].
Qed.

Context {S : Type} `{DocStoreLaws S}.

Lemma run_route_record h tgt s :
  keeps typed_wf (answer_record typed_wf) h tgt s -> run_route h s = run_handler h s.
Proof.
  intros (r & s' & Hr & _ & _ & Ha & _). unfold run_route, run_handler. rewrite Hr. f_equal.
  destruct Ha as [(o & d & [_ Ht] & ->)|(m & ->)]; [by apply serialize_normalize | done].
Qed.

Lemma serve_http_serve r s :
  store_ok s -> db_typed (store_view s) -> serve_http r s = serve r s.
Proof.
  intros Hok Ht. destruct r as [|b|id|id b|id]; simpl; try done.
  - destruct (validate_PassengerCreate b) as [errs|p] eqn:Hv; [done|].
    apply (run_route_record _ _ _
             (create_keeps typed_wf p s (fun n => typed_wf_stored b p n Hv) Hok Ht)).
  - apply (run_route_record _ _ _ (get_keeps typed_wf typed_wf_doc_wf id s Hok Ht)).
  - destruct (validate_PassengerCreate b) as [errs|p] eqn:Hv; [done|].
    apply (run_route_record _ _ _
             (update_keeps typed_wf typed_wf_doc_wf id p s
                (fun o d => typed_wf_merged b p o d Hv) Hok Ht)).
Qed.

Lemma serve_keeps_typed r s :
  store_ok s -> db_typed (store_view s) ->
  store_ok (serve r s).2 /\ db_typed (store_view (serve r s).2).
Proof.
  intros Hok Ht.
  destruct (serve_spec_gen typed_wf typed_wf_doc_wf typed_wf_stored typed_wf_merged r s Hok Ht)
    as (? & ? & _). done.
Qed.
End Typed.

(** ** The theorems *)

Section Client.
Context `{PydanticLaws} {S : Type} `{DocStoreLaws S}.

(** C19: Every stored document holds in each declared field a value of
    the field's type as [jsonable_encoder] renders it: a string for the
    [str] fields, [None] or a string for the [Optional[str]] ones, [None]
    or the ISO string of a date the date parser reads back for the date
    fields, and an address the email validator returns unchanged for
    [email].  This holds after any sequence of requests from a store
    where it holds, such as the empty one. *)
Theorem serve_all_keeps_typed rs s :
  store_ok s -> db_typed (store_view s) ->
  store_ok (serve_all rs s).2 /\ db_typed (store_view (serve_all rs s).2).
Proof.
  intros Hok Ht. apply (serve_all_preserves (fun s => store_ok s /\ db_typed (store_view s)));
    [intros r s' [? ?]; by apply serve_keeps_typed | done].
Qed.

(** C20: On a store of typed documents, FastAPI's validation of the
    returned dicts against [response_model=PassengerResponse] changes no
    answer and no stored document, on any sequence of requests: every
    record the handlers return validates, and its encoding is the record
    itself. *)
Theorem serve_all_http_serve_all rs s :
  store_ok s -> db_typed (store_view s) -> serve_all_http rs s = serve_all rs s.
Proof.
  revert s; induction rs as [|r rs IH]; intros s Hok Ht; [done|]. simpl.
  rewrite serve_http_serve by done.
  destruct (serve_keeps_typed r s Hok Ht) as [Hok1 Ht1].
  destruct (serve r s) as [x s1]. simpl in *. by rewrite IH.
Qed.

(** C21: A stored document that [passenger_helper] can read but whose
    required field holds [None] (as another client may write it) is
    read back by the handler as a record, but that record fails the
    response model, and the server answers 500 ["Internal Server Error"]
    instead of the record. *)
Theorem get_untyped_answers_500 id o d f s :
  store_ok s -> parse_object_id id = Some o -> store_view s !! o = Some d ->
  doc_has_keys d = true -> f ∈ required_fields -> d !! f = Some PyNone ->
  (serve_http (GetPassenger id) s).1 =
    {| status_code := 500; body := Detail "Internal Server Error" |} /\
  (serve (GetPassenger id) s).1 = {| status_code := 200; body := JsonDict (normalize d) |}.
Proof.
  intros Hok Hp Hd Hk Hf Hnull.
  destruct (get_passenger_found id o d s) as (s' & _ & _ & Hr); [done..|].
  cbn [serve_http serve]. unfold run_route, run_handler. rewrite Hr. split; [|done].
  unfold respond_model, serialize_response, validate_PassengerResponse.
  destruct (required_null_fails (json_of_pyval <$> normalize d) f Hf) as (t & e & Hin & Hc).
  - rewrite lookup_fmap, normalize_lookup, bool_decide_false, bool_decide_true.
    + unfold dict_get. by rewrite Hnull.
    + by apply required_in_model.
    + intros ->. apply id_not_model. by apply required_in_model.
  - assert (Hin' : (f, t) ∈ PassengerResponse_fields)
      by (unfold PassengerResponse_fields; rewrite elem_of_app; by left).
    by destruct (validate_fields_fail _ _ _ _ _ Hin' Hc) as [es ->].
Qed.
End Client.

(** ** Witnesses *)

Lemma serve_all_keeps_typed_witness :
  store_ok (serve_all sample_session empty_collection).2 /\
  db_typed (store_view (serve_all sample_session empty_collection).2).
Proof.
  apply serve_all_keeps_typed; [exact empty_collection_ok | apply map_Forall_empty].
Defined.

Lemma serve_all_http_serve_all_witness :
  serve_all_http sample_session empty_collection = serve_all sample_session empty_collection.
Proof.
  apply serve_all_http_serve_all; [exact empty_collection_ok | apply map_Forall_empty].
Defined.

Lemma get_untyped_answers_500_witness :
  (serve_http (GetPassenger (oid_str 0)) untitled_collection).1 =
    {| status_code := 500; body := Detail "Internal Server Error" |} /\
  (serve (GetPassenger (oid_str 0)) untitled_collection).1 =
    {| status_code := 200; body := JsonDict (normalize (<["title" := PyNone]> (stored_doc 0 jane))) |}.
Proof.
  apply (get_untyped_answers_500 _ 0 _ "title").
  - apply (bool_decide_unpack _). vm_compute. reflexivity.
  - vm_compute. reflexivity.
  - apply (bool_decide_unpack _). vm_compute. reflexivity.
  - vm_compute. reflexivity.
  - apply (bool_decide_unpack _). vm_compute. reflexivity.
  - apply lookup_insert_eq.
Defined.

End Resp.
