(* ===== verification/Concurrency.v ===== *)
(** * Concurrent requests (spec section 5)

    Each driver call is atomic at the store, but a handler is a sequence of
    awaited calls, and FastAPI runs requests concurrently: the calls of two
    handlers interleave.  A running handler is the [sprog] still to run;
    [step] performs its next awaited call against the store, and
    [interleave sched t1 t2 s] runs two handlers, the schedule naming at
    each step the one whose call comes next.  [interleave_run] checks the
    model: a handler run on its own takes the steps [run_store] takes.

    [lost_update] is the race the spec describes for [update_passenger]:
    two updates of the same passenger that both read it before either
    writes both answer 200, and the document ends as the second computed
    it from the original, every field the first one set being lost.

    [update_delete_race]: a delete between the read and the write of an
    update makes the update answer 500.  [read_update_serializable]: on
    any schedule, a read racing an update answers the record from before
    or from after it; Section [Race] proves it from the stage invariant
    [update_stages]/[read_stages], preserved by every step of either.
    That both handlers have finished on such a schedule comes from their
    bounds on awaited calls ([awaits_within], Prelude.v; three for the
    update, one for the read): [interleave_within] shows each step of a
    handler spends one of them. *)

From S2P Require Import Prelude Config Dates ObjectId PyValues Schemas Store Mongo Handlers Api.
Import Date Oid Py Schema Store Mongo Main Api.

Module Conc.

Section Interleaving.
Context {S : Type} `{DocStore S}.

Definition step (t : sprog pydict) (s : S) : sprog pydict * S :=
  match t with
  | Await o k => let '(r, s') := store_exec o s in (k r, s')
  | _ => (t, s)
  end.

Fixpoint interleave (sched : list bool) (t1 t2 : sprog pydict) (s : S)
    : sprog pydict * sprog pydict * S :=
  match sched with
  | [] => (t1, t2, s)
  | true :: sched' => let '(t1', s') := step t1 s in interleave sched' t1' t2 s'
  | false :: sched' => let '(t2', s') := step t2 s in interleave sched' t1 t2' s'
  end.

End Interleaving.

Definition outcome (t : sprog pydict) : option (exn + pydict) :=
  match t with Pure a => Some (inr a) | Throw e => Some (inl e) | Await _ _ => None end.


(** The turns a schedule gives to the first request ([true]) or the
    second ([false]). *)
Definition turns (b : bool) (sched : list bool) : nat := count_occ Bool.bool_dec sched b.

(** What [update_passenger] answers for a found document [d]: the merged
    record, or the re-raised 404 when the merge changes nothing. *)
Definition update_answer (p : PassengerCreate) (d : pydict) : exn + pydict :=
  if bool_decide (merged_data p d ∪ d = d) then inl (HTTPException 500 "404: Passenger not found")
  else inr (normalize (merged_data p d ∪ d)).

(** The stages of an update of the document [d] stored under [o] in the
    view [V], as its remaining program and the store's view: before its
    read, between its read and its write, after its write, finished. *)
Definition update_stages (o : oid) (p : PassengerCreate) (d : pydict) (V : absdb)
    (k1 : exn + option pydict -> sprog pydict) (k2 : exn + UpdateResult -> sprog pydict)
    (t : sprog pydict) (v : absdb) : Prop :=
  (t = Await (FindOne o) k1 /\ v = V) \/
  (t = Await (UpdateOne o (merged_data p d)) k2 /\ v = V) \/
  (t = k2 (inr {| matched_count := 1;
                  modified_count := if bool_decide (merged_data p d ∪ d = d) then 0 else 1 |}) /\
   v = <[o := merged_data p d ∪ d]> V) \/
  (outcome t = Some (update_answer p d) /\ v = <[o := merged_data p d ∪ d]> V).

(** The stages of a read of [o]: before its one call, or finished with one
    of the two records. *)
Definition read_stages (o : oid) (kg : exn + option pydict -> sprog pydict) (d d' : pydict)
    (t : sprog pydict) : Prop :=
  t = Await (FindOne o) kg \/ t = Pure (normalize d) \/ t = Pure (normalize d').

(** A finished handler as a result. *)
Definition of_outcome (r : exn + pydict) : sprog pydict :=
  match r with inl e => Throw e | inr a => Pure a end.


Section Progress.
Context {S : Type} `{DocStore S}.

Lemma interleave_cons_true sched t1 t2 s :
  interleave (true :: sched) t1 t2 s = interleave sched (step t1 s).1 t2 (step t1 s).2.
Proof. simpl. by destruct (step t1 s). Qed.

Lemma interleave_cons_false sched t1 t2 s :
  interleave (false :: sched) t1 t2 s = interleave sched t1 (step t2 s).1 (step t2 s).2.
Proof. simpl. by destruct (step t2 s). Qed.

(** A step spends one await of a handler's budget, or leaves a finished
    handler as it is. *)
Lemma step_within n t s : awaits_within n t -> awaits_within (pred n) (step t s).1.
Proof.
  intros Ht. destruct Ht as [n a|n e|n o k Hk]; simpl; [constructor..|].
  destruct (store_exec o s) as [r s']. apply Hk.
Qed.

Lemma turns_cons b b' sched :
  turns b (b' :: sched) = if Bool.eqb b' b then Datatypes.S (turns b sched) else turns b sched.
Proof. unfold turns. simpl. by destruct b, b'. Qed.

Lemma interleave_within sched n1 n2 t1 t2 s :
  awaits_within n1 t1 -> awaits_within n2 t2 ->
  awaits_within (n1 - turns true sched) (interleave sched t1 t2 s).1.1 /\
  awaits_within (n2 - turns false sched) (interleave sched t1 t2 s).1.2.
Proof.
  revert n1 n2 t1 t2 s. induction sched as [|b sched IH]; intros n1 n2 t1 t2 s H1 H2.
  - simpl. by rewrite !Nat.sub_0_r.
  - rewrite !turns_cons. destruct b; cbn [Bool.eqb].
    + rewrite interleave_cons_true.
      destruct (IH (pred n1) n2 _ t2 (step t1 s).2 (step_within n1 t1 s H1) H2) as [? ?].
      by replace (n1 - Datatypes.S (turns true sched)) with (pred n1 - turns true sched) by lia.
    + rewrite interleave_cons_false.
      destruct (IH n1 (pred n2) t1 _ (step t2 s).2 H1 (step_within n2 t2 s H2)) as [? ?].
      by replace (n2 - Datatypes.S (turns false sched)) with (pred n2 - turns false sched) by lia.
Qed.
End Progress.

Section Lemmas.
Context {S : Type} `{DocStoreLaws S}.

Lemma step_await o k s :
  store_ok s ->
  exists s', store_ok s' /\ store_view s' = (abs_exec (store_next_id s) o (store_view s)).2 /\
    step (Await o k) s = (k (abs_exec (store_next_id s) o (store_view s)).1, s').
Proof.
  intros Hok. pose proof (store_exec_refines o s Hok) as Href. pose proof (store_exec_ok o s Hok) as Hok'.
  simpl. destruct (store_exec o s) as [r s'] eqn:E. simpl in *. rewrite <- Href. by exists s'.
Qed.

Lemma interleave_run t s :
  exists n, forall t2,
    interleave (repeat true n) t t2 s = (of_outcome (run_store t s).1, t2, (run_store t s).2).
Proof.
  revert s; induction t as [a|e|o k IH]; intros s; [by exists 0%nat..|].
  destruct (store_exec o s) as [r s'] eqn:E.
  destruct (IH r s') as [n Hn]. exists (Datatypes.S n). intros t2.
  simpl. rewrite E. unfold run_store in *. simpl. rewrite E. apply Hn.
Qed.

Lemma update_shape id o p :
  parse_object_id id = Some o ->
  exists k1, update_passenger id p = Await (FindOne o) k1 /\
  forall d, doc_has_keys d = true ->
  exists k2, k1 (inr (Some d)) = Await (UpdateOne o (merged_data p d)) k2 /\
  (forall mc, k2 (inr {| matched_count := mc; modified_count := 0 |}) =
              Throw (HTTPException 500 "404: Passenger not found")) /\
  exists k3, k2 (inr {| matched_count := 1; modified_count := 1 |}) = Await (FindOne o) k3 /\
  forall u, doc_has_keys u = true -> k3 (inr (Some u)) = Pure (normalize u).
Proof.
  intros Hp. unfold update_passenger. unfold_prog. unfold ObjectId. rewrite Hp.
  eexists. split; [reflexivity|]. intros d Hk. cbn [try_except prog_bind].
  rewrite doc_has_keys_truthy by done. cbn [lift]. rewrite passenger_helper_normalize by done.
  cbn [try_except prog_bind]. fold (merged_data p d).
  eexists. split; [reflexivity|]. split; [reflexivity|].
  cbn [try_except prog_bind modified_count Nat.eqb].
  eexists. split; [reflexivity|]. intros u Hu. cbn [try_except prog_bind].
  rewrite doc_has_keys_truthy by done. cbn [lift]. rewrite passenger_helper_normalize by done.
  reflexivity.
Qed.

Lemma get_shape id o :
  parse_object_id id = Some o ->
  exists kg, get_passenger id = Await (FindOne o) kg /\
  forall e, doc_has_keys e = true -> kg (inr (Some e)) = Pure (normalize e).
Proof.
  intros Hp. unfold get_passenger. unfold_prog. unfold ObjectId. rewrite Hp.
  eexists. split; [reflexivity|]. intros e He. cbn [try_except prog_bind].
  rewrite doc_has_keys_truthy by done. cbn [lift]. rewrite passenger_helper_normalize by done.
  reflexivity.
Qed.

Lemma delete_shape id o :
  parse_object_id id = Some o ->
  exists k, delete_passenger id = Await (DeleteOne o) k /\
            k (inr {| deleted_count := 1 |}) = Pure delete_message.
Proof.
  intros Hp. unfold delete_passenger. unfold_prog. unfold ObjectId. rewrite Hp.
  eexists. split; reflexivity.
Qed.

Lemma abs_update_missing o set m :
  no_dates set -> m !! o = None ->
  abs_update o set m = (inr {| matched_count := 0; modified_count := 0 |}, m).
Proof.
  intros Hnd Hm. unfold abs_update.
  by rewrite (proj2 (first_date_None _) Hnd), Hm.
Qed.

Lemma abs_update_merged o p d e m :
  no_dates d -> m !! o = Some e ->
  abs_update o (merged_data p d) m =
  (inr {| matched_count := 1;
          modified_count := if bool_decide (merged_data p d ∪ e = e) then 0 else 1 |},
   <[o := merged_data p d ∪ e]> m).
Proof.
  intros Hnd He. unfold abs_update.
  rewrite (proj2 (first_date_None _) (merged_data_no_dates p d Hnd)), He.
  rewrite bool_decide_eq_false_2; [done|]. rewrite merged_data_no_id by done. naive_solver.
Qed.

Ltac conc_step :=
  first [rewrite interleave_cons_true | rewrite interleave_cons_false];
  match goal with
  | Hok : store_ok ?s |- context [step (Await ?o ?k) ?s] =>
      let s' := fresh "s" in let Hok' := fresh "Hok" in let Hv := fresh "Hv" in
      let Hs := fresh "Hs" in
      destruct (step_await o k s Hok) as (s' & Hok' & Hv & Hs);
      rewrite Hs; clear Hs; cbn [fst snd abs_exec] in Hv |- *;
      unfold abs_find in Hv |- *; cbn [fst snd] in Hv |- *
  end.



(** C28: An update racing with a delete of the same passenger, the delete
    running between the update's read and its write, does not bring the
    passenger back: [update_one] matches nothing, the update answers the
    re-raised 404 as a 500, the delete answers its confirmation, and the
    document stays deleted. *)
Theorem update_delete_race id o d p s :
  store_ok s -> parse_object_id id = Some o -> store_view s !! o = Some d ->
  doc_has_keys d = true -> no_dates d ->
  exists t1 t2 s',
    interleave [true; false; true] (update_passenger id p) (delete_passenger id) s = (t1, t2, s') /\
    outcome t1 = Some (inl (HTTPException 500 "404: Passenger not found")) /\
    outcome t2 = Some (inr delete_message) /\
    store_view s' = delete o (store_view s).
Proof.
  intros Hok Hp Hd Hk Hnd.
  destruct (update_shape id o p Hp) as (k1 & -> & Hu).
  destruct (Hu d Hk) as (k2 & E2 & E0 & _).
  destruct (delete_shape id o Hp) as (kd & -> & Ed).
  conc_step. rewrite Hd, E2.
  conc_step. unfold abs_delete in Hv0 |- *. rewrite Hv, Hd in Hv0 |- *. cbn [fst snd] in Hv0 |- *.
  rewrite Ed.
  conc_step. assert (Hgone : store_view s1 !! o = None) by (by rewrite Hv0, lookup_delete_eq).
  rewrite (abs_update_missing o _ _ (merged_data_no_dates p d Hnd) Hgone) in Hv1 |- *.
  cbn [fst snd] in Hv1 |- *. rewrite E0.
  cbn [interleave]. eexists _, _, _. split; [reflexivity|]. split_and!; [done|done|].
  by rewrite Hv1, Hv0.
Qed.
End Lemmas.

(** A read and an update of the same document, under any schedule: the
    update goes through its stages as if alone, and every view the read
    can see is the one before the write or the one after it. *)
Section Race.
Context {S : Type} `{DocStoreLaws S}.
Variables (o : oid) (p : PassengerCreate) (d : pydict) (V : absdb).
Variables (k1 k3 kg : exn + option pydict -> sprog pydict) (k2 : exn + UpdateResult -> sprog pydict).
Hypothesis Hd : V !! o = Some d.
Hypothesis Hk : doc_has_keys d = true.
Hypothesis Hnd : no_dates d.
Hypothesis E1 : k1 (inr (Some d)) = Await (UpdateOne o (merged_data p d)) k2.
Hypothesis E2 : forall mc, k2 (inr {| matched_count := mc; modified_count := 0 |}) =
                           Throw (HTTPException 500 "404: Passenger not found").
Hypothesis E3 : k2 (inr {| matched_count := 1; modified_count := 1 |}) = Await (FindOne o) k3.
Hypothesis E4 : forall u, doc_has_keys u = true -> k3 (inr (Some u)) = Pure (normalize u).
Hypothesis Eg : forall e, doc_has_keys e = true -> kg (inr (Some e)) = Pure (normalize e).

Lemma stages_lookup t v :
  update_stages o p d V k1 k2 t v -> v !! o = Some d \/ v !! o = Some (merged_data p d ∪ d).
Proof.
  intros [[_ ->]|[[_ ->]|[[_ ->]|[_ ->]]]]; rewrite ?lookup_insert_eq; auto.
Qed.

Lemma race_update_step t s :
  store_ok s -> update_stages o p d V k1 k2 t (store_view s) ->
  store_ok (step t s).2 /\ update_stages o p d V k1 k2 (step t s).1 (store_view (step t s).2).
Proof.
  intros Hok [[-> Hv]|[[-> Hv]|[[-> Hv]|[Ho Hv]]]].
  - destruct (step_await (FindOne o) k1 s Hok) as (s' & Hok' & Hv' & ->).
    cbn [fst snd abs_exec] in *. unfold abs_find in *. cbn [fst snd] in *.
    rewrite Hv, Hd, E1. split; [done|]. right; left. by rewrite Hv', Hv.
  - destruct (step_await (UpdateOne o (merged_data p d)) k2 s Hok) as (s' & Hok' & Hv' & ->).
    cbn [fst snd abs_exec] in *. rewrite Hv, (abs_update_merged o p d d V Hnd Hd) in Hv' |- *.
    cbn [fst snd] in *. split; [done|]. right; right; left. done.
  - case_bool_decide as Hb.
    + rewrite E2. cbn [step fst snd]. split; [done|]. right; right; right.
      unfold update_answer. rewrite bool_decide_true by done. split; [reflexivity | exact Hv].
    + rewrite E3. destruct (step_await (FindOne o) k3 s Hok) as (s' & Hok' & Hv' & ->).
      cbn [fst snd abs_exec] in *. unfold abs_find in *. cbn [fst snd] in *.
      rewrite Hv, lookup_insert_eq, E4 by eauto with pax. split; [done|]. right; right; right.
      unfold update_answer. rewrite bool_decide_false by done. split; [done|]. by rewrite Hv', Hv.
  - assert (Hst : step t s = (t, s)) by (destruct t as [a|e|op k]; [done|done|discriminate Ho]).
    rewrite Hst. cbn [fst snd]. split; [done|]. right; right; right. split; [exact Ho | exact Hv].
Qed.

Lemma race_read_step t s :
  store_ok s -> store_view s !! o = Some d \/ store_view s !! o = Some (merged_data p d ∪ d) ->
  read_stages o kg d (merged_data p d ∪ d) t ->
  store_ok (step t s).2 /\ store_view (step t s).2 = store_view s /\
  read_stages o kg d (merged_data p d ∪ d) (step t s).1.
Proof.
  intros Hok Hl [->|[->| ->]]; [|cbn [step fst snd]; split_and!; unfold read_stages; auto..].
  destruct (step_await (FindOne o) kg s Hok) as (s' & Hok' & Hv' & ->).
  cbn [fst snd abs_exec] in *. unfold abs_find in *. cbn [fst snd] in *.
  split_and!; [done|done|]. unfold read_stages.
  destruct Hl as [-> | ->]; rewrite Eg by eauto with pax; auto.
Qed.

Lemma race_interleave sched t1 t2 s :
  store_ok s -> update_stages o p d V k1 k2 t1 (store_view s) ->
  read_stages o kg d (merged_data p d ∪ d) t2 ->
  update_stages o p d V k1 k2 (interleave sched t1 t2 s).1.1 (store_view (interleave sched t1 t2 s).2) /\
  read_stages o kg d (merged_data p d ∪ d) (interleave sched t1 t2 s).1.2.
Proof.
  revert t1 t2 s; induction sched as [|[] sched IH]; intros t1 t2 s Hok H1 H2; [done| |].
  - rewrite interleave_cons_true. destruct (race_update_step t1 s Hok H1) as [Hok' H1'].
    by apply IH.
  - rewrite interleave_cons_false.
    destruct (race_read_step t2 s Hok (stages_lookup _ _ H1) H2) as (Hok' & Hv' & H2').
    apply IH; [done| by rewrite Hv' | done].
Qed.
End Race.

Section Serializable.
Context {S : Type} `{DocStoreLaws S}.

(** C29: A read and an update of the same passenger, interleaved in any
    way that lets both finish, behave as if run one after the other: the
    update answers as it does alone and leaves the merged document, and
    the read answers either the record from before the update or the one
    after it, never a mix of the two.  (Two updates are not serialisable:
    see C11.) *)
Theorem read_update_serializable id o d p sched s :
  store_ok s -> parse_object_id id = Some o -> store_view s !! o = Some d ->
  doc_has_keys d = true -> no_dates d ->
  (3 <= turns true sched)%nat -> (1 <= turns false sched)%nat ->
  outcome (interleave sched (update_passenger id p) (get_passenger id) s).1.1 =
    Some (update_answer p d) /\
  store_view (interleave sched (update_passenger id p) (get_passenger id) s).2 =
    <[o := merged_data p d ∪ d]> (store_view s) /\
  (outcome (interleave sched (update_passenger id p) (get_passenger id) s).1.2 =
     Some (inr (normalize d)) \/
   outcome (interleave sched (update_passenger id p) (get_passenger id) s).1.2 =
     Some (inr (normalize (merged_data p d ∪ d)))).
Proof.
  intros Hok Hp Hd Hk Hnd Ht Hf.
  destruct (interleave_within sched 3 1 _ _ s (update_passenger_within id p) (get_passenger_within id))
    as [W1 W2].
  destruct (update_shape id o p Hp) as (k1 & Eu & Hu).
  destruct (Hu d Hk) as (k2 & E1 & E2 & k3 & E3 & E4).
  destruct (get_shape id o Hp) as (kg & Eg0 & Eg).
  rewrite Eu, Eg0 in *.
  destruct (race_interleave o p d (store_view s) k1 k3 kg k2 Hd Hk Hnd E1 E2 E3 E4 Eg sched
              _ _ s Hok (or_introl (conj eq_refl eq_refl)) (or_introl eq_refl)) as [HU HG].
  destruct (interleave sched _ _ s) as [[t1 t2] s'] eqn:E. cbn [fst snd] in *.
  assert (W1' : awaits_within 0 t1) by (by replace 0%nat with (3 - turns true sched)%nat by lia).
  assert (W2' : awaits_within 0 t2) by (by replace 0%nat with (1 - turns false sched)%nat by lia).
  destruct HU as [[-> _]|[[-> _]|[[-> Hv]|[Ho Hv]]]]; [inversion W1'|inversion W1'| |].
  - unfold update_answer in *. case_bool_decide; [|rewrite E3 in W1'; inversion W1'].
    rewrite E2. split; [reflexivity|]. split; [exact Hv|].
    destruct HG as [->|[->| ->]]; [inversion W2'|by left|by right].
  - split; [exact Ho|]. split; [exact Hv|].
    destruct HG as [->|[->| ->]]; [inversion W2'|by left|by right].
Qed.
End Serializable.


#[local] Existing Instance sample_lib.

Lemma read_update_serializable_witness :
  outcome (interleave [true; false; true; true] (update_passenger (oid_str 0) jane_update)
             (get_passenger (oid_str 0)) jane_collection).1.1 =
    Some (update_answer jane_update (stored_doc 0 jane)) /\
  store_view (interleave [true; false; true; true] (update_passenger (oid_str 0) jane_update)
                (get_passenger (oid_str 0)) jane_collection).2 =
    <[0%N := merged_data jane_update (stored_doc 0 jane) ∪ stored_doc 0 jane]>
      (store_view jane_collection) /\
  (outcome (interleave [true; false; true; true] (update_passenger (oid_str 0) jane_update)
              (get_passenger (oid_str 0)) jane_collection).1.2 =
     Some (inr (normalize (stored_doc 0 jane))) \/
   outcome (interleave [true; false; true; true] (update_passenger (oid_str 0) jane_update)
              (get_passenger (oid_str 0)) jane_collection).1.2 =
     Some (inr (normalize (merged_data jane_update (stored_doc 0 jane) ∪ stored_doc 0 jane)))).
Proof.
  apply read_update_serializable.
  - exact jane_collection_ok.
  - vm_compute. reflexivity.
  - rewrite jane_collection_view. apply lookup_singleton_eq.
  - apply stored_doc_has_keys.
  - exact (proj1 (proj2 (stored_doc_wf 0 jane))).
  - vm_compute. lia.
  - vm_compute. lia.
Defined.

Lemma update_delete_race_witness :
  exists t1 t2 s',
    interleave [true; false; true] (update_passenger (oid_str 0) jane_update)
      (delete_passenger (oid_str 0)) jane_collection = (t1, t2, s') /\
    outcome t1 = Some (inl (HTTPException 500 "404: Passenger not found")) /\
    outcome t2 = Some (inr delete_message) /\
    store_view s' = delete 0%N (store_view jane_collection).
Proof.
  apply (update_delete_race _ 0 (stored_doc 0 jane)).
  - exact jane_collection_ok.
  - vm_compute. reflexivity.
  - rewrite jane_collection_view. apply lookup_singleton_eq.
  - apply stored_doc_has_keys.
  - exact (proj1 (proj2 (stored_doc_wf 0 jane))).
Defined.

End Conc.
