(* ===== verification/Logging.v ===== *)
(** * The handlers' logging (src/main.py)

    main.py configures the root logger with
    [logging.basicConfig(level=logging.INFO)] and every handler logs: an
    INFO line when it starts, an INFO line with the document it found, a
    WARNING when the passenger is missing, and in its [except] clause an
    ERROR line with [str(e)] before re-raising as [HTTPException(500)].

    A log call is one more operation a handler performs, so the handlers
    with their log calls are programs over [lop]: the driver calls of
    Store.v ([Call]) and [Log level message].  [logged_get_passenger] and
    the others are the handlers line by line, log calls included;
    [inject] embeds the log-free code of Handlers.v ([ObjectId],
    [passenger_helper], [reraise_500]) and [erase] drops the log calls.
    [erase_create], [erase_get], [erase_update] and [erase_delete] prove
    that erasing the log calls of each logged handler gives exactly the
    handler of Handlers.v, so every theorem on those holds of the code
    with its logging, and [run_logged_erase] shows that running a logged
    program answers and stores what its erasure does.  [serve_logged] is
    FastAPI with the logged handlers (the routes of Api.v).

    [run_logged] runs a logged handler against a store and the list of
    emitted records; a record is emitted when its level is at least the
    configured [INFO].  A message is its text where the f-string
    interpolates strings ([id], [str(e)]); where it interpolates a
    document ([{passenger}]) it is the prefix and the document, since
    Python prints a dict in insertion order, which the document model
    does not keep.

    [no_error_log] marks the programs that log nothing at ERROR; every
    handler's [try] body is one, so the only ERROR record is the one its
    [except] clause writes ([run_lexec_try]): a request answers 500
    exactly when its last record is an ERROR quoting the answer's detail
    ([serve_logs_error_iff_500]).  [get_missing_logs] is the full log of a
    read of a missing passenger. *)

From Stdlib Require Import FunctionalExtensionality.
From S2P Require Import Prelude Dates ObjectId PyValues Schemas Store Mongo Handlers Api.
Import Date Oid Py Schema Store Mongo Main Api.

Module Logs.

(** [logging.DEBUG], [INFO], [WARNING], [ERROR] and their numeric levels. *)
Inductive level : Type := DEBUG | INFO | WARNING | ERROR.

#[export] Instance level_eq_dec : EqDecision level.
Proof. solve_decision. Defined.

Definition levelno (l : level) : nat :=
  match l with DEBUG => 10 | INFO => 20 | WARNING => 30 | ERROR => 40 end.

(** [logging.basicConfig(level=logging.INFO)]: the root logger's level. *)
Definition root_level : level := INFO.

(** [Logger.isEnabledFor]: a record below the root level is dropped. *)
Definition enabled (l : level) : bool := Nat.leb (levelno root_level) (levelno l).

Inductive message : Type :=
| Text (s : string)
| WithDoc (prefix : string) (d : pydict).

Record record : Type := { rec_level : level; rec_msg : message }.

(** A handler's operations: a driver call or a log call. *)
Inductive lop : Type :=
| Call (o : op)
| Log (l : level) (m : message).

Definition lres (o : lop) : Type :=
  match o with Call o => op_res o | Log _ _ => unit end.

Abbreviation lprog := (prog lop lres exn).

Definition call (o : op) : lprog (op_res o) := await (Call o).

(** [logging.info(m)], [logging.warning(m)], [logging.error(m)] *)
Definition log (l : level) (m : message) : lprog unit := await (Log l m).

(** The log-free code of Handlers.v, each driver call a [Call]. *)
Fixpoint inject {A} (p : sprog A) : lprog A :=
  match p with
  | Pure a => Pure a
  | Throw e => Throw e
  | Await o k => Await (Call o) (fun r => inject (k r))
  end.

(** Dropping the log calls. *)
Fixpoint erase {A} (p : lprog A) : sprog A :=
  match p with
  | Pure a => Pure a
  | Throw e => Throw e
  | Await o k =>
      match o return (exn + lres o -> lprog A) -> sprog A with
      | Call o' => fun k' => Await o' (fun r => erase (k' r))
      | Log _ _ => fun k' => erase (k' (inr tt))
      end k
  end.

(** ** The handlers with their log calls *)

Definition logged_create_passenger (passenger : PassengerCreate) : lprog pydict :=
  try:
    (log INFO (Text "Creating a new passenger...");;
     let passenger_data := jsonable_encoder passenger in
     new_passenger ← call (InsertOne passenger_data);
     created_passenger ← call (FindOne (inserted_id new_passenger));
     match created_passenger with
     | None => Throw (HTTPException 404 "Passenger not found after creation")
     | Some c =>
         log INFO (WithDoc "Passenger created: " c);;
         inject (lift (passenger_helper c))
     end)
  except e =>
    log ERROR (Text ("Error creating passenger: " ++ str_exn e));;
    inject (reraise_500 e).

Definition logged_get_passenger (id : string) : lprog pydict :=
  try:
    (log INFO (Text ("Fetching passenger with ID: " ++ id));;
     o ← inject (ObjectId id);
     passenger ← call (FindOne o);
     match truthy passenger with
     | Some p =>
         log INFO (WithDoc "Passenger found: " p);;
         inject (lift (passenger_helper p))
     | None =>
         log WARNING (Text ("Passenger with ID " ++ id ++ " not found"));;
         Throw not_found
     end)
  except e =>
    log ERROR (Text ("Error fetching passenger with ID " ++ id ++ ": " ++ str_exn e));;
    inject (reraise_500 e).

Definition logged_update_passenger (id : string) (passenger : PassengerCreate) : lprog pydict :=
  try:
    (log INFO (Text ("Updating passenger with ID: " ++ id));;
     o ← inject (ObjectId id);
     existing_passenger ← call (FindOne o);
     match truthy existing_passenger with
     | None => Throw not_found
     | Some existing =>
         existing_passenger_data ← inject (lift (passenger_helper existing));
         let update_data := dict_exclude_unset passenger in
         let merged_data := merge_update existing_passenger_data update_data in
         let merged_data := convert_dates_to_string merged_data in
         let not_updated :=
           log WARNING (Text ("Passenger with ID " ++ id ++ " not found"));;
           Throw not_found in
         o' ← inject (ObjectId id);
         update_result ← call (UpdateOne o' merged_data);
         if Nat.eqb (modified_count update_result) 1 then
           o'' ← inject (ObjectId id);
           updated_passenger ← call (FindOne o'');
           match truthy updated_passenger with
           | Some u =>
               log INFO (WithDoc "Passenger updated: " u);;
               inject (lift (passenger_helper u))
           | None => not_updated
           end
         else not_updated
     end)
  except e =>
    log ERROR (Text ("Error updating passenger with ID " ++ id ++ ": " ++ str_exn e));;
    inject (reraise_500 e).

Definition logged_delete_passenger (id : string) : lprog pydict :=
  try:
    (log INFO (Text ("Deleting passenger with ID: " ++ id));;
     o ← inject (ObjectId id);
     delete_result ← call (DeleteOne o);
     if Nat.eqb (deleted_count delete_result) 1 then
       log INFO (Text ("Passenger with ID " ++ id ++ " deleted successfully"));;
       Pure delete_message
     else
       log WARNING (Text ("Passenger with ID " ++ id ++ " not found"));;
       Throw not_found)
  except e =>
    log ERROR (Text ("Error deleting passenger with ID " ++ id ++ ": " ++ str_exn e));;
    inject (reraise_500 e).

(** ** Running with a log

    [lexec] performs a driver call on the store, and a log call by
    appending the record to the output when its level is enabled. *)

Section Run.
Context {S : Type} `{DocStore S}.

Definition lexec (o : lop) (st : S * list record) : (exn + lres o) * (S * list record) :=
  match o return (exn + lres o) * (S * list record) with
  | Call o' => let '(r, s') := store_exec o' st.1 in (r, (s', st.2))
  | Log l m =>
      (inr tt, (st.1, if enabled l then st.2 ++ [{| rec_level := l; rec_msg := m |}] else st.2))
  end.

Definition run_logged {A} (p : lprog A) (s : S) (logs : list record)
    : (exn + A) * S * list record :=
  let '(r, (s', logs')) := run lexec p (s, logs) in (r, s', logs').
End Run.

(** FastAPI around the logged handlers, as [serve] (Api.v) around the
    handlers: the response, the store and the log output. *)
Section Serve.
Context `{PydanticLib} {S : Type} `{DocStore S}.

Definition run_logged_handler (p : lprog pydict) (s : S) (logs : list record)
    : response * S * list record :=
  let '(r, s', logs') := run_logged p s logs in (respond r, s', logs').

Definition serve_logged (r : request) (s : S) (logs : list record)
    : response * S * list record :=
  match r with
  | GetRoot => (respond (inr root), s, logs)
  | PostCreate b =>
      match validate_PassengerCreate b with
      | inl errs => (unprocessable errs, s, logs)
      | inr p => run_logged_handler (logged_create_passenger p) s logs
      end
  | GetPassenger id => run_logged_handler (logged_get_passenger id) s logs
  | PutUpdate id b =>
      match validate_PassengerCreate b with
      | inl errs => (unprocessable errs, s, logs)
      | inr p => run_logged_handler (logged_update_passenger id p) s logs
      end
  | DeletePassenger id => run_logged_handler (logged_delete_passenger id) s logs
  end.
End Serve.

(** Programs that log nothing at level ERROR. *)
Inductive no_error_log {A} : lprog A -> Prop :=
| nel_pure a : no_error_log (Pure a)
| nel_throw e : no_error_log (Throw e)
| nel_call o k : (forall r, no_error_log (k r)) -> no_error_log (Await (Call o) k)
| nel_log l m k : l <> ERROR -> (forall r, no_error_log (k r)) -> no_error_log (Await (Log l m) k).

Definition error_free (logs : list record) : Prop := Forall (fun r => rec_level r <> ERROR) logs.

(** What the [except] clause of a request logs, before the detail. *)
Definition error_prefix (r : request) : string :=
  match r with
  | GetRoot => ""
  | PostCreate _ => "Error creating passenger: "
  | GetPassenger id => "Error fetching passenger with ID " ++ id ++ ": "
  | PutUpdate id _ => "Error updating passenger with ID " ++ id ++ ": "
  | DeletePassenger id => "Error deleting passenger with ID " ++ id ++ ": "
  end.

(** ** Erasing the log calls *)

Lemma erase_bind {A B} (f : A -> lprog B) (p : lprog A) :
  erase (p ≫= f) = erase p ≫= (fun a => erase (f a)).
Proof.
  induction p as [a|e|[o|l m] k IH]; cbn; [done|done| |apply IH].
  f_equal. extensionality r. apply IH.
Qed.

Lemma erase_try {A} (p : lprog A) h :
  erase (try_except p h) = try_except (erase p) (fun e => erase (h e)).
Proof.
  induction p as [a|e|[o|l m] k IH]; cbn; [done|done| |apply IH].
  f_equal. extensionality r. apply IH.
Qed.

Lemma erase_inject {A} (p : sprog A) : erase (inject p) = p.
Proof. induction p as [a|e|o k IH]; cbn; [done|done|]. f_equal. extensionality r. apply IH. Qed.

Lemma erase_call o : erase (call o) = await o.
Proof. unfold call, await. cbn. f_equal. extensionality r. by destruct r. Qed.

Lemma erase_log l m : erase (log l m) = mret tt.
Proof. reflexivity. Qed.

Lemma mret_bind {A B} (a : A) (f : A -> sprog B) : mret a ≫= f = f a.
Proof. reflexivity. Qed.

Ltac erase_tac :=
  repeat first
    [ rewrite erase_try | rewrite erase_bind | rewrite erase_log
    | match goal with
      |- context [@erase ?A (call ?o)] => rewrite (erase_call o : @erase A (call o) = await o)
      end
    | rewrite erase_inject | rewrite mret_bind
    | progress f_equal | let x := fresh "x" in extensionality x | progress case_match ].

Lemma erase_create p : erase (logged_create_passenger p) = create_passenger p.
Proof. unfold logged_create_passenger, create_passenger. cbv zeta. erase_tac. Qed.

Lemma erase_get id : erase (logged_get_passenger id) = get_passenger id.
Proof. unfold logged_get_passenger, get_passenger. erase_tac. Qed.

Lemma erase_update id p : erase (logged_update_passenger id p) = update_passenger id p.
Proof. unfold logged_update_passenger, update_passenger. cbv zeta. erase_tac. Qed.

Lemma erase_delete id : erase (logged_delete_passenger id) = delete_passenger id.
Proof. unfold logged_delete_passenger, delete_passenger. erase_tac. Qed.

(** ** Logging changes no answer and no store *)

Section RunLemmas.
Context {S : Type} `{DocStore S}.

Lemma run_lexec_erase {A} (p : lprog A) (s : S) logs :
  ((run lexec p (s, logs)).1, (run lexec p (s, logs)).2.1) = run store_exec (erase p) s.
Proof.
  revert s logs; induction p as [a|e|[o|l m] k IH]; intros s logs; cbn; [done|done| |apply IH].
  destruct (store_exec o s) as [r s']. apply IH.
Qed.

Lemma run_logged_erase {A} (p : lprog A) (s : S) logs :
  ((run_logged p s logs).1.1, (run_logged p s logs).1.2) = run_store (erase p) s.
Proof.
  unfold run_store. rewrite <- (run_lexec_erase p s logs). unfold run_logged.
  by destruct (run lexec p (s, logs)) as [r [s' l']].
Qed.

Lemma run_no_error_log {A} (p : lprog A) (s : S) logs :
  no_error_log p -> exists new, (run lexec p (s, logs)).2.2 = logs ++ new /\ error_free new.
Proof.
  intros Hp. revert s logs; induction Hp as [a|e|o k _ IH|l m k Hl _ IH]; intros s logs;
    cbn -[enabled].
  - exists []. split; [by rewrite app_nil_r|constructor].
  - exists []. split; [by rewrite app_nil_r|constructor].
  - destruct (store_exec o s) as [r s']. apply IH.
  - destruct (enabled l).
    + destruct (IH (inr tt) s (logs ++ [{| rec_level := l; rec_msg := m |}])) as (new & E & F).
      exists ({| rec_level := l; rec_msg := m |} :: new). rewrite E, <- app_assoc.
      split; [done|by constructor].
    + apply IH.
Qed.

(** The [except] clause every handler ends with: log [str(e)] at ERROR,
    then re-raise as a 500. *)
Lemma run_lexec_try {A} (p : lprog A) (msg : exn -> message) (s : S) logs :
  no_error_log p ->
  exists new, error_free new /\
  run lexec (try_except p (fun e => log ERROR (msg e);; inject (reraise_500 e))) (s, logs) =
    match run lexec p (s, logs) with
    | (inl e, st) =>
        (inl (HTTPException 500 (str_exn e)),
         (st.1, logs ++ new ++ [{| rec_level := ERROR; rec_msg := msg e |}]))
    | (inr a, st) => (inr a, (st.1, logs ++ new))
    end.
Proof.
  intros Hp. destruct (run_no_error_log p s logs Hp) as (new & E & F).
  exists new. split; [done|]. rewrite run_try_except.
  destruct (run lexec p (s, logs)) as [[e|a] [s' l']]; cbn in E |- *; subst l';
    by rewrite ?app_assoc.
Qed.
End RunLemmas.

Lemma no_error_log_bind {A B} (p : lprog A) (f : A -> lprog B) :
  no_error_log p -> (forall a, no_error_log (f a)) -> no_error_log (p ≫= f).
Proof. intros Hp Hf. induction Hp; cbn; [apply Hf|constructor|by constructor|by constructor]. Qed.

Lemma no_error_log_inject {A} (p : sprog A) : no_error_log (inject p).
Proof. induction p; cbn; by constructor. Qed.

Lemma no_error_log_call o : no_error_log (call o).
Proof. constructor. intros [e|v]; constructor. Qed.

Lemma no_error_log_log l m : l <> ERROR -> no_error_log (log l m).
Proof. intros Hl. constructor; [done|]. intros [e|v]; constructor. Qed.

Ltac nel_tac :=
  repeat first
    [ progress intros | apply no_error_log_bind | apply no_error_log_inject
    | match goal with |- no_error_log (call ?o) => exact (no_error_log_call o) end
    | (apply no_error_log_log; discriminate)
    | apply nel_throw | apply nel_pure | progress case_match ].

Section ServeLemmas.
Context `{PydanticLib} {S : Type} `{DocStoreLaws S}.

(** A handler ending with the [except] clause answers 500 exactly when it
    logs an ERROR record, its last, whose text is the prefix followed by
    the detail of the answer. *)
Lemma logged_handler_errors (p : lprog pydict) (msg : exn -> message) pre (s : S) :
  no_error_log p -> (forall e, msg e = Text (pre ++ str_exn e)) ->
  match run_logged_handler (try_except p (fun e => log ERROR (msg e);; inject (reraise_500 e))) s [] with
  | (resp, _, logs) =>
      (status_code resp = 500%N /\ exists d pre',
         body resp = Detail d /\
         logs = pre' ++ [{| rec_level := ERROR; rec_msg := Text (pre ++ d) |}] /\ error_free pre') \/
      (status_code resp <> 500%N /\ error_free logs)
  end.
Proof.
  intros Hp Hm. unfold run_logged_handler, run_logged.
  destruct (run_lexec_try p msg s [] Hp) as (new & F & ->).
  destruct (run lexec p (s, [])) as [[e|a] [s' l']]; cbn.
  - left. split; [done|]. exists (str_exn e), new. rewrite Hm. by split_and!.
  - right. split; [discriminate|exact F].
Qed.
End ServeLemmas.

Ltac nel_body := cbv zeta; nel_tac.

Ltac errors_tac pre :=
  apply (logged_handler_errors _ _ pre); [nel_body | intros; cbn [error_prefix]; by rewrite ?string_app_assoc].

Section Claims.
Context `{PydanticLib} {S : Type} `{DocStoreLaws S}.

(** C31: A request answers 500 exactly when it logs an ERROR record.
    That record is the last one it logs, no earlier record is an ERROR,
    and its text is the handler's prefix followed by the detail the client
    receives.  A request that answers anything else logs no ERROR. *)
Theorem serve_logs_error_iff_500 r (s : S) :
  match serve_logged r s [] with
  | (resp, _, logs) =>
      (status_code resp = 500%N /\ exists d pre,
         body resp = Detail d /\
         logs = pre ++ [{| rec_level := ERROR; rec_msg := Text (error_prefix r ++ d) |}] /\
         error_free pre) \/
      (status_code resp <> 500%N /\ error_free logs)
  end.
Proof.
  destruct r as [|b|id|id b|id]; cbn [serve_logged].
  - right. split; [discriminate|constructor].
  - destruct (validate_PassengerCreate b).
    + right. split; [discriminate|constructor].
    + unfold logged_create_passenger. errors_tac (error_prefix (PostCreate b)).
  - unfold logged_get_passenger. errors_tac (error_prefix (GetPassenger id)).
  - destruct (validate_PassengerCreate b).
    + right. split; [discriminate|constructor].
    + unfold logged_update_passenger. errors_tac (error_prefix (PutUpdate id b)).
  - unfold logged_delete_passenger. errors_tac (error_prefix (DeletePassenger id)).
Qed.

(** C30: Reading a passenger that is not stored logs three records: the
    INFO line naming the id, the WARNING that it was not found, and an
    ERROR line, since the [except] clause catches the handler's own
    HTTPException(404) and logs "Error fetching passenger with ID ...:
    404: Passenger not found" before answering 500 with that detail. *)
Theorem get_missing_logs id o (s : S) :
  store_ok s -> parse_object_id id = Some o -> store_view s !! o = None ->
  exists s', store_view s' = store_view s /\
    serve_logged (GetPassenger id) s [] =
      (rewrapped_not_found, s',
       [{| rec_level := INFO; rec_msg := Text ("Fetching passenger with ID: " ++ id) |};
        {| rec_level := WARNING; rec_msg := Text ("Passenger with ID " ++ id ++ " not found") |};
        {| rec_level := ERROR;
           rec_msg := Text ("Error fetching passenger with ID " ++ id ++ ": 404: Passenger not found") |}]).
Proof.
  intros Hok Hp Hn.
  pose proof (store_exec_refines (FindOne o) s Hok) as R.
  destruct (store_exec (FindOne o) s) as [r s'] eqn:E.
  cbn [abs_exec fst snd] in R. unfold abs_find in R. rewrite Hn in R. injection R as -> Hv.
  exists s'. split; [exact Hv|].
  cbn [serve_logged]. unfold run_logged_handler, run_logged, logged_get_passenger.
  rewrite run_try_except. unfold ObjectId. rewrite Hp. cbn -[store_exec]. rewrite E. reflexivity.
Qed.
End Claims.

#[local] Existing Instance sample_lib.

Lemma get_missing_logs_witness :
  exists s', store_view s' = store_view jane_collection /\
    serve_logged (GetPassenger (oid_str 5)) jane_collection [] =
      (rewrapped_not_found, s',
       [{| rec_level := INFO; rec_msg := Text ("Fetching passenger with ID: " ++ oid_str 5) |};
        {| rec_level := WARNING; rec_msg := Text ("Passenger with ID " ++ oid_str 5 ++ " not found") |};
        {| rec_level := ERROR;
           rec_msg := Text ("Error fetching passenger with ID " ++ oid_str 5 ++
                            ": 404: Passenger not found") |}]).
Proof.
  apply (get_missing_logs (oid_str 5) 5%N jane_collection).
  - exact jane_collection_ok.
  - vm_compute. reflexivity.
  - rewrite jane_collection_view. apply lookup_singleton_ne. discriminate.
Defined.

End Logs.
